(** * CryptoAnalyst: asset catalog, text resolver and the gated pipeline

    A shallow embedding of
      - [agentic/data/crypto_assets.py] (catalog data and accessors),
      - [agentic/workflows/crypto_analysis_workflow.py] (text resolver),
      - [agentic/workflows/ai_enhanced_workflow.py] (AI ticker extraction),
      - [agentic/workflows/enhanced_asset_extraction_workflow.py]
        (the eight-stage pipeline with validation and the HITL notice).

    Python objects are modelled by the type [value]; an operation that can
    raise returns a [result]; a stage is a function on the pipeline state
    that yields a [result] together with the state as it was left, because
    a stage mutates the state object in place and the mutation survives an
    exception.

    Strings are sequences of 8-bit characters read as ASCII text: case
    conversion and whitespace follow Python on that range. *)

From Stdlib Require Import ZArith String Ascii List Floats Bool Lia DecimalString.
From stdpp Require Import gmap strings.
Import ListNotations.

Set Warnings "-inexact-float,-register-all".
Local Open Scope string_scope.

(** ** Python values and exceptions *)

(** The objects the code handles: what [json.loads] can return, plus
    dictionaries keyed by arbitrary hashable values.  A dictionary keeps
    its insertion order, so it is an association list. *)
Inductive value : Type :=
| VNone
| VBool (b : bool)
| VInt (n : Z)
| VFloat (x : float)
| VStr (s : string)
| VList (l : list value)
| VDict (d : list (value * value)).

Inductive exn : Type :=
| KeyError
| TypeError
| AttributeError
| IndexError
| ValueError
| OverflowError
| ExternalError (msg : string).

Inductive result (A : Type) : Type :=
| Ok (a : A)
| Raise (e : exn).
Arguments Ok {A} a.
Arguments Raise {A} e.

Definition rbind {A B} (r : result A) (k : A -> result B) : result B :=
  match r with
  | Ok a => k a
  | Raise e => Raise e
  end.

Notation "'let?' x ':=' r 'in' k" := (rbind r (fun x => k))
  (at level 10, x name, r at level 100, k at level 200).

Fixpoint rmap {A B} (f : A -> result B) (l : list A) : result (list B) :=
  match l with
  | [] => Ok []
  | a :: l' =>
      let? b := f a in
      let? bs := rmap f l' in
      Ok (b :: bs)
  end.

(** ** Strings *)

Module Str.

Definition is_lower (c : ascii) : bool :=
  (97 <=? nat_of_ascii c)%nat && (nat_of_ascii c <=? 122)%nat.

Definition is_upper (c : ascii) : bool :=
  (65 <=? nat_of_ascii c)%nat && (nat_of_ascii c <=? 90)%nat.

Definition upper_char (c : ascii) : ascii :=
  if is_lower c then ascii_of_nat (nat_of_ascii c - 32) else c.

Definition lower_char (c : ascii) : ascii :=
  if is_upper c then ascii_of_nat (nat_of_ascii c + 32) else c.

Fixpoint map (f : ascii -> ascii) (s : string) : string :=
  match s with
  | EmptyString => EmptyString
  | String c s' => String (f c) (map f s')
  end.

(** [str.upper()] and [str.lower()] *)
Definition upper (s : string) : string := map upper_char s.
Definition lower (s : string) : string := map lower_char s.

Fixpoint starts_with (p s : string) : bool :=
  match p, s with
  | EmptyString, _ => true
  | String a p', String b s' => Ascii.eqb a b && starts_with p' s'
  | String _ _, EmptyString => false
  end.

(** [needle in hay] on two strings *)
Fixpoint contains (needle hay : string) : bool :=
  starts_with needle hay ||
  match hay with
  | EmptyString => false
  | String _ hay' => contains needle hay'
  end.

(** the characters [str.isspace] accepts *)
Definition is_space (c : ascii) : bool :=
  let n := nat_of_ascii c in
  ((9 <=? n)%nat && (n <=? 13)%nat) || ((28 <=? n)%nat && (n <=? 32)%nat).

Fixpoint lstrip (s : string) : string :=
  match s with
  | EmptyString => EmptyString
  | String c s' => if is_space c then lstrip s' else s
  end.

Fixpoint rstrip (s : string) : string :=
  match s with
  | EmptyString => EmptyString
  | String c s' =>
      match rstrip s' with
      | EmptyString => if is_space c then EmptyString else String c EmptyString
      | r => String c r
      end
  end.

(** [str.strip()] *)
Definition strip (s : string) : string := lstrip (rstrip s).

(** [s.replace(c, '')] for a one-character pattern *)
Fixpoint remove_char (c : ascii) (s : string) : string :=
  match s with
  | EmptyString => EmptyString
  | String a s' =>
      if Ascii.eqb a c then remove_char c s' else String a (remove_char c s')
  end.

Fixpoint chars (s : string) : list string :=
  match s with
  | EmptyString => []
  | String c s' => String c EmptyString :: chars s'
  end.

End Str.

(** ** Primitive operations on values *)

Module Py.

(** Truth value of an object, as [if x:] and [not x] test it. *)
Definition truthy (v : value) : bool :=
  match v with
  | VNone => false
  | VBool b => b
  | VInt n => negb (n =? 0)%Z
  | VFloat x => negb (PrimFloat.eqb x 0%float)
  | VStr s => negb (String.eqb s "")
  | VList l => match l with [] => false | _ => true end
  | VDict d => match d with [] => false | _ => true end
  end.

(** The integer a float denotes, when it denotes one. *)
Definition float_to_Z (x : float) : option Z :=
  match Prim2SF x with
  | S754_zero _ => Some 0%Z
  | S754_finite s m e =>
      let mag :=
        if (0 <=? e)%Z then Some (Z.pos m * 2 ^ e)%Z
        else if (Z.pos m mod 2 ^ (- e) =? 0)%Z then Some (Z.pos m / 2 ^ (- e))%Z
        else None in
      match mag with
      | Some z => Some (if s then (- z)%Z else z)
      | None => None
      end
  | _ => None
  end.

Definition Z_of_bool (b : bool) : Z := if b then 1%Z else 0%Z.

(** [a == b] on the hashable values (the values a dictionary key can be).
    [bool] is a subtype of [int]; numbers compare by value across types. *)
Definition key_eqb (a b : value) : bool :=
  let num v :=
    match v with
    | VBool b => Some (inl (Z_of_bool b))
    | VInt n => Some (inl n)
    | VFloat x => Some (inr x)
    | _ => None
    end in
  match a, b with
  | VNone, VNone => true
  | VStr s, VStr t => String.eqb s t
  | _, _ =>
      match num a, num b with
      | Some (inl m), Some (inl n) => (m =? n)%Z
      | Some (inr x), Some (inr y) => PrimFloat.eqb x y
      | Some (inl m), Some (inr x) | Some (inr x), Some (inl m) =>
          match float_to_Z x with
          | Some n => (m =? n)%Z
          | None => false
          end
      | _, _ => false
      end
  end.

Definition hashable (v : value) : bool :=
  match v with
  | VList _ | VDict _ => false
  | _ => true
  end.

Fixpoint lookup (k : value) (d : list (value * value)) : option value :=
  match d with
  | [] => None
  | (k', v) :: d' => if key_eqb k' k then Some v else lookup k d'
  end.

(** [d[k] = v] on a dictionary: an existing key keeps its position. *)
Fixpoint store (k v : value) (d : list (value * value)) : list (value * value) :=
  match d with
  | [] => [(k, v)]
  | (k', v') :: d' =>
      if key_eqb k' k then (k', v) :: d' else (k', v') :: store k v d'
  end.

(** [d[k] = v] with the check that the key can be hashed. *)
Definition setitem (d : list (value * value)) (k v : value)
    : result (list (value * value)) :=
  if hashable k then Ok (store k v d) else Raise TypeError.

(** [obj.get(key, default)]: only a dictionary has the method. *)
Definition get (obj : value) (key : value) (default : value) : result value :=
  match obj with
  | VDict d =>
      if hashable key then
        Ok (match lookup key d with Some v => v | None => default end)
      else Raise TypeError
  | _ => Raise AttributeError
  end.

(** Index [i] of a sequence of length [n], counting from the end when
    negative. *)
Definition seq_index (i : Z) (n : nat) : option nat :=
  if (0 <=? i)%Z then
    if (i <? Z.of_nat n)%Z then Some (Z.to_nat i) else None
  else
    if (- Z.of_nat n <=? i)%Z then Some (Z.to_nat (Z.of_nat n + i)) else None.

Definition as_index (key : value) : option Z :=
  match key with
  | VInt i => Some i
  | VBool b => Some (Z_of_bool b)
  | _ => None
  end.

(** [obj[key]] *)
Definition getitem (obj : value) (key : value) : result value :=
  match obj with
  | VDict d =>
      if hashable key then
        match lookup key d with Some v => Ok v | None => Raise KeyError end
      else Raise TypeError
  | VList l =>
      match as_index key with
      | Some i =>
          match seq_index i (length l) with
          | Some n => match nth_error l n with Some v => Ok v | None => Raise IndexError end
          | None => Raise IndexError
          end
      | None => Raise TypeError
      end
  | VStr s =>
      match as_index key with
      | Some i =>
          match seq_index i (String.length s) with
          | Some n =>
              match nth_error (Str.chars s) n with
              | Some c => Ok (VStr c)
              | None => Raise IndexError
              end
          | None => Raise IndexError
          end
      | None => Raise TypeError
      end
  | _ => Raise TypeError
  end.

(** The elements a [for] loop or a comprehension runs over. *)
Definition iter (obj : value) : result (list value) :=
  match obj with
  | VList l => Ok l
  | VStr s => Ok (List.map VStr (Str.chars s))
  | VDict d => Ok (List.map fst d)
  | _ => Raise TypeError
  end.

(** [len(obj)] *)
Definition len (obj : value) : result Z :=
  match obj with
  | VList l => Ok (Z.of_nat (length l))
  | VStr s => Ok (Z.of_nat (String.length s))
  | VDict d => Ok (Z.of_nat (length d))
  | _ => Raise TypeError
  end.

(** [x in obj].  On a list the elements are compared with [==]; the
    comparison is [key_eqb], which is Python's [==] as soon as one side
    is a string, a number or [None], as it is at every use below. *)
Definition contains (x : value) (obj : value) : result bool :=
  match obj with
  | VList l => Ok (existsb (fun e => key_eqb e x) l)
  | VStr t =>
      match x with
      | VStr s => Ok (Str.contains s t)
      | _ => Raise TypeError
      end
  | VDict d =>
      if hashable x then
        Ok (match lookup x d with Some _ => true | None => false end)
      else Raise TypeError
  | _ => Raise TypeError
  end.

(** [obj.upper()] *)
Definition upper (obj : value) : result value :=
  match obj with
  | VStr s => Ok (VStr (Str.upper s))
  | _ => Raise AttributeError
  end.

(** [obj.items()] *)
Definition items (obj : value) : result (list (value * value)) :=
  match obj with
  | VDict d => Ok d
  | _ => Raise AttributeError
  end.

(** [n < y] for an [int] and a [float]: Python compares the exact
    values, without rounding the integer. *)
Definition Z_lt_float (n : Z) (y : float) : bool :=
  match Prim2SF y with
  | S754_zero _ => (n <? 0)%Z
  | S754_infinity s => negb s
  | S754_nan => false
  | S754_finite s m e =>
      let v := if s then Z.neg m else Z.pos m in
      if (0 <=? e)%Z then (n <? v * 2 ^ e)%Z else (n * 2 ^ (- e) <? v)%Z
  end.

(** [obj < y] for a float [y]: defined on numbers only. *)
Definition lt_float (obj : value) (y : float) : result bool :=
  match obj with
  | VFloat x => Ok (PrimFloat.ltb x y)
  | VInt n => Ok (Z_lt_float n y)
  | VBool b => Ok (Z_lt_float (Z_of_bool b) y)
  | _ => Raise TypeError
  end.

(** [a == s] for a string literal [s] *)
Definition eq_str (a : value) (s : string) : bool := key_eqb a (VStr s).

End Py.

(** A dictionary display with string keys, [{"k": v, ...}]. *)
Definition dict (kvs : list (string * value)) : value :=
  VDict (List.map (fun kv => (VStr (fst kv), snd kv)) kvs).

Definition strs (l : list string) : value := VList (List.map VStr l).

(** ** The asset catalog ([crypto_assets.py]) *)

Definition asset (name : string) (aliases : list string) (confidence : float)
    (sectors : option (list string)) : value :=
  dict ([("name", VStr name); ("aliases", strs aliases);
         ("confidence", VFloat confidence)]
        ++ match sectors with
           | Some l => [("sectors", strs l)]
           | None => []
           end).

Definition CRYPTO_ASSETS : value := dict
  [ ("BTC", asset "Bitcoin" ["bitcoin"; "btc"; "king"; "king of crypto"] 0.99 None);
    ("ETH", asset "Ethereum" ["ethereum"; "eth"; "etherium"; "smart contract platform"] 0.98 None);
    ("ADA", asset "Cardano" ["cardano"; "ada"] 0.95 None);
    ("DOT", asset "Polkadot" ["polkadot"; "dot"; "internet of blockchains"] 0.95 None);
    ("LINK", asset "Chainlink" ["chainlink"; "link"; "oracle network"] 0.94 None);
    ("UNI", asset "Uniswap" ["uniswap"; "uni"; "dex token"] 0.93 None);
    ("LTC", asset "Litecoin" ["litecoin"; "ltc"] 0.92 None);
    ("BCH", asset "Bitcoin Cash" ["bitcoin cash"; "bch"] 0.91 None);
    ("SOL", asset "Solana" ["solana"; "sol"] 0.96 None);
    ("MATIC", asset "Polygon" ["polygon"; "matic"] 0.94 None);
    ("AVAX", asset "Avalanche" ["avalanche"; "avax"] 0.93 None);
    ("ATOM", asset "Cosmos" ["cosmos"; "atom"] 0.92 None);
    ("ALGO", asset "Algorand" ["algorand"; "algo"] 0.90 None);
    ("XLM", asset "Stellar" ["stellar"; "xlm"] 0.89 None);
    ("VET", asset "VeChain" ["vechain"; "vet"] 0.88 None);
    ("FET", asset "Fetch.ai" ["fetch.ai"; "fetch"; "fet"] 0.85 (Some ["AI"]));
    ("NEAR", asset "NEAR Protocol" ["near protocol"; "near"] 0.87 (Some ["AI"; "Layer1"]));
    ("RNDR", asset "Render" ["render"; "rndr"] 0.86 (Some ["AI"; "Compute"]));
    ("OCEAN", asset "Ocean Protocol" ["ocean protocol"; "ocean"] 0.84 (Some ["AI"; "Data"]));
    ("AGIX", asset "SingularityNET" ["singularitynet"; "agix"] 0.83 (Some ["AI"]));
    ("AAVE", asset "Aave" ["aave"] 0.92 (Some ["DeFi"]));
    ("COMP", asset "Compound" ["compound"; "comp"] 0.91 (Some ["DeFi"]));
    ("SUSHI", asset "SushiSwap" ["sushiswap"; "sushi"] 0.89 (Some ["DeFi"]));
    ("AXS", asset "Axie Infinity" ["axie infinity"; "axs"] 0.88 (Some ["Gaming"]));
    ("MANA", asset "Decentraland" ["decentraland"; "mana"] 0.87 (Some ["Gaming"; "Metaverse"]));
    ("PEPE", asset "Pepe" ["pepe"] 0.80 (Some ["Meme"]));
    ("DOGE", asset "Dogecoin" ["dogecoin"; "doge"] 0.85 (Some ["Meme"]));
    ("SHIB", asset "Shiba Inu" ["shiba inu"; "shib"] 0.84 (Some ["Meme"]));
    ("USDT", asset "Tether" ["tether"; "usdt"] 0.96 (Some ["Stablecoin"]));
    ("USDC", asset "USD Coin" ["usd coin"; "usdc"] 0.95 (Some ["Stablecoin"]));
    ("DAI", asset "Dai" ["dai"] 0.94 (Some ["Stablecoin"]));
    ("ARB", asset "Arbitrum" ["arbitrum"; "arb"] 0.93 (Some ["Layer2"]));
    ("OP", asset "Optimism" ["optimism"; "op"] 0.92 (Some ["Layer2"]));
    ("IMX", asset "Immutable" ["immutable"; "imx"] 0.90 (Some ["Layer2"; "Gaming"])) ].

Definition SECTOR_MAPPINGS : value := dict
  [ ("AI", strs ["FET"; "NEAR"; "RNDR"; "OCEAN"; "AGIX"]);
    ("DeFi", strs ["AAVE"; "COMP"; "SUSHI"; "UNI"]);
    ("Gaming", strs ["AXS"; "MANA"; "IMX"]);
    ("Layer1", strs ["BTC"; "ETH"; "SOL"; "ADA"; "DOT"; "AVAX"]);
    ("Layer2", strs ["ARB"; "OP"; "MATIC"]);
    ("Meme", strs ["PEPE"; "DOGE"; "SHIB"]);
    ("Stablecoin", strs ["USDT"; "USDC"; "DAI"]) ].

Definition MISSPELLINGS : list (string * string) :=
  [ ("etherium", "ETH"); ("bitcon", "BTC"); ("solana", "SOL");
    ("polkadot", "DOT"); ("chainlink", "LINK"); ("uniswap", "UNI");
    ("litecoin", "LTC"); ("bitcoin cash", "BCH"); ("polygon", "MATIC");
    ("avalanche", "AVAX"); ("cosmos", "ATOM"); ("algorand", "ALGO");
    ("stellar", "XLM"); ("vechain", "VET") ].

Definition CRYPTO_TICKERS : list (string * string) :=
  [ ("Bitcoin", "BTC"); ("Ethereum", "ETH"); ("Cardano", "ADA");
    ("Polkadot", "DOT"); ("Chainlink", "LINK"); ("Uniswap", "UNI");
    ("Litecoin", "LTC"); ("Bitcoin Cash", "BCH"); ("Solana", "SOL");
    ("Polygon", "MATIC"); ("Avalanche", "AVAX"); ("Cosmos", "ATOM");
    ("Algorand", "ALGO"); ("Stellar", "XLM"); ("VeChain", "VET") ].

(** [CRYPTO_ASSETS.get(ticker.upper(), {})] *)
Definition get_asset_by_ticker (ticker : value) : result value :=
  let? key := Py.upper ticker in
  Py.get CRYPTO_ASSETS key (dict []).

(** [SECTOR_MAPPINGS.get(sector.upper(), [])] *)
Definition get_assets_by_sector (sector : value) : result value :=
  let? key := Py.upper sector in
  Py.get SECTOR_MAPPINGS key (VList []).

Definition is_stablecoin (ticker : value) : result bool :=
  let? asset := get_asset_by_ticker ticker in
  let? sectors := Py.get asset (VStr "sectors") (VList []) in
  Py.contains (VStr "Stablecoin") sectors.

Definition get_confidence_threshold : float := 0.85.

Definition should_trigger_hitl (confidence asset_info : value) : result bool :=
  let? low := Py.lt_float confidence get_confidence_threshold in
  if low then Ok true else
  let? sectors := Py.get asset_info (VStr "sectors") (VList []) in
  let? meme := Py.contains (VStr "Meme") sectors in
  if meme then Ok true else
  let? collision := Py.contains (VStr "collision_candidates") asset_info in
  if collision then Ok true else
  Ok false.

(** [list(CRYPTO_TICKERS.values())] *)
Definition get_available_tickers : value :=
  strs (List.map snd CRYPTO_TICKERS).

Definition is_valid_ticker (ticker : value) : result bool :=
  Py.contains ticker get_available_tickers.

(** ** The text resolver ([crypto_analysis_workflow.py]) *)

Definition common_tickers : list string :=
  ["BTC"; "ETH"; "ADA"; "DOT"; "LINK"; "UNI"; "LTC"; "BCH"].

Definition py_lower (obj : value) : result string :=
  match obj with
  | VStr s => Ok (Str.lower s)
  | _ => Raise AttributeError
  end.

(** The [for] loop of [_extract_ticker_from_text]: the first ticker whose
    lower-case form occurs in the lower-cased text, [None] when the loop
    runs out. *)
Fixpoint scan_tickers (tickers : list string) (text : value) : result (option string) :=
  match tickers with
  | [] => Ok None
  | ticker :: rest =>
      let? low := py_lower text in
      if Str.contains (Str.lower ticker) low then Ok (Some ticker)
      else scan_tickers rest text
  end.

Definition _extract_ticker_from_text (text : value) : result value :=
  let? found := scan_tickers common_tickers text in
  match found with
  | Some ticker => Ok (VStr ticker)
  | None => Ok (VStr "BTC")
  end.

(** ** The pipeline state and the stage monad *)

(** [GlobalState] is a dictionary with string keys that is only read and
    written by key. *)
Abbreviation state := (gmap string value).

(** A computation over the state object: its outcome and the state as the
    computation left it (a raise does not undo earlier writes). *)
Definition M (A : Type) : Type := state -> result A * state.

Definition ret {A} (a : A) : M A := fun s => (Ok a, s).

Definition bind {A B} (m : M A) (k : A -> M B) : M B :=
  fun s =>
    match m s with
    | (Ok a, s') => k a s'
    | (Raise e, s') => (Raise e, s')
    end.

Notation "'let!' x ':=' m 'in' k" := (bind m (fun x => k))
  (at level 10, x name, m at level 100, k at level 200).

Definition lift {A} (r : result A) : M A := fun s => (r, s).

(** [state.get(key, default)] *)
Definition state_get (key : string) (default : value) : M value :=
  fun s => (Ok (match s !! key with Some v => v | None => default end), s).

(** [state[key] = v] *)
Definition state_set (key : string) (v : value) : M unit :=
  fun s => (Ok tt, <[key := v]> s).

(** [try: body except Exception as e: handler e] *)
Definition try_except {A} (body : M A) (handler : exn -> M A) : M A :=
  fun s =>
    match body s with
    | (Ok a, s') => (Ok a, s')
    | (Raise e, s') => handler e s'
    end.

(** [state["messages"].append(entry)]: the subscript and the attribute are
    evaluated before the argument. *)
Definition append_message (entry : result value) : M unit :=
  fun s =>
    match s !! "messages" with
    | None => (Raise KeyError, s)
    | Some (VList log) =>
        match entry with
        | Ok e => (Ok tt, <["messages" := VList (log ++ [e])%list]> s)
        | Raise x => (Raise x, s)
        end
    | Some _ => (Raise AttributeError, s)
    end.

(** The message log of a state, when it has one. *)
Definition messages (s : state) : option (list value) :=
  match s !! "messages" with
  | Some (VList log) => Some log
  | _ => None
  end.

Definition nl : string := String (ascii_of_nat 10) "".
Definition double_quote : ascii := ascii_of_nat 34.
Definition single_quote : ascii := ascii_of_nat 39.

(** ** The enhanced asset-extraction workflow *)

Section Workflow.

(** [str(x)], as an f-string field renders an object that is not itself
    a string. *)
Variable py_str : value -> string.
(** [str(e)] for a caught exception. *)
Variable exn_str : exn -> string.
(** A number rendered by the format specification [.2f]. *)
Variable fixed2 : value -> string.
(** [len(report)] for the report text, whose headings contain characters
    outside ASCII. *)
Variable text_len : string -> Z.

Definition fmt (v : value) : string :=
  match v with
  | VStr s => s
  | _ => py_str v
  end.

Definition message (agent : string) (content : string) (now : string)
    (metadata : option value) : value :=
  dict ([("role", VStr "agent"); ("agent", VStr agent);
         ("content", VStr content); ("timestamp", VStr now)]
        ++ match metadata with
           | Some m => [("metadata", m)]
           | None => []
           end).

(** [[asset['ticker'] for asset in assets]] *)
Definition tickers_of (assets : value) : result value :=
  let? items := Py.iter assets in
  let? ts := rmap (fun a => Py.getitem a (VStr "ticker")) items in
  Ok (VList ts).

(** [state.get("messages", [{}])[-1].get("content", "")
     if state.get("messages") else ""] *)
Definition read_user_input : M value :=
  let! present := state_get "messages" VNone in
  if Py.truthy present then
    let! msgs := state_get "messages" (VList [dict []]) in
    lift (let? last := Py.getitem msgs (VInt (-1)) in
          Py.get last (VStr "content") (VStr ""))
  else ret (VStr "").

(** *** Stage 1: enhanced asset extraction *)

Definition extraction_message (asset_data : value) (now : string) : result value :=
  let? assets := Py.get asset_data (VStr "extracted_assets") (VList []) in
  let? n := Py.len assets in
  let? tickers := tickers_of assets in
  let content :=
    "Enhanced AI extracted " ++ fmt (VInt n) ++ " assets: " ++ fmt tickers in
  let? mode := Py.get asset_data (VStr "mode") VNone in
  let? items := Py.iter assets in
  let? scores := rmap (fun a => Py.get a (VStr "confidence") (VInt 0)) items in
  let? hitl := Py.get asset_data (VStr "hitl_required") (VBool false) in
  Ok (message "enhanced_asset_extraction" content now
        (Some (dict [("mode", mode); ("confidence_scores", VList scores);
                     ("hitl_required", hitl)]))).

(** [primary_ticker = "BTC"], replaced by
    [asset_data["extracted_assets"][0]["ticker"]] when
    [asset_data.get("extracted_assets")] is true. *)
Definition primary_ticker_of (asset_data : value) : result value :=
  let? found := Py.get asset_data (VStr "extracted_assets") VNone in
  if Py.truthy found then
    let? assets := Py.getitem asset_data (VStr "extracted_assets") in
    let? first := Py.getitem assets (VInt 0) in
    Py.getitem first (VStr "ticker")
  else Ok (VStr "BTC").

(** The [try] block.  [extractor] stands for the call of the language-model
    chain followed by [json.loads], as a function of the user input: it
    yields the parsed response or raises.  (The chain itself is an external
    collaborator and is taken to be built without error.) *)
Definition extraction_try (extractor : value -> result value)
    (user_input : value) (now : string) : M unit :=
  let! asset_data := lift (extractor user_input) in
  let! primary_ticker := lift (primary_ticker_of asset_data) in
  let! _ := state_set "ticker" primary_ticker in
  let! assets := lift (Py.get asset_data (VStr "extracted_assets") (VList [])) in
  let! _ := state_set "extracted_assets" assets in
  let! mode := lift (Py.get asset_data (VStr "mode") (VStr "asset_specific")) in
  let! _ := state_set "analysis_mode" mode in
  let! meta := lift (Py.get asset_data (VStr "meta") (dict [])) in
  let! _ := state_set "analysis_meta" meta in
  let! notes := lift (Py.get asset_data (VStr "parse_notes") (VStr "")) in
  let! _ := state_set "parse_notes" notes in
  let! hitl := lift (Py.get asset_data (VStr "hitl_required") (VBool false)) in
  let! _ := state_set "hitl_required" hitl in
  let! reason := lift (Py.get asset_data (VStr "hitl_reason") (VStr "")) in
  let! _ := state_set "hitl_reason" reason in
  append_message (extraction_message asset_data now).

Definition fallback_asset : value :=
  dict [("ticker", VStr "BTC"); ("name", VStr "Bitcoin"); ("confidence", VFloat 0.5)].

(** The [except] block. *)
Definition extraction_except (now : string) (e : exn) : M unit :=
  let! _ := state_set "ticker" (VStr "BTC") in
  let! _ := state_set "extracted_assets" (VList [fallback_asset]) in
  let! _ := state_set "analysis_mode" (VStr "asset_specific") in
  let! _ := state_set "hitl_required" (VBool true) in
  let! _ := state_set "hitl_reason" (VStr "extraction_error") in
  append_message
    (Ok (message "enhanced_asset_extraction"
           "Asset extraction failed, using fallback: BTC" now
           (Some (dict [("error", VStr (exn_str e))])))).

Definition _enhanced_asset_extraction_agent
    (extractor : value -> result value) (now : string) : M unit :=
  let! user_input := read_user_input in
  try_except (extraction_try extractor user_input now) (extraction_except now).

(** *** Stage 3: the human-in-the-loop notice *)

Definition hitl_notice (hitl_reason extracted_assets : value) : result string :=
  if Py.eq_str hitl_reason "confidence_low" then
    let? ts := tickers_of extracted_assets in
    Ok ("Low confidence in asset extraction. Extracted: " ++ fmt ts
        ++ ". Proceeding with analysis.")
  else if Py.eq_str hitl_reason "ambiguous_asset" then
    let? ts := tickers_of extracted_assets in
    Ok ("Ambiguous asset detected. Extracted: " ++ fmt ts
        ++ ". Proceeding with analysis.")
  else if Py.eq_str hitl_reason "sector_request" then
    let? ts := tickers_of extracted_assets in
    Ok ("Sector request detected. Representative assets: " ++ fmt ts
        ++ ". Proceeding with analysis.")
  else
    Ok ("Human-in-the-loop required for: " ++ fmt hitl_reason
        ++ ". Proceeding with analysis.").

Definition _human_in_the_loop_agent (now : string) : M unit :=
  let! hitl_required := state_get "hitl_required" (VBool false) in
  if negb (Py.truthy hitl_required) then
    append_message
      (Ok (message "human_in_the_loop"
             "No human intervention required, proceeding with analysis" now None))
  else
    let! hitl_reason := state_get "hitl_reason" (VStr "unknown") in
    let! extracted_assets := state_get "extracted_assets" (VList []) in
    let! text := lift (hitl_notice hitl_reason extracted_assets) in
    append_message
      (Ok (message "human_in_the_loop" text now
             (Some (dict [("hitl_reason", hitl_reason);
                          ("extracted_assets", extracted_assets)])))).

(** *** Stage 2: asset validation *)

(** One iteration of the loop body: the warnings list after the asset. *)
Definition validate_asset (warnings : list value) (asset : value)
    : result (list value) :=
  let? ticker := Py.get asset (VStr "ticker") (VStr "") in
  let? confidence := Py.get asset (VStr "confidence") (VInt 0) in
  let? stable := is_stablecoin ticker in
  let warnings :=
    if stable then
      (warnings ++ [VStr ("Stablecoin detected: " ++ fmt ticker
                          ++ " - Technical analysis may not be meaningful")])%list
    else warnings in
  let? low := Py.lt_float confidence 0.85 in
  let warnings :=
    if low then
      (warnings ++ [VStr ("Low confidence in " ++ fmt ticker ++ ": "
                          ++ fmt confidence)])%list
    else warnings in
  let? asset_info := get_asset_by_ticker ticker in
  let? sectors := Py.get asset_info (VStr "sectors") (VList []) in
  let? meme := Py.contains (VStr "Meme") sectors in
  let warnings :=
    if meme then
      (warnings ++ [VStr ("Meme coin detected: " ++ fmt ticker
                          ++ " - High volatility expected")])%list
    else warnings in
  Ok warnings.

(** The [for] loop over the extracted assets. *)
Fixpoint validate_assets (warnings : list value) (assets : list value)
    : result (list value) :=
  match assets with
  | [] => Ok warnings
  | asset :: rest =>
      let? warnings' := validate_asset warnings asset in
      validate_assets warnings' rest
  end.

Definition _asset_validation_agent (now : string) : M unit :=
  let! extracted_assets := state_get "extracted_assets" (VList []) in
  let! warnings :=
    lift (let? items := Py.iter extracted_assets in validate_assets [] items) in
  let! _ := state_set "asset_warnings" (VList warnings) in
  append_message
    (Ok (message "asset_validation"
           ("Asset validation complete. Warnings: "
            ++ fmt (VInt (Z.of_nat (length warnings)))) now
           (Some (dict [("warnings", VList warnings)])))).

(** *** Stages 4 to 7: the enrichment collaborators (placeholders) *)

Definition _fetch_price_data (ticker : value) : value :=
  VList
    [ dict [("timestamp", VStr "2024-01-01"); ("price", VFloat 45000.0);
            ("volume", VInt 1000000)];
      dict [("timestamp", VStr "2024-01-02"); ("price", VFloat 46000.0);
            ("volume", VInt 1100000)];
      dict [("timestamp", VStr "2024-01-03"); ("price", VFloat 44000.0);
            ("volume", VInt 900000)] ].

Definition _calculate_technical_indicators (price_history : value) : value :=
  dict [("rsi", VFloat 65.5); ("macd", VFloat 0.0023);
        ("bollinger_upper", VFloat 47000.0); ("bollinger_lower", VFloat 43000.0);
        ("sma_20", VFloat 45000.0); ("ema_12", VFloat 45200.0)].

Definition _fetch_news_articles (ticker : value) : value :=
  VList
    [ dict [("title", VStr ("Major development for " ++ fmt ticker));
            ("content", VStr ("Significant news about " ++ fmt ticker
                              ++ " cryptocurrency..."));
            ("source", VStr "CryptoNews");
            ("sentiment", VStr "positive");
            ("timestamp", VStr "2024-01-01T10:00:00Z")] ].

Definition _analyze_sentiment (news_articles : value) : value :=
  dict [("overall_sentiment", VFloat 0.65); ("positive_ratio", VFloat 0.6);
        ("negative_ratio", VFloat 0.2); ("neutral_ratio", VFloat 0.2);
        ("confidence", VFloat 0.85)].

(** [for asset in assets: ticker = asset.get("ticker", "");
     acc[ticker] = fetch(ticker)] *)
Fixpoint per_asset (fetch : value -> value) (acc : list (value * value))
    (assets : list value) : result (list (value * value)) :=
  match assets with
  | [] => Ok acc
  | asset :: rest =>
      let? ticker := Py.get asset (VStr "ticker") (VStr "") in
      let? acc' := Py.setitem acc ticker (fetch ticker) in
      per_asset fetch acc' rest
  end.

(** [for key, data in source.items(): acc[key] = compute(data)] *)
Fixpoint per_item (compute : value -> value) (acc : list (value * value))
    (source : list (value * value)) : result (list (value * value)) :=
  match source with
  | [] => Ok acc
  | (key, data) :: rest =>
      let? acc' := Py.setitem acc key (compute data) in
      per_item compute acc' rest
  end.

Definition _price_retrieval_agent (now : string) : M unit :=
  let! extracted_assets := state_get "extracted_assets" (VList []) in
  let! all_price_data :=
    lift (let? items := Py.iter extracted_assets in
          per_asset _fetch_price_data [] items) in
  let! ticker := state_get "ticker" (VStr "BTC") in
  let! history := lift (Py.get (VDict all_price_data) ticker (VList [])) in
  let! _ := state_set "price_history" history in
  let! _ := state_set "all_price_data" (VDict all_price_data) in
  append_message
    (let? n := Py.len extracted_assets in
     Ok (message "price_retrieval"
           ("Retrieved price data for " ++ fmt (VInt n) ++ " assets") now
           (Some (dict [("assets_processed", VInt n)])))).

Definition _technical_analysis_agent (now : string) : M unit :=
  let! all_price_data := state_get "all_price_data" (dict []) in
  let! all_indicators :=
    lift (let? items := Py.items all_price_data in
          per_item _calculate_technical_indicators [] items) in
  let! ticker := state_get "ticker" (VStr "BTC") in
  let! indicators := lift (Py.get (VDict all_indicators) ticker (dict [])) in
  let! _ := state_set "technical_indicators" indicators in
  let! _ := state_set "all_technical_indicators" (VDict all_indicators) in
  let n := Z.of_nat (length all_indicators) in
  append_message
    (Ok (message "technical_analysis"
           ("Calculated technical indicators for " ++ fmt (VInt n) ++ " assets") now
           (Some (dict [("assets_analyzed", VInt n)])))).

Definition _news_retrieval_agent (now : string) : M unit :=
  let! extracted_assets := state_get "extracted_assets" (VList []) in
  let! all_news :=
    lift (let? items := Py.iter extracted_assets in
          per_asset _fetch_news_articles [] items) in
  let! ticker := state_get "ticker" (VStr "BTC") in
  let! articles := lift (Py.get (VDict all_news) ticker (VList [])) in
  let! _ := state_set "news_articles" articles in
  let! _ := state_set "all_news" (VDict all_news) in
  append_message
    (let? n := Py.len extracted_assets in
     Ok (message "news_retrieval"
           ("Retrieved news for " ++ fmt (VInt n) ++ " assets") now
           (Some (dict [("assets_with_news",
                         VInt (Z.of_nat (length all_news)))])))).

Definition _sentiment_analysis_agent (now : string) : M unit :=
  let! all_news := state_get "all_news" (dict []) in
  let! all_sentiment :=
    lift (let? items := Py.items all_news in
          per_item _analyze_sentiment [] items) in
  let! ticker := state_get "ticker" (VStr "BTC") in
  let! scores := lift (Py.get (VDict all_sentiment) ticker (dict [])) in
  let! _ := state_set "sentiment_scores" scores in
  let! _ := state_set "all_sentiment" (VDict all_sentiment) in
  let n := Z.of_nat (length all_sentiment) in
  append_message
    (Ok (message "sentiment_analysis"
           ("Analyzed sentiment for " ++ fmt (VInt n) ++ " assets") now
           (Some (dict [("assets_analyzed", VInt n)])))).

(** *** Stage 8: the comprehensive report *)

(** [f"{x:.2f}"]: defined on numbers; an [int] is converted to a float
    first, which overflows beyond the largest float. *)
Definition format_2f (x : value) : result string :=
  match x with
  | VFloat _ | VBool _ => Ok (fixed2 x)
  | VInt n =>
      if (Z.abs n <? 2 ^ 1024 - 2 ^ 970)%Z then Ok (fixed2 x)
      else Raise OverflowError
  | VStr _ => Raise ValueError
  | _ => Raise TypeError
  end.

Fixpoint warning_lines (report : string) (warnings : list value) : string :=
  match warnings with
  | [] => report
  | warning :: rest =>
      warning_lines (report ++ "- " ++ fmt warning ++ nl) rest
  end.

Fixpoint summary_lines (report : string) (assets : list value) : result string :=
  match assets with
  | [] => Ok report
  | asset :: rest =>
      let? ticker := Py.get asset (VStr "ticker") (VStr "") in
      let? name := Py.get asset (VStr "name") (VStr "") in
      let? confidence := Py.get asset (VStr "confidence") (VInt 0) in
      let? shown := format_2f confidence in
      summary_lines
        (report ++ "- **" ++ fmt ticker ++ "** (" ++ fmt name
         ++ "): Confidence " ++ shown ++ nl) rest
  end.

Definition _generate_comprehensive_report
    (extracted_assets analysis_mode asset_warnings : value) : result string :=
  let report := "# Comprehensive Crypto Analysis Report" ++ nl ++ nl in
  let report := report ++ "**Analysis Mode:** " ++ fmt analysis_mode ++ nl in
  let? n := Py.len extracted_assets in
  let report := report ++ "**Assets Analyzed:** " ++ fmt (VInt n) ++ nl ++ nl in
  let? report :=
    if Py.truthy asset_warnings then
      let report := report ++ "## ⚠️ Warnings" ++ nl in
      let? items := Py.iter asset_warnings in
      Ok (warning_lines report items ++ nl)
    else Ok report in
  let report := report ++ "## 📊 Asset Summary" ++ nl in
  let? items := Py.iter extracted_assets in
  let? report := summary_lines report items in
  let report := report ++ nl ++ "## 📈 Technical Analysis" ++ nl in
  let report :=
    report ++ "Technical indicators calculated for all assets." ++ nl ++ nl in
  let report := report ++ "## 📰 Sentiment Analysis" ++ nl in
  let report :=
    report ++ "Sentiment analysis completed for all assets." ++ nl ++ nl in
  let report := report ++ "## 💡 Recommendations" ++ nl in
  let report :=
    report ++ "Based on comprehensive analysis of all extracted assets." ++ nl in
  Ok report.

Definition _comprehensive_reporter_agent (now : string) : M unit :=
  let! extracted_assets := state_get "extracted_assets" (VList []) in
  let! analysis_mode := state_get "analysis_mode" (VStr "asset_specific") in
  let! analysis_meta := state_get "analysis_meta" (dict []) in
  let! asset_warnings := state_get "asset_warnings" (VList []) in
  let! report :=
    lift (_generate_comprehensive_report
            extracted_assets analysis_mode asset_warnings) in
  let! _ := state_set "comprehensive_report" (VStr report) in
  append_message
    (let? n := Py.len extracted_assets in
     Ok (message "comprehensive_reporter" report now
           (Some (dict [("report_length", VInt (text_len report));
                        ("assets_covered", VInt n)])))).

(** *** The workflow graph: a linear chain of eight stages *)

Inductive stage : Type :=
| enhanced_asset_extraction
| asset_validation
| human_in_the_loop
| price_retrieval
| technical_analysis
| news_retrieval
| sentiment_analysis
| comprehensive_reporter.

(** The order the edges of [_build_workflow] give. *)
Definition workflow : list stage :=
  [ enhanced_asset_extraction; asset_validation; human_in_the_loop;
    price_retrieval; technical_analysis; news_retrieval;
    sentiment_analysis; comprehensive_reporter ].

Definition run_stage (extractor : value -> result value) (now : string)
    (st : stage) : M unit :=
  match st with
  | enhanced_asset_extraction => _enhanced_asset_extraction_agent extractor now
  | asset_validation => _asset_validation_agent now
  | human_in_the_loop => _human_in_the_loop_agent now
  | price_retrieval => _price_retrieval_agent now
  | technical_analysis => _technical_analysis_agent now
  | news_retrieval => _news_retrieval_agent now
  | sentiment_analysis => _sentiment_analysis_agent now
  | comprehensive_reporter => _comprehensive_reporter_agent now
  end.

(** [workflow.invoke]: the stages in order, stopping at the first raise. *)
Fixpoint run_stages (extractor : value -> result value) (now : string)
    (sts : list stage) : M unit :=
  match sts with
  | [] => ret tt
  | st :: rest =>
      let! _ := run_stage extractor now st in
      run_stages extractor now rest
  end.

Definition run (extractor : value -> result value) (now : string) : M unit :=
  run_stages extractor now workflow.

(** ** AI ticker extraction ([ai_enhanced_workflow.py]) *)

(** The [try] block: [llm] stands for the chain call, which yields the
    model's text or raises. *)
Definition ai_extract_ticker (llm : value -> result string) (user_input : value)
    : result value :=
  let? answer := llm user_input in
  let ticker := Str.strip answer in
  let ticker :=
    Str.strip (Str.remove_char single_quote (Str.remove_char double_quote ticker)) in
  let? valid := is_valid_ticker (VStr ticker) in
  if negb valid then Ok (VStr "BTC") else Ok (VStr ticker).

Definition _ai_ticker_extraction_agent (llm : value -> result string) : M unit :=
  let! user_input := read_user_input in
  let ticker :=
    match ai_extract_ticker llm user_input with
    | Ok t => t
    | Raise _ => VStr "BTC"
    end in
  let! _ := state_set "ticker" ticker in
  append_message
    (Ok (message "ai_ticker_extraction"
           ("AI extracted ticker: " ++ fmt ticker ++ " from input: '"
            ++ fmt user_input ++ "'")
           "2024-01-01T00:00:00Z" None)).

(** ** Ticker extraction of the basic workflow ([crypto_analysis_workflow.py]) *)

Definition _ticker_extraction_agent : M unit :=
  let! user_input := read_user_input in
  let! ticker := lift (_extract_ticker_from_text user_input) in
  let! _ := state_set "ticker" ticker in
  append_message
    (Ok (message "ticker_extraction" ("Extracted ticker: " ++ fmt ticker)
           "2024-01-01T00:00:00Z" None)).

End Workflow.

(** ** The basic and the AI-enhanced workflows *)

(** [state[key]] *)
Definition state_getitem (key : string) : M value :=
  fun s =>
    match s !! key with
    | Some v => (Ok v, s)
    | None => (Raise KeyError, s)
    end.

(** [list(obj.keys())] *)
Definition dict_keys (obj : value) : result value :=
  match obj with
  | VDict d => Ok (VList (List.map fst d))
  | _ => Raise AttributeError
  end.

(** [sep.join(parts)] *)
Fixpoint join (sep : string) (parts : list string) : string :=
  match parts with
  | [] => ""
  | [p] => p
  | p :: rest => p ++ sep ++ join sep rest
  end.

(** The timestamp these two workflows write in every entry. *)
Definition fixed_timestamp : string := "2024-01-01T00:00:00Z".

(** [_generate_risk_profile], the same placeholder in both workflows. *)
Definition _generate_risk_profile
    (price_history technical_indicators sentiment_scores : value) : value :=
  dict [("volatility_score", VFloat 0.7); ("risk_level", VStr "moderate");
        ("recommendation", VStr "hold"); ("stop_loss", VFloat 42000.0);
        ("take_profit", VFloat 48000.0); ("confidence", VFloat 0.8)].

Section Reports.

Variable py_str : value -> string.

(** [_generate_comprehensive_report] of the basic workflow, which is also
    the fallback template of the AI-enhanced one: an f-string, stripped. *)
Definition report_template
    (ticker price_history technical_indicators news_articles
     sentiment_scores risk_profile : value) : result string :=
  let na := VStr "N/A" in
  let? rsi := Py.get technical_indicators (VStr "rsi") na in
  let? macd := Py.get technical_indicators (VStr "macd") na in
  let? upper := Py.get technical_indicators (VStr "bollinger_upper") na in
  let? lower := Py.get technical_indicators (VStr "bollinger_lower") na in
  let? overall := Py.get sentiment_scores (VStr "overall_sentiment") na in
  let? confidence := Py.get sentiment_scores (VStr "confidence") na in
  let? level := Py.get risk_profile (VStr "risk_level") na in
  let? recommendation := Py.get risk_profile (VStr "recommendation") na in
  let? stop_loss := Py.get risk_profile (VStr "stop_loss") na in
  let? take_profit := Py.get risk_profile (VStr "take_profit") na in
  let? n := Py.len news_articles in
  let? advice := Py.get risk_profile (VStr "recommendation") (VStr "monitor") in
  Ok (Str.strip
        (nl ++ "# " ++ fmt py_str ticker ++ " Comprehensive Analysis Report" ++ nl
         ++ nl
         ++ "## Technical Analysis" ++ nl
         ++ "- RSI: " ++ fmt py_str rsi ++ nl
         ++ "- MACD: " ++ fmt py_str macd ++ nl
         ++ "- Bollinger Bands: " ++ fmt py_str upper ++ " - " ++ fmt py_str lower
         ++ nl
         ++ nl
         ++ "## Sentiment Analysis" ++ nl
         ++ "- Overall Sentiment: " ++ fmt py_str overall ++ nl
         ++ "- Confidence: " ++ fmt py_str confidence ++ nl
         ++ nl
         ++ "## Risk Assessment" ++ nl
         ++ "- Risk Level: " ++ fmt py_str level ++ nl
         ++ "- Recommendation: " ++ fmt py_str recommendation ++ nl
         ++ "- Stop Loss: $" ++ fmt py_str stop_loss ++ nl
         ++ "- Take Profit: $" ++ fmt py_str take_profit ++ nl
         ++ nl
         ++ "## News Summary" ++ nl
         ++ "Retrieved " ++ fmt py_str (VInt n)
         ++ " relevant articles with mixed sentiment." ++ nl
         ++ nl
         ++ "## Final Recommendation" ++ nl
         ++ "Based on technical indicators, sentiment analysis, and market conditions, "
         ++ nl
         ++ "the recommendation is to " ++ fmt py_str advice ++ " "
         ++ fmt py_str ticker ++ "." ++ nl
         ++ "        ")).

(** The three stages the two workflows share, up to the news placeholder. *)
Definition price_retrieval_stage : M unit :=
  let! ticker := state_getitem "ticker" in
  let price_data := _fetch_price_data ticker in
  let! _ := state_set "price_history" price_data in
  append_message
    (let? n := Py.len price_data in
     Ok (message "price_retrieval"
           ("Retrieved " ++ fmt py_str (VInt n) ++ " price data points for "
            ++ fmt py_str ticker)
           fixed_timestamp None)).

Definition technical_analysis_stage : M unit :=
  let! price_history := state_getitem "price_history" in
  let indicators := _calculate_technical_indicators price_history in
  let! _ := state_set "technical_indicators" indicators in
  append_message
    (let? keys := dict_keys indicators in
     Ok (message "technical_analysis"
           ("Calculated technical indicators: " ++ fmt py_str keys)
           fixed_timestamp None)).

Definition news_retrieval_stage (fetch : value -> value) : M unit :=
  let! ticker := state_getitem "ticker" in
  let news_articles := fetch ticker in
  let! _ := state_set "news_articles" news_articles in
  append_message
    (let? n := Py.len news_articles in
     Ok (message "news_retrieval"
           ("Retrieved " ++ fmt py_str (VInt n) ++ " news articles for "
            ++ fmt py_str ticker)
           fixed_timestamp None)).

End Reports.

(** *** [crypto_analysis_workflow.py] *)

Module Basic.

Section Stages.

Variable py_str : value -> string.

Definition _fetch_news_articles (ticker : value) : value :=
  VList
    [ dict [("title", VStr ("Major development for " ++ fmt py_str ticker));
            ("content", VStr ("Significant news about " ++ fmt py_str ticker
                              ++ " cryptocurrency..."));
            ("source", VStr "CryptoNews");
            ("sentiment", VStr "positive");
            ("timestamp", VStr "2024-01-01T10:00:00Z")];
      dict [("title", VStr (fmt py_str ticker ++ " market analysis"));
            ("content", VStr ("Market analysis for " ++ fmt py_str ticker ++ "..."));
            ("source", VStr "CoinDesk");
            ("sentiment", VStr "neutral");
            ("timestamp", VStr "2024-01-01T09:00:00Z")] ].

Definition _price_retrieval_agent : M unit := price_retrieval_stage py_str.

Definition _technical_analysis_agent : M unit := technical_analysis_stage py_str.

Definition _news_retrieval_agent : M unit :=
  news_retrieval_stage py_str _fetch_news_articles.

Definition _sentiment_analysis_agent : M unit :=
  let! news_articles := state_getitem "news_articles" in
  let sentiment_scores := _analyze_sentiment news_articles in
  let! _ := state_set "sentiment_scores" sentiment_scores in
  append_message
    (Ok (message "sentiment_analysis"
           ("Analyzed sentiment: " ++ fmt py_str sentiment_scores)
           fixed_timestamp None)).

Definition _financial_reporter_agent : M unit :=
  let! ticker := state_getitem "ticker" in
  let! price_history := state_getitem "price_history" in
  let! technical_indicators := state_getitem "technical_indicators" in
  let! news_articles := state_getitem "news_articles" in
  let! sentiment_scores := state_getitem "sentiment_scores" in
  let risk_profile :=
    _generate_risk_profile price_history technical_indicators sentiment_scores in
  let! _ := state_set "risk_profile" risk_profile in
  let! report :=
    lift (report_template py_str ticker price_history technical_indicators
            news_articles sentiment_scores risk_profile) in
  append_message
    (Ok (message "financial_reporter" report fixed_timestamp None)).

Inductive stage : Type :=
| ticker_extraction
| price_retrieval
| technical_analysis
| news_retrieval
| sentiment_analysis
| financial_reporter.

(** The order the edges of [_build_workflow] give. *)
Definition workflow : list stage :=
  [ ticker_extraction; price_retrieval; technical_analysis; news_retrieval;
    sentiment_analysis; financial_reporter ].

Definition run_stage (st : stage) : M unit :=
  match st with
  | ticker_extraction => _ticker_extraction_agent py_str
  | price_retrieval => _price_retrieval_agent
  | technical_analysis => _technical_analysis_agent
  | news_retrieval => _news_retrieval_agent
  | sentiment_analysis => _sentiment_analysis_agent
  | financial_reporter => _financial_reporter_agent
  end.

Fixpoint run_stages (sts : list stage) : M unit :=
  match sts with
  | [] => ret tt
  | st :: rest =>
      let! _ := run_stage st in
      run_stages rest
  end.

Definition run : M unit := run_stages workflow.

(** The state keys a stage reads by subscript. *)
Definition requires (st : stage) : list string :=
  match st with
  | ticker_extraction => []
  | price_retrieval => ["ticker"]
  | technical_analysis => ["price_history"]
  | news_retrieval => ["ticker"]
  | sentiment_analysis => ["news_articles"]
  | financial_reporter =>
      ["ticker"; "price_history"; "technical_indicators"; "news_articles";
       "sentiment_scores"]
  end.

(** The state key a stage assigns. *)
Definition writes (st : stage) : string :=
  match st with
  | ticker_extraction => "ticker"
  | price_retrieval => "price_history"
  | technical_analysis => "technical_indicators"
  | news_retrieval => "news_articles"
  | sentiment_analysis => "sentiment_scores"
  | financial_reporter => "risk_profile"
  end.

End Stages.

End Basic.

(** *** [ai_enhanced_workflow.py] *)

Module AI.

Section Stages.

Variable py_str : value -> string.
(** The ticker chain: the model's text for a user input, or a raise. *)
Variable llm : value -> result string.
(** The sentiment chain followed by [json.loads], for a ticker and the
    news text: the parsed response, or a raise. *)
Variable analyst : value -> string -> result value.
(** The report chain, given the ticker, the three dictionaries it is sent
    as JSON and the number of articles: the report text, or a raise. *)
Variable writer : value -> value -> value -> value -> Z -> result string.

Definition _fetch_news_articles (ticker : value) : value :=
  VList
    [ dict [("title", VStr ("Major development for " ++ fmt py_str ticker));
            ("content", VStr ("Significant news about " ++ fmt py_str ticker
                              ++ " cryptocurrency with positive market sentiment..."));
            ("source", VStr "CryptoNews");
            ("sentiment", VStr "positive");
            ("timestamp", VStr "2024-01-01T10:00:00Z")];
      dict [("title", VStr (fmt py_str ticker ++ " market analysis"));
            ("content", VStr ("Market analysis for " ++ fmt py_str ticker
                              ++ " shows mixed signals with moderate volatility..."));
            ("source", VStr "CoinDesk");
            ("sentiment", VStr "neutral");
            ("timestamp", VStr "2024-01-01T09:00:00Z")] ].

Definition _price_retrieval_agent : M unit := price_retrieval_stage py_str.

Definition _technical_analysis_agent : M unit := technical_analysis_stage py_str.

Definition _news_retrieval_agent : M unit :=
  news_retrieval_stage py_str _fetch_news_articles.

(** [f"Title: {article['title']}\nContent: {article['content']}"] *)
Definition article_text (article : value) : result string :=
  let? title := Py.getitem article (VStr "title") in
  let? content := Py.getitem article (VStr "content") in
  Ok ("Title: " ++ fmt py_str title ++ nl ++ "Content: " ++ fmt py_str content).

(** The scores the [except] block substitutes. *)
Definition fallback_scores : value :=
  dict [("overall_sentiment", VFloat 0.65); ("positive_ratio", VFloat 0.6);
        ("negative_ratio", VFloat 0.2); ("neutral_ratio", VFloat 0.2);
        ("confidence", VFloat 0.85);
        ("key_sentiment_drivers", strs ["market sentiment"; "news coverage"])].

(** The text of all the articles, separated by blank lines. *)
Definition news_content (news_articles : value) : result string :=
  let? items := Py.iter news_articles in
  let? texts := rmap article_text items in
  Ok (join (nl ++ nl) texts).

Definition _ai_sentiment_analysis_agent : M unit :=
  let! news_articles := state_getitem "news_articles" in
  let! ticker := state_getitem "ticker" in
  let! news_content := lift (news_content news_articles) in
  let sentiment_scores :=
    match analyst ticker news_content with
    | Ok scores => scores
    | Raise _ => fallback_scores
    end in
  let! _ := state_set "sentiment_scores" sentiment_scores in
  append_message
    (let? overall :=
       Py.get sentiment_scores (VStr "overall_sentiment") (VStr "N/A") in
     let? confidence := Py.get sentiment_scores (VStr "confidence") (VStr "N/A") in
     Ok (message "ai_sentiment_analysis"
           ("AI analyzed sentiment: " ++ fmt py_str overall ++ " with "
            ++ fmt py_str confidence ++ " confidence")
           fixed_timestamp None)).

Definition _ai_financial_reporter_agent : M unit :=
  let! ticker := state_getitem "ticker" in
  let! price_history := state_getitem "price_history" in
  let! technical_indicators := state_getitem "technical_indicators" in
  let! news_articles := state_getitem "news_articles" in
  let! sentiment_scores := state_getitem "sentiment_scores" in
  let risk_profile :=
    _generate_risk_profile price_history technical_indicators sentiment_scores in
  let! _ := state_set "risk_profile" risk_profile in
  let attempt :=
    let? n := Py.len news_articles in
    writer ticker technical_indicators sentiment_scores risk_profile n in
  let! report :=
    match attempt with
    | Ok report => ret report
    | Raise _ =>
        lift (report_template py_str ticker price_history technical_indicators
                news_articles sentiment_scores risk_profile)
    end in
  append_message
    (Ok (message "ai_financial_reporter" report fixed_timestamp None)).

Inductive stage : Type :=
| ai_ticker_extraction
| price_retrieval
| technical_analysis
| news_retrieval
| ai_sentiment_analysis
| ai_financial_reporter.

(** The order the edges of [_build_workflow] give. *)
Definition workflow : list stage :=
  [ ai_ticker_extraction; price_retrieval; technical_analysis; news_retrieval;
    ai_sentiment_analysis; ai_financial_reporter ].

Definition run_stage (st : stage) : M unit :=
  match st with
  | ai_ticker_extraction => _ai_ticker_extraction_agent py_str llm
  | price_retrieval => _price_retrieval_agent
  | technical_analysis => _technical_analysis_agent
  | news_retrieval => _news_retrieval_agent
  | ai_sentiment_analysis => _ai_sentiment_analysis_agent
  | ai_financial_reporter => _ai_financial_reporter_agent
  end.

Fixpoint run_stages (sts : list stage) : M unit :=
  match sts with
  | [] => ret tt
  | st :: rest =>
      let! _ := run_stage st in
      run_stages rest
  end.

Definition run : M unit := run_stages workflow.

End Stages.

End AI.

(** ** Prompt variants ([prompts/__init__.py]) *)

Module Prompts.

(** The text up to the first separator, and the pieces after it. *)
Fixpoint split_on (c : ascii) (s : string) : string * list string :=
  match s with
  | EmptyString => (EmptyString, [])
  | String a s' =>
      let (piece, rest) := split_on c s' in
      if Ascii.eqb a c then (EmptyString, piece :: rest) else (String a piece, rest)
  end.

(** [s.split(c)] for a one-character separator *)
Definition split (c : ascii) (s : string) : list string :=
  let (piece, rest) := split_on c s in piece :: rest.

(** The [for] loop of [_extract_prompt_variant]: the lines it appends to
    [variant_lines] from the line it is at, given the flag [in_variant];
    [header] is [f'# {variant_name}']. *)
Fixpoint variant_lines (header : string) (in_variant : bool) (lines : list string)
    : list string :=
  match lines with
  | [] => []
  | line :: rest =>
      if Str.starts_with header (Str.strip line) then variant_lines header true rest
      else if in_variant && Str.starts_with "# " (Str.strip line) then []
      else if in_variant then line :: variant_lines header true rest
      else variant_lines header false rest
  end.

Definition _extract_prompt_variant (full_text variant_name : string) : string :=
  let lines := split (ascii_of_nat 10) full_text in
  Str.strip (join nl (variant_lines ("# " ++ variant_name) false lines)).

End Prompts.

(** ** Vocabulary of the specification *)

Definition entries (d : value) : list (value * value) :=
  match d with
  | VDict kvs => kvs
  | _ => []
  end.

Definition has_key (d : value) (k : string) : bool :=
  existsb (fun kv => Py.key_eqb (fst kv) (VStr k)) (entries d).

(** The ticker is a key of the Asset Catalog. *)
Definition in_catalog (ticker : string) : bool := has_key CRYPTO_ASSETS ticker.

(** The tag is a key of the SectorIndex. *)
Definition in_sector_index (sector : string) : bool := has_key SECTOR_MAPPINGS sector.

(** The member list the SectorIndex holds for a tag. *)
Definition sector_members (sector : string) : option value :=
  Py.lookup (VStr sector) (entries SECTOR_MAPPINGS).

(** The catalog entry of a ticker, and its fields. *)
Definition catalog_entry (ticker : string) : option value :=
  Py.lookup (VStr ticker) (entries CRYPTO_ASSETS).

Definition field (name : string) (entry : option value) : option value :=
  match entry with
  | Some e => Py.lookup (VStr name) (entries e)
  | None => None
  end.

Definition list_field (name : string) (entry : option value) : list value :=
  match field name entry with
  | Some (VList l) => l
  | _ => []
  end.

Definition is_alias (alias ticker : string) : bool :=
  existsb (fun a => Py.key_eqb a (VStr alias))
          (list_field "aliases" (catalog_entry ticker)).

(** The sectors the catalog records for the asset a ticker resolves to
    (the accessors look a ticker up in upper case). *)
Definition catalog_sectors (ticker : string) : list value :=
  list_field "sectors" (catalog_entry (Str.upper ticker)).

Definition in_sector (sector ticker : string) : bool :=
  existsb (fun v => Py.key_eqb v (VStr sector)) (catalog_sectors ticker).

(** The ticker the MisspellingIndex maps a text to. *)
Fixpoint assoc (k : string) (l : list (string * string)) : option string :=
  match l with
  | [] => None
  | (k', v) :: l' => if String.eqb k' k then Some v else assoc k l'
  end.

Definition correct_misspelling (text : string) : option string :=
  assoc text MISSPELLINGS.

(** The misspelling keys on which the text resolver happens to agree with
    the MisspellingIndex. *)
Definition agreeing_keys : list string :=
  ["etherium"; "bitcon"; "polkadot"; "chainlink"; "uniswap"].

(** A resolved asset as the data model describes it, and the dictionary
    that represents it in the state. *)
Record resolved_asset : Type := {
  ticker_of : string;
  name_of : string;
  confidence_of : float
}.

Definition asset_value (a : resolved_asset) : value :=
  dict [("ticker", VStr (ticker_of a)); ("name", VStr (name_of a));
        ("confidence", VFloat (confidence_of a))].

(** The warnings the validation rules give for one asset, in rule order:
    stablecoin, low confidence, meme risk. *)
Definition warnings_for (py_str : value -> string) (a : resolved_asset)
    : list string :=
  let stablecoin :=
    if in_sector "Stablecoin" (ticker_of a)
    then ["Stablecoin detected: " ++ ticker_of a
          ++ " - Technical analysis may not be meaningful"]
    else [] in
  let low_confidence :=
    if PrimFloat.ltb (confidence_of a) get_confidence_threshold
    then ["Low confidence in " ++ ticker_of a ++ ": "
          ++ py_str (VFloat (confidence_of a))]
    else [] in
  let meme_risk :=
    if in_sector "Meme" (ticker_of a)
    then ["Meme coin detected: " ++ ticker_of a ++ " - High volatility expected"]
    else [] in
  List.app stablecoin (List.app low_confidence meme_risk).

Definition expected_warnings (py_str : value -> string)
    (assets : list resolved_asset) : list value :=
  List.map VStr (flat_map (warnings_for py_str) assets).

(** The HITL decision a state carries, and its consistency: review is
    required exactly when the reason is neither empty nor "none". *)
Definition reason_is_none (reason : value) : bool :=
  Py.eq_str reason "" || Py.eq_str reason "none".

Definition hitl_consistent (required reason : value) : bool :=
  Bool.eqb (Py.truthy required) (negb (reason_is_none reason)).

(** The sectors an asset-information dictionary carries, as
    [asset_info.get("sectors", [])] reads them. *)
Definition sectors_of (asset_info : list (value * value)) : value :=
  match Py.lookup (VStr "sectors") asset_info with
  | Some v => v
  | None => VList []
  end.

(** The computation leaves the value under a key of the state alone. *)
Definition keeps {A} (key : string) (m : M A) : Prop :=
  forall s, (m s).2 !! key = s !! key.

(** The stage leaves the log alone. *)
Definition keeps_log {A} (m : M A) : Prop := keeps "messages" m.

(** The stage, when it returns, has appended one entry to the log it found;
    when it raises, the log is as it found it. *)
Definition appends_one_entry {A} (m : M A) : Prop :=
  forall s,
    match m s with
    | (Ok _, s') =>
        exists log e, messages s = Some log /\ messages s' = Some (log ++ [e])%list
    | (Raise _, s') => s' !! "messages" = s !! "messages"
    end.

(** *** Vocabulary for the catalog tables *)

Definition strings_of (l : list value) : list string :=
  flat_map (fun v => match v with VStr s => [s] | _ => [] end) l.

(** The tickers the SectorIndex lists under a tag. *)
Definition index_members (tag : string) : list string :=
  match sector_members tag with
  | Some (VList l) => strings_of l
  | _ => []
  end.

(** A catalog entry under key [ticker]: a name, a list of aliases among
    which the lower-cased ticker, and a float confidence between 0.8 and
    0.99. *)
Definition entry_ok (ticker : string) (e : value) : bool :=
  match field "name" (Some e), field "aliases" (Some e), field "confidence" (Some e) with
  | Some (VStr _), Some (VList aliases), Some (VFloat c) =>
      existsb (fun a => Py.key_eqb a (VStr (Str.lower ticker))) aliases
      && PrimFloat.leb 0.8 c && PrimFloat.leb c 0.99
  | _, _, _ => false
  end.

(** The confidence the catalog records for a ticker. *)
Definition base_confidence (ticker : string) : option value :=
  field "confidence" (catalog_entry ticker).

(** The catalog tickers that need review at their own base confidence. *)
Definition review_at_base : list string := ["OCEAN"; "AGIX"; "PEPE"; "DOGE"; "SHIB"].

Definition string_in (s : string) (l : list string) : bool :=
  existsb (String.eqb s) l.

(** The sector test of the code on a ticker, for a tag. *)
Definition sector_test (tag ticker : string) : result bool :=
  let? info := get_asset_by_ticker (VStr ticker) in
  let? sectors := Py.get info (VStr "sectors") (VList []) in
  Py.contains (VStr tag) sectors.

(** *** Vocabulary for the basic and the AI-enhanced workflow *)

(** The log is empty, or ends with a dictionary whose content, if it has
    one, is a string. *)
Definition text_input_ok (log : list value) : bool :=
  match rev log with
  | [] => true
  | VDict d :: _ =>
      match Py.lookup (VStr "content") d with
      | None | Some (VStr _) => true
      | Some _ => false
      end
  | _ => false
  end.

(** The agent that signed a log entry. *)
Definition agent_of (entry : value) : option value := field "agent" (Some entry).

(** The state keys the two workflows write. *)
Definition analysis_keys : list string :=
  ["ticker"; "price_history"; "technical_indicators"; "news_articles";
   "sentiment_scores"; "risk_profile"; "messages"].

(** *** Vocabulary for the runs *)

(** The state keys a stage of the enhanced workflow assigns. *)
Definition stage_writes (st : stage) : list string :=
  match st with
  | enhanced_asset_extraction =>
      ["ticker"; "extracted_assets"; "analysis_mode"; "analysis_meta";
       "parse_notes"; "hitl_required"; "hitl_reason"; "messages"]
  | asset_validation => ["asset_warnings"; "messages"]
  | human_in_the_loop => ["messages"]
  | price_retrieval => ["price_history"; "all_price_data"; "messages"]
  | technical_analysis =>
      ["technical_indicators"; "all_technical_indicators"; "messages"]
  | news_retrieval => ["news_articles"; "all_news"; "messages"]
  | sentiment_analysis => ["sentiment_scores"; "all_sentiment"; "messages"]
  | comprehensive_reporter => ["comprehensive_report"; "messages"]
  end.

(** The string tickers of a list of assets, in order. *)
Definition ticker_strings (assets : list value) : list string :=
  flat_map (fun a => match field "ticker" (Some a) with
                     | Some (VStr t) => [t]
                     | _ => []
                     end) assets.

(** What a run of [n] stages started in [s] has done to the log. *)
Definition log_outcome (s : state) (n : nat) (r : result unit * state) : Prop :=
  match r with
  | (Ok _, s') =>
      exists log new,
        messages s = Some log /\ messages s' = Some (log ++ new)%list /\
        length new = n
  | (Raise _, s') =>
      s' !! "messages" = s !! "messages" \/
      exists log new,
        messages s = Some log /\ messages s' = Some (log ++ new)%list /\
        (0 < length new < n)%nat
  end.

(** *** Well-formed inputs of the stages *)

Definition present_str (o : option value) : bool :=
  match o with
  | Some (VStr _) => true
  | _ => false
  end.

Definition present_float (o : option value) : bool :=
  match o with
  | Some (VFloat _) => true
  | _ => false
  end.

(** A dictionary with a string ticker and a float confidence. *)
Definition asset_ok (a : value) : bool :=
  match a with
  | VDict d =>
      present_str (Py.lookup (VStr "ticker") d)
      && present_float (Py.lookup (VStr "confidence") d)
  | _ => false
  end.

(** The field is absent or a list of such dictionaries. *)
Definition assets_ok (o : option value) : bool :=
  match o with
  | None => true
  | Some (VList l) => forallb asset_ok l
  | Some _ => false
  end.

(** The field is absent or can serve as a dictionary key. *)
Definition key_ok (o : option value) : bool :=
  match o with
  | None => true
  | Some v => Py.hashable v
  end.

Definition keys_hashable (d : list (value * value)) : bool :=
  forallb (fun kv => Py.hashable (fst kv)) d.

(** The field is absent or a dictionary. *)
Definition dict_ok (o : option value) : bool :=
  match o with
  | None => true
  | Some (VDict d) => keys_hashable d
  | Some _ => false
  end.

(** The field is absent or a list. *)
Definition list_ok (o : option value) : bool :=
  match o with
  | None | Some (VList _) => true
  | Some _ => false
  end.

(** The log is empty or its last entry is a dictionary. *)
Definition input_ok (log : list value) : bool :=
  match rev log with
  | [] | VDict _ :: _ => true
  | _ => false
  end.

(** What a stage needs of the fields it reads, besides the message log. *)
Definition stage_ready (st : stage) (s : state) : bool :=
  match st with
  | enhanced_asset_extraction =>
      match messages s with
      | Some log => input_ok log
      | None => false
      end
  | asset_validation | human_in_the_loop => assets_ok (s !! "extracted_assets")
  | price_retrieval | news_retrieval =>
      assets_ok (s !! "extracted_assets") && key_ok (s !! "ticker")
  | technical_analysis => dict_ok (s !! "all_price_data") && key_ok (s !! "ticker")
  | sentiment_analysis => dict_ok (s !! "all_news") && key_ok (s !! "ticker")
  | comprehensive_reporter =>
      assets_ok (s !! "extracted_assets") && list_ok (s !! "asset_warnings")
  end.

(** A response of the extractor whose asset list, when present, is a list
    of well-formed assets. *)
Definition response_ok (r : result value) : bool :=
  match r with
  | Raise _ => true
  | Ok (VDict d) => assets_ok (Py.lookup (VStr "extracted_assets") d)
  | Ok _ => false
  end.

(** Every entry of the catalog with sectors holds them as a list. *)
Definition entry_sectors_ok (e : value) : Prop :=
  Py.get e (VStr "sectors") (VList []) = Ok (VList (list_field "sectors" (Some e))).

(** The asset is a dictionary whose ticker is a key of the catalog. *)
Definition ticker_in_catalog (a : value) : bool :=
  match a with
  | VDict d =>
      match Py.lookup (VStr "ticker") d with
      | Some (VStr t) => in_catalog t
      | _ => false
      end
  | _ => false
  end.

(** The stored resolved-asset list is a non-empty list whose tickers all
    exist in the catalog. *)
Definition resolved_list_valid (o : option value) : bool :=
  match o with
  | Some (VList (a :: l)) => forallb ticker_in_catalog (a :: l)
  | _ => false
  end.

(** *** Renderings for the worked examples *)

Definition plain_str (v : value) : string :=
  match v with
  | VNone => "None"
  | VBool true => "True"
  | VBool false => "False"
  | VInt n => NilZero.string_of_int (Z.to_int n)
  | VStr s => s
  | _ => "<object>"
  end.

Definition plain_exn (e : exn) : string :=
  match e with
  | ExternalError msg => msg
  | _ => "error"
  end.

Definition plain_len (s : string) : Z := Z.of_nat (String.length s).

(** *** States and responses of the worked examples *)

Definition example_state : state :=
  {[ "messages" :=
       VList [dict [("role", VStr "user"); ("content", VStr "Analyze XYZ");
                    ("timestamp", VStr "2024-01-01T00:00:00Z")]] ]}.

(** The model names a ticker the catalog does not have. *)
Definition response_unknown_ticker : value :=
  dict [("extracted_assets",
         VList [dict [("ticker", VStr "XYZ"); ("name", VStr "Xyz");
                      ("confidence", VFloat 0.9)]]);
        ("mode", VStr "asset_specific")].

(** The model finds no asset. *)
Definition response_no_assets : value :=
  dict [("extracted_assets", VList []); ("mode", VStr "asset_specific")].

(** The model asks for review without a reason. *)
Definition response_review_without_reason : value :=
  dict [("extracted_assets",
         VList [dict [("ticker", VStr "BTC"); ("name", VStr "Bitcoin");
                      ("confidence", VFloat 0.99)]]);
        ("hitl_required", VBool true)].

(** The model gives a confidence that is not a number. *)
Definition response_confidence_text : value :=
  dict [("extracted_assets",
         VList [dict [("ticker", VStr "BTC"); ("name", VStr "Bitcoin");
                      ("confidence", VStr "high")]])].

(** A well-formed response. *)
Definition response_bitcoin : value :=
  dict [("extracted_assets",
         VList [dict [("ticker", VStr "BTC"); ("name", VStr "Bitcoin");
                      ("confidence", VFloat 0.99)]]);
        ("mode", VStr "asset_specific");
        ("hitl_required", VBool false); ("hitl_reason", VStr "")].

Definition example_extraction (response : result value) : M unit :=
  _enhanced_asset_extraction_agent plain_str plain_exn (fun _ => response)
    "2024-01-01T00:00:01".

(** * Properties *)

(** ** Facts about the primitive operations *)

Lemma SFcompare_swap (x y : spec_float) :
  SFcompare y x = option_map CompOpp (SFcompare x y).
Proof.
  destruct x as [s1| s1| |s1 m1 e1], y as [s2| s2| |s2 m2 e2]; simpl;
    try destruct s1; try destruct s2; try reflexivity;
    rewrite (Z.compare_antisym e2 e1); destruct (e2 ?= e1)%Z; simpl; try reflexivity;
    f_equal; change (PosDef.Pos.compare_cont Eq) with Pos.compare;
    rewrite (Pos.compare_antisym m2 m1); try rewrite CompOpp_involutive; reflexivity.
Qed.

Lemma leb_not_ltb (a b : float) :
  PrimFloat.leb a b = true -> PrimFloat.ltb b a = false.
Proof.
  rewrite leb_spec, ltb_spec. unfold SFleb, SFltb.
  rewrite (SFcompare_swap (Prim2SF a) (Prim2SF b)).
  destruct (SFcompare (Prim2SF a) (Prim2SF b)) as [[ | | ]|]; simpl; congruence.
Qed.

Lemma get_str_key (d : list (value * value)) (k : string) (dflt : value) :
  Py.get (VDict d) (VStr k) dflt =
  Ok (match Py.lookup (VStr k) d with Some v => v | None => dflt end).
Proof. reflexivity. Qed.

Lemma lookup_absent (d : value) (k : string) :
  has_key d k = false -> Py.lookup (VStr k) (entries d) = None.
Proof.
  unfold has_key. induction (entries d) as [|[k' v] l IH]; simpl; [reflexivity|].
  intros H. apply orb_false_elim in H as [H1 H2]. rewrite H1. auto.
Qed.

Lemma existsb_strs (t : string) (l : list string) :
  existsb (fun e => Py.key_eqb e (VStr t)) (List.map VStr l) = true <-> In t l.
Proof.
  induction l as [|a l IH]; simpl.
  - split; [discriminate | tauto].
  - rewrite orb_true_iff, IH, String.eqb_eq. tauto.
Qed.

(** ** The catalog accessors *)

Lemma get_asset_by_ticker_str (t : string) :
  get_asset_by_ticker (VStr t) =
  Ok (match catalog_entry (Str.upper t) with Some e => e | None => dict [] end).
Proof. reflexivity. Qed.

Lemma get_assets_by_sector_str (t : string) :
  get_assets_by_sector (VStr t) =
  Ok (match sector_members (Str.upper t) with Some e => e | None => VList [] end).
Proof. reflexivity. Qed.

(** C3: [get_assets_by_sector] upper-cases the tag before the lookup, but
    the keys of the SectorIndex are in mixed case.  For the key "DeFi",
    whose member list is AAVE, COMP, SUSHI, UNI, the accessor returns the
    empty list; so it does for every key but "AI", while the string "ai",
    which is not a key, yields the members of "AI". *)
Theorem sector_lookup_misses_mixed_case_tags :
  sector_members "DeFi" = Some (strs ["AAVE"; "COMP"; "SUSHI"; "UNI"]) /\
  get_assets_by_sector (VStr "DeFi") = Ok (VList []) /\
  Forall (fun tag => in_sector_index tag = true /\
                     get_assets_by_sector (VStr tag) = Ok (VList []))
         ["DeFi"; "Gaming"; "Layer1"; "Layer2"; "Meme"; "Stablecoin"] /\
  in_sector_index "ai" = false /\
  get_assets_by_sector (VStr "ai") = Ok (strs ["FET"; "NEAR"; "RNDR"; "OCEAN"; "AGIX"]).
Proof.
  split; [vm_compute; reflexivity|].
  split; [vm_compute; reflexivity|].
  split; [|split; vm_compute; reflexivity].
  repeat (apply List.Forall_cons; [split; vm_compute; reflexivity|]).
  apply List.Forall_nil.
Qed.

(** The string "Usdt" is neither a key of the catalog nor an alias in it,
    yet the lookup finds Tether and the stablecoin check answers [True];
    "ai" is not a key of the SectorIndex, yet the sector lookup returns
    five members. *)
Lemma mixed_case_ticker_is_found :
  in_catalog "Usdt" = false /\
  is_alias "Usdt" "USDT" = false /\
  get_asset_by_ticker (VStr "Usdt") =
    Ok (asset "Tether" ["tether"; "usdt"] 0.96 (Some ["Stablecoin"])) /\
  is_stablecoin (VStr "Usdt") = Ok true /\
  in_sector_index "ai" = false /\
  get_assets_by_sector (VStr "ai") = Ok (strs ["FET"; "NEAR"; "RNDR"; "OCEAN"; "AGIX"]).
Proof. repeat split; vm_compute; reflexivity. Qed.

(** C9 (amended): for a ticker string whose upper-case form is not a key
    of the catalog, the lookup returns the empty dictionary and the
    stablecoin check returns [False]; for a sector string such that neither
    it nor its upper-case form is a key of the SectorIndex, the sector
    lookup returns the empty list.  None of the three raises. *)
Theorem unknown_lookups_are_empty (ticker sector : string) :
  in_catalog (Str.upper ticker) = false ->
  in_sector_index sector = false ->
  in_sector_index (Str.upper sector) = false ->
  get_asset_by_ticker (VStr ticker) = Ok (dict []) /\
  is_stablecoin (VStr ticker) = Ok false /\
  get_assets_by_sector (VStr sector) = Ok (VList []).
Proof.
  intros Ht _ Hs.
  assert (E : get_asset_by_ticker (VStr ticker) = Ok (dict [])).
  { rewrite get_asset_by_ticker_str. unfold catalog_entry.
    rewrite (lookup_absent _ _ Ht). reflexivity. }
  repeat split.
  - exact E.
  - unfold is_stablecoin. rewrite E. reflexivity.
  - rewrite get_assets_by_sector_str. unfold sector_members.
    rewrite (lookup_absent _ _ Hs). reflexivity.
Qed.

Lemma unknown_lookups_are_empty_example :
  get_asset_by_ticker (VStr "xrp") = Ok (dict []) /\
  is_stablecoin (VStr "xrp") = Ok false /\
  get_assets_by_sector (VStr "nft") = Ok (VList []).
Proof.
  apply (unknown_lookups_are_empty "xrp" "nft"); vm_compute; reflexivity.
Defined.

(** ** The HITL trigger *)

(** Dogecoin at its base confidence 0.85: the confidence reaches the
    threshold and the entry carries no collision candidates, yet the
    trigger asks for review, because the asset is in the Meme sector. *)
Lemma meme_asset_triggers_review :
  get_asset_by_ticker (VStr "DOGE") =
    Ok (asset "Dogecoin" ["dogecoin"; "doge"] 0.85 (Some ["Meme"])) /\
  PrimFloat.leb get_confidence_threshold 0.85 = true /\
  Py.contains (VStr "collision_candidates")
    (asset "Dogecoin" ["dogecoin"; "doge"] 0.85 (Some ["Meme"])) = Ok false /\
  should_trigger_hitl (VFloat 0.85)
    (asset "Dogecoin" ["dogecoin"; "doge"] 0.85 (Some ["Meme"])) = Ok true.
Proof. repeat split; vm_compute; reflexivity. Qed.

(** C5 (amended): when the confidence is at least the threshold 0.85, the
    sectors of the asset do not include Meme, and the asset information
    carries no collision candidates, the trigger decides that no review is
    required. *)
Theorem confident_asset_outside_meme_needs_no_review
    (confidence : float) (asset_info : list (value * value)) :
  PrimFloat.leb get_confidence_threshold confidence = true ->
  Py.contains (VStr "Meme") (sectors_of asset_info) = Ok false ->
  Py.lookup (VStr "collision_candidates") asset_info = None ->
  should_trigger_hitl (VFloat confidence) (VDict asset_info) = Ok false.
Proof.
  intros Hc Hm Hk. unfold should_trigger_hitl.
  cbn [Py.lt_float rbind]. rewrite (leb_not_ltb _ _ Hc).
  rewrite get_str_key. cbn [rbind]. fold (sectors_of asset_info). rewrite Hm.
  cbn [rbind Py.contains Py.hashable]. rewrite Hk. reflexivity.
Qed.

Lemma confident_asset_outside_meme_example :
  should_trigger_hitl (VFloat 0.99)
    (asset "Bitcoin" ["bitcoin"; "btc"; "king"; "king of crypto"] 0.99 None) = Ok false.
Proof.
  apply (confident_asset_outside_meme_needs_no_review 0.99); vm_compute; reflexivity.
Defined.

(** ** The text resolver *)

Lemma scan_tickers_first (text : string) (before after : list string) (t : string) :
  Str.contains (Str.lower t) (Str.lower text) = true ->
  Forall (fun u => Str.contains (Str.lower u) (Str.lower text) = false) before ->
  scan_tickers (before ++ t :: after) (VStr text) = Ok (Some t).
Proof.
  intros Ht Hb. induction Hb as [|u before Hu Hb IH]; simpl.
  - rewrite Ht. reflexivity.
  - rewrite Hu. exact IH.
Qed.

Lemma common_tickers_are_aliases :
  Forall (fun t => is_alias (Str.lower t) t = true) common_tickers.
Proof.
  repeat (apply List.Forall_cons; [vm_compute; reflexivity|]).
  apply List.Forall_nil.
Qed.

(** "cardano" is an alias of ADA, but the resolver answers BTC: it only
    looks for the eight ticker symbols, and "cardano" contains none. *)
Lemma cardano_resolves_to_BTC :
  is_alias "cardano" "ADA" = true /\
  Str.contains "cardano" (Str.lower "cardano") = true /\
  _extract_ticker_from_text (VStr "cardano") = Ok (VStr "BTC").
Proof. repeat split; vm_compute; reflexivity. Qed.

(** C8 (amended): when the text contains, case-insensitively, the symbol
    of one of the eight tickers of [common_tickers], and none of the
    symbols listed before it, the resolver returns that ticker; its
    lower-case symbol is an alias of the asset in the catalog.  The
    resolver returns a ticker only, and no confidence. *)
Theorem resolver_returns_first_common_ticker
    (text : string) (before after : list string) (t : string) :
  common_tickers = (before ++ t :: after)%list ->
  Str.contains (Str.lower t) (Str.lower text) = true ->
  Forall (fun u => Str.contains (Str.lower u) (Str.lower text) = false) before ->
  is_alias (Str.lower t) t = true /\
  _extract_ticker_from_text (VStr text) = Ok (VStr t).
Proof.
  intros Hc Ht Hb. split.
  - pose proof common_tickers_are_aliases as H. rewrite Hc in H.
    apply List.Forall_app in H as [_ H]. inversion H; assumption.
  - unfold _extract_ticker_from_text. rewrite Hc.
    rewrite (scan_tickers_first text before after t Ht Hb). reflexivity.
Qed.

Lemma resolver_returns_first_common_ticker_example :
  is_alias "ada" "ADA" = true /\
  _extract_ticker_from_text (VStr "What about ADA today?") = Ok (VStr "ADA").
Proof.
  apply (resolver_returns_first_common_ticker "What about ADA today?"
           ["BTC"; "ETH"] ["DOT"; "LINK"; "UNI"; "LTC"; "BCH"] "ADA").
  - reflexivity.
  - vm_compute; reflexivity.
  - repeat (apply List.Forall_cons; [vm_compute; reflexivity|]).
    apply List.Forall_nil.
Defined.

(** The MisspellingIndex maps "solana" to SOL; the resolver answers BTC. *)
Lemma solana_resolves_to_BTC :
  correct_misspelling "solana" = Some "SOL" /\
  _extract_ticker_from_text (VStr "solana") = Ok (VStr "BTC").
Proof. split; vm_compute; reflexivity. Qed.

(** C7 (amended): on a text equal to a key of the MisspellingIndex, the
    resolver returns the ticker the index gives for the keys etherium,
    bitcon, polkadot, chainlink and uniswap, and BTC for every other key.
    It returns a ticker only, and no confidence. *)
Theorem resolver_on_misspelling_keys (key ticker : string) :
  In (key, ticker) MISSPELLINGS ->
  _extract_ticker_from_text (VStr key) =
    Ok (VStr (if existsb (String.eqb key) agreeing_keys then ticker else "BTC")).
Proof.
  intros H. unfold MISSPELLINGS in H. simpl in H.
  repeat (destruct H as [H | H]; [inversion H; subst; vm_compute; reflexivity|]).
  contradiction.
Qed.

Lemma resolver_on_misspelling_keys_example :
  _extract_ticker_from_text (VStr "etherium") = Ok (VStr "ETH").
Proof.
  apply (resolver_on_misspelling_keys "etherium" "ETH"). simpl. tauto.
Defined.

(** ** The ticker validity check *)

Lemma read_user_input_state (s : state) : (read_user_input s).2 = s.
Proof.
  unfold read_user_input, bind, state_get, lift, ret.
  destruct (Py.truthy _); reflexivity.
Qed.

Lemma ai_agent_outcome (py_str : value -> string) (llm : value -> result string)
    (s : state) :
  (forall ui, ai_extract_ticker llm ui = Ok (VStr "BTC")) ->
  match _ai_ticker_extraction_agent py_str llm s with
  | (Ok _, s') => s' !! "ticker" = Some (VStr "BTC")
  | (Raise _, s') => s' = s \/ s' = <["ticker" := VStr "BTC"]> s
  end.
Proof.
  intros H. unfold _ai_ticker_extraction_agent, bind.
  pose proof (read_user_input_state s) as Hs.
  destruct (read_user_input s) as [[ui|e] s0]; simpl in Hs; subst s0;
    [|left; reflexivity].
  rewrite H. unfold state_set, append_message. cbn beta iota zeta.
  rewrite lookup_insert_ne by discriminate.
  destruct (s !! "messages") as [[ | | | | |log| ]|]; try (right; reflexivity).
  rewrite lookup_insert_ne by discriminate. apply lookup_insert_eq.
Qed.

(** C10: [is_valid_ticker] accepts a string exactly when it is one of the
    fifteen (distinct) values of [CRYPTO_TICKERS].  USDT, DOGE and AAVE are
    keys of the Asset Catalog that it rejects, so that when the model
    answers one of them the AI ticker-extraction stage stores BTC instead:
    the stage either raises while reading the user input, leaving the
    state as it was, or has stored BTC; on the example request it returns. *)
Theorem is_valid_ticker_accepts_only_legacy_tickers :
  (forall t : string,
      is_valid_ticker (VStr t) = Ok true <-> In t (List.map snd CRYPTO_TICKERS)) /\
  length CRYPTO_TICKERS = 15%nat /\
  List.NoDup (List.map snd CRYPTO_TICKERS) /\
  Forall (fun t =>
            in_catalog t = true /\
            is_valid_ticker (VStr t) = Ok false /\
            (forall user_input,
                ai_extract_ticker (fun _ => Ok t) user_input = Ok (VStr "BTC")) /\
            (forall py_str s,
                match _ai_ticker_extraction_agent py_str (fun _ => Ok t) s with
                | (Ok _, s') => s' !! "ticker" = Some (VStr "BTC")
                | (Raise _, s') => s' = s \/ s' = <["ticker" := VStr "BTC"]> s
                end) /\
            (_ai_ticker_extraction_agent plain_str (fun _ => Ok t) example_state).1
              = Ok tt)
         ["USDT"; "DOGE"; "AAVE"].
Proof.
  split; [|split; [|split]].
  - intros t. unfold is_valid_ticker, get_available_tickers, strs, Py.contains.
    rewrite <- existsb_strs. split; congruence.
  - reflexivity.
  - unfold CRYPTO_TICKERS. cbn [List.map snd].
    repeat (apply List.NoDup_cons;
            [cbn [In]; intros H; repeat (destruct H as [H|H]; [discriminate H|]);
             exact H|]).
    apply List.NoDup_nil.
  - apply List.Forall_cons;
      [|apply List.Forall_cons; [|apply List.Forall_cons; [|apply List.Forall_nil]]].
    all: (split; [vm_compute; reflexivity|]).
    all: (split; [vm_compute; reflexivity|]).
    all: (split; [intros ui; vm_compute; reflexivity|]).
    all: (split; [|vm_compute; reflexivity]).
    all: intros py_str s; apply ai_agent_outcome; intros ui; vm_compute; reflexivity.
Qed.

(** ** The message log under the stage combinators *)

Lemma messages_eq (s s' : state) :
  s' !! "messages" = s !! "messages" -> messages s' = messages s.
Proof. unfold messages. intros ->. reflexivity. Qed.

Lemma keeps_ret {A} (key : string) (a : A) : keeps key (ret a).
Proof. intros s. reflexivity. Qed.

Lemma keeps_lift {A} (key : string) (r : result A) : keeps key (lift r).
Proof. intros s. reflexivity. Qed.

Lemma keeps_state_get (key k : string) (dflt : value) : keeps key (state_get k dflt).
Proof. intros s. reflexivity. Qed.

Lemma keeps_state_set (key k : string) (v : value) :
  k <> key -> keeps key (state_set k v).
Proof. intros H s. cbn [state_set snd]. apply lookup_insert_ne. exact H. Qed.

Lemma keeps_bind {A B} (key : string) (m : M A) (k : A -> M B) :
  keeps key m -> (forall a, keeps key (k a)) -> keeps key (bind m k).
Proof.
  intros Hm Hk s. unfold bind. specialize (Hm s).
  destruct (m s) as [[a|e] s1]; cbn [snd] in *.
  - rewrite Hk. exact Hm.
  - exact Hm.
Qed.

Lemma keeps_try_except {A} (key : string) (body : M A) (handler : exn -> M A) :
  keeps key body -> (forall e, keeps key (handler e)) ->
  keeps key (try_except body handler).
Proof.
  intros Hb Hh s. unfold try_except. specialize (Hb s).
  destruct (body s) as [[a|e] s1]; cbn [snd] in *.
  - exact Hb.
  - rewrite Hh. exact Hb.
Qed.

Lemma keeps_append_message (key : string) (entry : result value) :
  "messages" <> key -> keeps key (append_message entry).
Proof.
  intros H s. unfold append_message.
  destruct (s !! "messages") as [[ | | | | |log| ]|]; try reflexivity.
  destruct entry as [e|x]; [|reflexivity].
  cbn [snd]. apply lookup_insert_ne. exact H.
Qed.

Lemma keeps_read_user_input (key : string) : keeps key read_user_input.
Proof.
  unfold read_user_input. apply keeps_bind; [apply keeps_state_get|].
  intros present. destruct (Py.truthy present); [|apply keeps_ret].
  apply keeps_bind; [apply keeps_state_get|]. intros msgs. apply keeps_lift.
Qed.

Lemma appends_append_message (entry : result value) :
  appends_one_entry (append_message entry).
Proof.
  intros s. unfold append_message, messages.
  destruct (s !! "messages") as [[ | | | | |log| ]|] eqn:E; try exact E.
  destruct entry as [e|x]; [|exact E].
  exists log, e. rewrite lookup_insert_eq. split; reflexivity.
Qed.

Lemma appends_bind {A B} (m : M A) (k : A -> M B) :
  keeps_log m -> (forall a, appends_one_entry (k a)) -> appends_one_entry (bind m k).
Proof.
  intros Hm Hk s. unfold bind. specialize (Hm s).
  destruct (m s) as [[a|e] s1]; cbn [snd] in Hm; [|exact Hm].
  specialize (Hk a s1). destruct (k a s1) as [[b|e] s2].
  - rewrite (messages_eq _ _ Hm) in Hk. exact Hk.
  - rewrite Hk. exact Hm.
Qed.

Lemma appends_try_except {A} (body : M A) (handler : exn -> M A) :
  appends_one_entry body -> (forall e, appends_one_entry (handler e)) ->
  appends_one_entry (try_except body handler).
Proof.
  intros Hb Hh s. unfold try_except. specialize (Hb s).
  destruct (body s) as [[a|e] s1]; [exact Hb|].
  specialize (Hh e s1). destruct (handler e s1) as [[b|e'] s2].
  - rewrite (messages_eq _ _ Hb) in Hh. exact Hh.
  - rewrite Hh. exact Hb.
Qed.

(** One step of a stage body that leaves a key alone. *)
Ltac keeps_step :=
  first [ apply keeps_state_get
        | apply keeps_lift
        | apply keeps_ret
        | apply keeps_read_user_input
        | apply keeps_state_set; discriminate
        | apply keeps_append_message; discriminate ].

(** A stage body made of such steps. *)
Ltac keeps_all :=
  repeat (apply keeps_bind; [keeps_step | intros ?]); try keeps_step.

(** A stage body: steps that leave the log alone, then one append. *)
Ltac appends_one :=
  repeat (apply appends_bind; [unfold keeps_log; keeps_step | intros ?]);
  try apply appends_append_message.

Section StageLog.

Variable py_str : value -> string.
Variable exn_str : exn -> string.
Variable fixed2 : value -> string.
Variable text_len : string -> Z.
Variable extractor : value -> result value.
Variable now : string.

Lemma appends_extraction_try (ui : value) :
  appends_one_entry (extraction_try py_str extractor ui now).
Proof.
  unfold extraction_try. appends_one.
Qed.

Lemma appends_extraction_except (e : exn) :
  appends_one_entry (extraction_except exn_str now e).
Proof. unfold extraction_except. appends_one. Qed.

Lemma appends_extraction :
  appends_one_entry (_enhanced_asset_extraction_agent py_str exn_str extractor now).
Proof.
  unfold _enhanced_asset_extraction_agent.
  apply appends_bind; [unfold keeps_log; keeps_step | intros ui].
  apply appends_try_except;
    [apply appends_extraction_try | apply appends_extraction_except].
Qed.

Lemma appends_validation : appends_one_entry (_asset_validation_agent py_str now).
Proof. unfold _asset_validation_agent. appends_one. Qed.

Lemma appends_hitl : appends_one_entry (_human_in_the_loop_agent py_str now).
Proof.
  unfold _human_in_the_loop_agent.
  apply appends_bind; [unfold keeps_log; keeps_step | intros required].
  destruct (negb _); appends_one.
Qed.

Lemma appends_price : appends_one_entry (_price_retrieval_agent py_str now).
Proof. unfold _price_retrieval_agent. appends_one. Qed.

Lemma appends_technical : appends_one_entry (_technical_analysis_agent py_str now).
Proof. unfold _technical_analysis_agent. appends_one. Qed.

Lemma appends_news : appends_one_entry (_news_retrieval_agent py_str now).
Proof. unfold _news_retrieval_agent. appends_one. Qed.

Lemma appends_sentiment : appends_one_entry (_sentiment_analysis_agent py_str now).
Proof. unfold _sentiment_analysis_agent. appends_one. Qed.

Lemma appends_reporter :
  appends_one_entry (_comprehensive_reporter_agent py_str fixed2 text_len now).
Proof. unfold _comprehensive_reporter_agent. appends_one. Qed.

Lemma appends_run_stage (st : stage) :
  appends_one_entry (run_stage py_str exn_str fixed2 text_len extractor now st).
Proof.
  destruct st; cbn [run_stage].
  - apply appends_extraction.
  - apply appends_validation.
  - apply appends_hitl.
  - apply appends_price.
  - apply appends_technical.
  - apply appends_news.
  - apply appends_sentiment.
  - apply appends_reporter.
Qed.

End StageLog.

(** ** The validation rules *)

Lemma lookup_in (k : value) (d : list (value * value)) (v : value) :
  Py.lookup k d = Some v -> In v (List.map snd d).
Proof.
  induction d as [|[k' v'] d IH]; simpl; [discriminate|].
  destruct (Py.key_eqb k' k); [intros [= ->]; left; reflexivity | auto].
Qed.

Lemma catalog_entries_sectors_ok :
  Forall entry_sectors_ok (List.map snd (entries CRYPTO_ASSETS)).
Proof.
  unfold CRYPTO_ASSETS, dict, entries. cbn [List.map snd fst].
  repeat (apply List.Forall_cons; [vm_compute; reflexivity|]).
  apply List.Forall_nil.
Qed.

(** The sector test both validation rules perform on a ticker. *)
Lemma sector_check (sector ticker : string) :
  (let? info := get_asset_by_ticker (VStr ticker) in
   let? sectors := Py.get info (VStr "sectors") (VList []) in
   Py.contains (VStr sector) sectors) = Ok (in_sector sector ticker).
Proof.
  rewrite get_asset_by_ticker_str. cbn [rbind].
  unfold in_sector, catalog_sectors.
  destruct (catalog_entry (Str.upper ticker)) as [e|] eqn:E; [|reflexivity].
  pose proof catalog_entries_sectors_ok as H.
  rewrite List.Forall_forall in H. specialize (H e (lookup_in _ _ _ E)).
  unfold entry_sectors_ok in H. rewrite H. reflexivity.
Qed.

Lemma is_stablecoin_str (ticker : string) :
  is_stablecoin (VStr ticker) = Ok (in_sector "Stablecoin" ticker).
Proof. apply (sector_check "Stablecoin"). Qed.

Lemma validate_asset_resolved (py_str : value -> string) (acc : list value)
    (a : resolved_asset) :
  validate_asset py_str acc (asset_value a) =
  Ok (acc ++ List.map VStr (warnings_for py_str a))%list.
Proof.
  unfold validate_asset, asset_value.
  change (Py.get (dict _) (VStr "ticker") (VStr "")) with (Ok (VStr (ticker_of a))).
  change (Py.get (dict _) (VStr "confidence") (VInt 0))
    with (Ok (VFloat (confidence_of a))).
  cbn [rbind]. rewrite is_stablecoin_str. cbn [rbind Py.lt_float].
  pose proof (sector_check "Meme" (ticker_of a)) as Hm.
  destruct (get_asset_by_ticker (VStr (ticker_of a))) as [info|e]; [|discriminate Hm].
  cbn [rbind] in Hm |- *.
  destruct (Py.get info (VStr "sectors") (VList [])) as [sectors|e]; [|discriminate Hm].
  cbn [rbind] in Hm |- *. rewrite Hm. cbn [rbind].
  unfold warnings_for, get_confidence_threshold, fmt.
  destruct (in_sector "Stablecoin" (ticker_of a)),
           (PrimFloat.ltb (confidence_of a) 0.85),
           (in_sector "Meme" (ticker_of a));
    cbn [List.map List.app]; rewrite <- ?app_assoc; cbn [List.app];
    rewrite ?app_nil_r; reflexivity.
Qed.

Lemma validate_assets_resolved (py_str : value -> string) (acc : list value)
    (assets : list resolved_asset) :
  validate_assets py_str acc (List.map asset_value assets) =
  Ok (acc ++ expected_warnings py_str assets)%list.
Proof.
  unfold expected_warnings. revert acc.
  induction assets as [|a assets IH]; intros acc; cbn [List.map validate_assets flat_map].
  - rewrite app_nil_r. reflexivity.
  - rewrite validate_asset_resolved. cbn [rbind]. rewrite IH.
    rewrite List.map_app, app_assoc. reflexivity.
Qed.

(** C6: on a state whose resolved assets are [assets] (each a ticker, a
    name and a float confidence), the validation stage returns and stores
    exactly the warnings of the rules, asset by asset in resolution order
    and, for one asset, in the order stablecoin, low confidence (strictly
    below 0.85), meme risk; the rules accumulate. *)
Theorem validation_warnings_follow_the_rules
    (py_str : value -> string) (now : string) (assets : list resolved_asset)
    (s : state) (log : list value) :
  messages s = Some log ->
  s !! "extracted_assets" = Some (VList (List.map asset_value assets)) ->
  exists e,
    _asset_validation_agent py_str now s =
    (Ok tt,
     <["messages" := VList (log ++ [e])]>
       (<["asset_warnings" := VList (expected_warnings py_str assets)]> s)).
Proof.
  intros Hlog Ha. unfold _asset_validation_agent, bind, state_get, lift, state_set.
  rewrite Ha. cbn [Py.iter rbind].
  rewrite (validate_assets_resolved py_str [] assets). cbn [List.app].
  unfold append_message. rewrite lookup_insert_ne by discriminate.
  unfold messages in Hlog.
  destruct (s !! "messages") as [[ | | | | |log'| ]|]; try discriminate Hlog.
  injection Hlog as ->. eexists. reflexivity.
Qed.

Lemma validation_warnings_example :
  exists e,
    _asset_validation_agent plain_str "2024-01-01T00:00:00"
      {[ "messages" := VList [];
         "extracted_assets" :=
           VList [ asset_value {| ticker_of := "USDT"; name_of := "Tether";
                                  confidence_of := 0.96 |};
                   asset_value {| ticker_of := "PEPE"; name_of := "Pepe";
                                  confidence_of := 0.80 |} ] ]} =
    (Ok tt,
     <["messages" := VList ([] ++ [e])]>
       (<["asset_warnings" :=
            VList (expected_warnings plain_str
                     [ {| ticker_of := "USDT"; name_of := "Tether";
                          confidence_of := 0.96 |};
                       {| ticker_of := "PEPE"; name_of := "Pepe";
                          confidence_of := 0.80 |} ])]>
          {[ "messages" := VList [];
             "extracted_assets" :=
               VList [ asset_value {| ticker_of := "USDT"; name_of := "Tether";
                                      confidence_of := 0.96 |};
                       asset_value {| ticker_of := "PEPE"; name_of := "Pepe";
                                      confidence_of := 0.80 |} ] ]})).
Proof.
  apply (validation_warnings_follow_the_rules plain_str "2024-01-01T00:00:00"
           [ {| ticker_of := "USDT"; name_of := "Tether"; confidence_of := 0.96 |};
             {| ticker_of := "PEPE"; name_of := "Pepe"; confidence_of := 0.80 |} ]);
    vm_compute; reflexivity.
Defined.

(** The warnings of the example, spelled out. *)
Example expected_warnings_example :
  expected_warnings plain_str
    [ {| ticker_of := "USDT"; name_of := "Tether"; confidence_of := 0.96 |};
      {| ticker_of := "PEPE"; name_of := "Pepe"; confidence_of := 0.80 |} ] =
  [ VStr "Stablecoin detected: USDT - Technical analysis may not be meaningful";
    VStr "Low confidence in PEPE: <object>";
    VStr "Meme coin detected: PEPE - High volatility expected" ].
Proof. vm_compute. reflexivity. Qed.

(** ** The extraction stage *)

Lemma messages_insert_other (k : string) (v : value) (s : state) :
  k <> "messages" -> messages (<[k := v]> s) = messages s.
Proof. intros H. apply messages_eq. apply lookup_insert_ne. exact H. Qed.

Lemma append_message_returns (e : value) (s : state) (log : list value) :
  messages s = Some log ->
  append_message (Ok e) s = (Ok tt, <["messages" := VList (log ++ [e])]> s).
Proof.
  unfold messages, append_message.
  destruct (s !! "messages") as [[ | | | | |log'| ]|]; try discriminate.
  intros [= ->]. reflexivity.
Qed.

(** Reading a key through the writes of a stage. *)
Ltac read_key :=
  repeat first [ rewrite lookup_insert_eq
               | rewrite lookup_insert_ne by discriminate ];
  try reflexivity.

Lemma rmap_total {A B} (f : A -> result B) (l : list A) :
  Forall (fun a => exists b, f a = Ok b) l -> exists bs, rmap f l = Ok bs.
Proof.
  induction 1 as [|a l [b Hb] _ [bs IH]]; cbn [rmap].
  - eexists. reflexivity.
  - rewrite Hb. cbn [rbind]. rewrite IH. eexists. reflexivity.
Qed.

Lemma asset_ok_fields (a : value) :
  asset_ok a = true ->
  exists d t c, a = VDict d /\ Py.lookup (VStr "ticker") d = Some (VStr t)
                /\ Py.lookup (VStr "confidence") d = Some (VFloat c).
Proof.
  destruct a as [ | | | | | |d]; try discriminate. cbn [asset_ok].
  intros H. apply andb_prop in H as [Ht Hc].
  destruct (Py.lookup (VStr "ticker") d) as [[ | | | |t| | ]|] eqn:Et;
    try discriminate.
  destruct (Py.lookup (VStr "confidence") d) as [[ | | |c| | | ]|] eqn:Ec;
    try discriminate.
  exists d, t, c. repeat split; assumption.
Qed.

Lemma tickers_of_total (l : list value) :
  forallb asset_ok l = true -> exists ts, tickers_of (VList l) = Ok ts.
Proof.
  intros H. unfold tickers_of. cbn [Py.iter rbind].
  destruct (rmap_total (fun a => Py.getitem a (VStr "ticker")) l) as [ts Hts].
  - rewrite forallb_forall in H. apply List.Forall_forall. intros a Ha.
    destruct (asset_ok_fields a (H a Ha)) as (d & t & c & -> & Ht & _).
    exists (VStr t). cbn [Py.getitem Py.hashable]. rewrite Ht. reflexivity.
  - rewrite Hts. eexists. reflexivity.
Qed.

Lemma scores_total (l : list value) :
  forallb asset_ok l = true ->
  exists cs, rmap (fun a => Py.get a (VStr "confidence") (VInt 0)) l = Ok cs.
Proof.
  intros H. apply rmap_total. rewrite forallb_forall in H.
  apply List.Forall_forall. intros a Ha.
  destruct (asset_ok_fields a (H a Ha)) as (d & t & c & -> & _ & _).
  eexists. reflexivity.
Qed.

Lemma messages_lookup (s : state) (log : list value) :
  messages s = Some log -> s !! "messages" = Some (VList log).
Proof.
  unfold messages.
  destruct (s !! "messages") as [[ | | | | |log'| ]|]; try discriminate.
  intros [= ->]. reflexivity.
Qed.

Lemma getitem_last (l : list value) (x : value) :
  Py.getitem (VList (l ++ [x])) (VInt (-1)) = Ok x.
Proof.
  cbn [Py.getitem Py.as_index]. unfold Py.seq_index.
  rewrite length_app. cbn [length].
  replace (0 <=? -1)%Z with false by reflexivity.
  replace (- Z.of_nat (length l + 1) <=? -1)%Z with true
    by (symmetry; apply Z.leb_le; lia).
  replace (Z.to_nat (Z.of_nat (length l + 1) + -1)) with (length l + 0)%nat by lia.
  rewrite nth_error_app2 by lia.
  replace (length l + 0 - length l)%nat with 0%nat by lia. reflexivity.
Qed.

Lemma read_user_input_returns (s : state) (log : list value) :
  messages s = Some log -> input_ok log = true ->
  exists ui, read_user_input s = (Ok ui, s).
Proof.
  intros Hlog Hin. apply messages_lookup in Hlog.
  unfold read_user_input, bind, state_get, lift, ret. rewrite Hlog.
  unfold input_ok in Hin.
  destruct (rev log) as [|x r] eqn:Er.
  - apply (f_equal (@rev value)) in Er. rewrite rev_involutive in Er. subst log.
    eexists. reflexivity.
  - apply (f_equal (@rev value)) in Er. rewrite rev_involutive in Er.
    cbn [rev] in Er. subst log.
    destruct x as [ | | | | | |d]; try discriminate Hin.
    replace (Py.truthy (VList (rev r ++ [VDict d]))) with true
      by (destruct (rev r); reflexivity).
    cbv beta iota. rewrite Hlog, getitem_last. eexists. reflexivity.
Qed.

Section Extraction.

Variable py_str : value -> string.
Variable exn_str : exn -> string.
Variable extractor : value -> result value.
Variable now : string.

(** What the [except] block leaves in the state. *)
Lemma extraction_except_returns (e : exn) (s : state) (log : list value) :
messages s = Some log ->
exists s',
  extraction_except exn_str now e s = (Ok tt, s') /\
  s' !! "ticker" = Some (VStr "BTC") /\
  s' !! "extracted_assets" = Some (VList [fallback_asset]) /\
  s' !! "hitl_required" = Some (VBool true) /\
  s' !! "hitl_reason" = Some (VStr "extraction_error").
Proof.
intros Hlog. unfold extraction_except, bind, state_set. cbv beta iota.
erewrite append_message_returns
  by (rewrite !messages_insert_other by discriminate; exact Hlog).
eexists. split; [reflexivity|]. repeat split; read_key.
Qed.

(** What the [try] block has done when it returns. *)
Lemma extraction_try_returned (ui : value) (s s' : state) :
extraction_try py_str extractor ui now s = (Ok tt, s') ->
exists data assets required reason,
  extractor ui = Ok data /\
  Py.get data (VStr "extracted_assets") (VList []) = Ok assets /\
  Py.get data (VStr "hitl_required") (VBool false) = Ok required /\
  Py.get data (VStr "hitl_reason") (VStr "") = Ok reason /\
  s' !! "extracted_assets" = Some assets /\
  s' !! "hitl_required" = Some required /\
  s' !! "hitl_reason" = Some reason.
Proof.
unfold extraction_try, bind, lift, state_set, ret.
destruct (extractor ui) as [data|e]; [|discriminate].
destruct data as [ | | | | | |d]; try discriminate.
match goal with
| |- match ?r with _ => _ end = _ -> _ => destruct r as [t|e]; [|discriminate]
end.
rewrite !get_str_key. cbv beta iota.
unfold append_message;
  match goal with
  | |- match ?x with _ => _ end = _ -> _ =>
      destruct x as [[ | | | | |log| ]|]; try discriminate
  end;
  match goal with
  | |- match ?r with _ => _ end = _ -> _ => destruct r as [entry|x]; [|discriminate]
  end;
  intros [= <-];
  eexists _, _, _, _; split; [reflexivity|];
  rewrite !get_str_key; repeat split; read_key.
Qed.

(** On a well-formed response the [try] block returns. *)
Lemma extraction_try_returns (ui : value) (d : list (value * value))
  (s : state) (log : list value) :
extractor ui = Ok (VDict d) ->
assets_ok (Py.lookup (VStr "extracted_assets") d) = true ->
messages s = Some log ->
exists s', extraction_try py_str extractor ui now s = (Ok tt, s').
Proof.
intros Hx Hok Hlog. unfold extraction_try, bind, lift, state_set, ret.
rewrite Hx. rewrite !get_str_key. cbv beta iota.
assert (Hentry : exists entry, extraction_message py_str (VDict d) now = Ok entry).
{ unfold extraction_message. rewrite !get_str_key. cbn [rbind].
  destruct (Py.lookup (VStr "extracted_assets") d) as [[ | | | | |l| ]|];
    try discriminate Hok; cbn [assets_ok] in Hok.
  - cbn [Py.len rbind].
    destruct (tickers_of_total l Hok) as [ts ->]. cbn [rbind Py.iter].
    destruct (scores_total l Hok) as [cs ->]. cbn [rbind]. eexists. reflexivity.
  - eexists. reflexivity. }
destruct Hentry as [entry Hentry]. rewrite Hentry.
assert (Hdone : forall t : value,
  exists s',
    append_message (Ok entry)
      (<["hitl_reason" := match Py.lookup (VStr "hitl_reason") d with
                          | Some v => v | None => VStr "" end]>
         (<["hitl_required" := match Py.lookup (VStr "hitl_required") d with
                               | Some v => v | None => VBool false end]>
            (<["parse_notes" := match Py.lookup (VStr "parse_notes") d with
                                | Some v => v | None => VStr "" end]>
               (<["analysis_meta" := match Py.lookup (VStr "meta") d with
                                     | Some v => v | None => dict [] end]>
                  (<["analysis_mode" := match Py.lookup (VStr "mode") d with
                                        | Some v => v
                                        | None => VStr "asset_specific" end]>
                     (<["extracted_assets" :=
                          match Py.lookup (VStr "extracted_assets") d with
                          | Some v => v | None => VList [] end]>
                        (<["ticker" := t]> s))))))) = (Ok tt, s')).
{ intros t. erewrite append_message_returns
    by (rewrite !messages_insert_other by discriminate; exact Hlog).
  eexists. reflexivity. }
unfold primary_ticker_of. rewrite get_str_key. cbn [rbind].
destruct (Py.lookup (VStr "extracted_assets") d) as [[ | | | | |l| ]|] eqn:El;
  try discriminate Hok; cbn [assets_ok] in Hok; cbn [Py.truthy].
- destruct l as [|a l]; [apply Hdone|].
  cbn [forallb] in Hok. apply andb_prop in Hok as [Ha _].
  destruct (asset_ok_fields a Ha) as (da & t & c & -> & Ht & _).
  cbn [Py.getitem Py.hashable]. rewrite El. cbn [rbind].
  change (Py.getitem (VList (VDict da :: l)) (VInt 0)) with (Ok (VDict da)).
  cbn [rbind Py.getitem Py.hashable]. rewrite Ht. apply Hdone.
- apply Hdone.
Qed.

(** The stage: the [try] block, and the [except] block when it raises. *)
Lemma extraction_stage_cases (s : state) (log : list value) (ui : value) :
messages s = Some log ->
read_user_input s = (Ok ui, s) ->
exists s',
  _enhanced_asset_extraction_agent py_str exn_str extractor now s = (Ok tt, s') /\
  match extraction_try py_str extractor ui now s with
  | (Ok _, s1) => s' = s1
  | (Raise e, s1) =>
      s' !! "ticker" = Some (VStr "BTC") /\
      s' !! "extracted_assets" = Some (VList [fallback_asset]) /\
      s' !! "hitl_required" = Some (VBool true) /\
      s' !! "hitl_reason" = Some (VStr "extraction_error")
  end.
Proof.
intros Hlog Hui. unfold _enhanced_asset_extraction_agent, bind, try_except.
rewrite Hui. pose proof (appends_extraction_try py_str extractor now ui s) as Ha.
destruct (extraction_try py_str extractor ui now s) as [[[]|e] s1].
- exists s1. split; reflexivity.
- rewrite <- (messages_eq _ _ Ha) in Hlog.
  destruct (extraction_except_returns e s1 log Hlog) as (s' & -> & H).
  exists s'. split; [reflexivity | exact H].
Qed.

End Extraction.

(** The stage stores what the model returned, unchecked: a ticker that is
    not in the catalog, or no asset at all. *)
Lemma unchecked_response_is_stored :
  (example_extraction (Ok response_unknown_ticker) example_state).1 = Ok tt /\
  (example_extraction (Ok response_unknown_ticker) example_state).2
    !! "extracted_assets" =
    Some (VList [dict [("ticker", VStr "XYZ"); ("name", VStr "Xyz");
                       ("confidence", VFloat 0.9)]]) /\
  in_catalog "XYZ" = false /\
  resolved_list_valid
    ((example_extraction (Ok response_unknown_ticker) example_state).2
       !! "extracted_assets") = false /\
  (example_extraction (Ok response_no_assets) example_state).1 = Ok tt /\
  (example_extraction (Ok response_no_assets) example_state).2
    !! "extracted_assets" = Some (VList []).
Proof. repeat split; vm_compute; reflexivity. Qed.

(** C1 (amended): on a state whose message log is empty or ends with a
    dictionary, the extraction stage reads the user input and returns.
    When extraction fails (the extractor raises, or the handling of its
    response does), the list stored is exactly the single fallback entry
    BTC with confidence 0.5, and the ticker is BTC.  When the extractor
    returns a non-empty list of well-formed assets whose tickers exist in
    the catalog, that list is stored as it is, so that the stored list is
    non-empty and all its tickers exist in the catalog. *)
Theorem extraction_stores_fallback_or_response
    (py_str : value -> string) (exn_str : exn -> string)
    (extractor : value -> result value) (now : string)
    (s : state) (log : list value) :
  messages s = Some log ->
  input_ok log = true ->
  exists ui s',
    read_user_input s = (Ok ui, s) /\
    _enhanced_asset_extraction_agent py_str exn_str extractor now s = (Ok tt, s') /\
    (forall e, (extraction_try py_str extractor ui now s).1 = Raise e ->
       s' !! "ticker" = Some (VStr "BTC") /\
       s' !! "extracted_assets" = Some (VList [fallback_asset]) /\
       resolved_list_valid (s' !! "extracted_assets") = true) /\
    (forall e, extractor ui = Raise e ->
       s' !! "extracted_assets" = Some (VList [fallback_asset])) /\
    (forall d l,
       extractor ui = Ok (VDict d) ->
       Py.lookup (VStr "extracted_assets") d = Some (VList l) ->
       forallb asset_ok l = true ->
       resolved_list_valid (Some (VList l)) = true ->
       s' !! "extracted_assets" = Some (VList l) /\
       resolved_list_valid (s' !! "extracted_assets") = true).
Proof.
  intros Hlog Hin.
  destruct (read_user_input_returns s log Hlog Hin) as [ui Hui].
  destruct (extraction_stage_cases py_str exn_str extractor now s log ui Hlog Hui)
    as (s' & Hs & Hcases).
  exists ui, s'. split; [exact Hui|]. split; [exact Hs|]. split; [|split].
  - intros e He.
    destruct (extraction_try py_str extractor ui now s) as [[[]|e'] s1];
      [discriminate He|].
    destruct Hcases as (Ht & Ha & _). rewrite Ha. repeat split; assumption.
  - intros e He.
    assert (Ht : extraction_try py_str extractor ui now s = (Raise e, s)).
    { unfold extraction_try, bind, lift. rewrite He. reflexivity. }
    rewrite Ht in Hcases. apply Hcases.
  - intros d l Hx Hl Hok Hvalid.
    destruct (extraction_try_returns py_str extractor now ui d s log Hx) as [s1 H1];
      [rewrite Hl; exact Hok | exact Hlog |].
    rewrite H1 in Hcases. subst s1.
    destruct (extraction_try_returned py_str extractor now ui s s' H1)
      as (data & assets & required & reason & Hd & Ha & _ & _ & Hs' & _).
    rewrite Hx in Hd. injection Hd as <-.
    rewrite get_str_key, Hl in Ha. injection Ha as <-.
    rewrite Hs'. split; [reflexivity | exact Hvalid].
Qed.

Lemma extraction_stores_fallback_example :
  exists s',
    example_extraction (Raise (ExternalError "timeout")) example_state = (Ok tt, s') /\
    s' !! "extracted_assets" = Some (VList [fallback_asset]).
Proof.
  destruct (extraction_stores_fallback_or_response plain_str plain_exn
              (fun _ => Raise (ExternalError "timeout")) "2024-01-01T00:00:01"
              example_state
              [dict [("role", VStr "user"); ("content", VStr "Analyze XYZ");
                     ("timestamp", VStr "2024-01-01T00:00:00Z")]])
    as (ui & s' & _ & Hs & _ & Hraise & _).
  - vm_compute; reflexivity.
  - vm_compute; reflexivity.
  - exists s'. split; [exact Hs|]. apply (Hraise (ExternalError "timeout")). reflexivity.
Defined.

(** The model asks for review and gives no reason: the stage stores
    [hitl_required = True] with the empty reason. *)
Lemma review_without_reason_is_stored :
  (example_extraction (Ok response_review_without_reason) example_state).1 = Ok tt /\
  (example_extraction (Ok response_review_without_reason) example_state).2
    !! "hitl_required" = Some (VBool true) /\
  (example_extraction (Ok response_review_without_reason) example_state).2
    !! "hitl_reason" = Some (VStr "") /\
  hitl_consistent (VBool true) (VStr "") = false.
Proof. repeat split; vm_compute; reflexivity. Qed.

(** C4 (amended): on a state whose message log is empty or ends with a
    dictionary, the extraction stage returns and the state carries a HITL
    decision.  On the failure path the decision is [True] with reason
    [extraction_error], which satisfies "review is required exactly when
    the reason is not none".  On the successful path the two fields are
    those of the model's response (defaults [False] and the empty reason),
    stored unchecked: the state satisfies the invariant exactly when the
    response does. *)
Theorem extraction_hitl_decision
    (py_str : value -> string) (exn_str : exn -> string)
    (extractor : value -> result value) (now : string)
    (s : state) (log : list value) :
  messages s = Some log ->
  input_ok log = true ->
  exists ui s' required reason,
    read_user_input s = (Ok ui, s) /\
    _enhanced_asset_extraction_agent py_str exn_str extractor now s = (Ok tt, s') /\
    s' !! "hitl_required" = Some required /\
    s' !! "hitl_reason" = Some reason /\
    (forall e, (extraction_try py_str extractor ui now s).1 = Raise e ->
       required = VBool true /\ reason = VStr "extraction_error" /\
       hitl_consistent required reason = true) /\
    ((extraction_try py_str extractor ui now s).1 = Ok tt ->
       exists data,
         extractor ui = Ok data /\
         Py.get data (VStr "hitl_required") (VBool false) = Ok required /\
         Py.get data (VStr "hitl_reason") (VStr "") = Ok reason).
Proof.
  intros Hlog Hin.
  destruct (read_user_input_returns s log Hlog Hin) as [ui Hui].
  destruct (extraction_stage_cases py_str exn_str extractor now s log ui Hlog Hui)
    as (s' & Hs & Hcases).
  destruct (extraction_try py_str extractor ui now s) as [[[]|e'] s1] eqn:Et.
  - subst s1.
    destruct (extraction_try_returned py_str extractor now ui s s' Et)
      as (data & assets & required & reason & Hd & _ & Hq & Hr & _ & Hq' & Hr').
    exists ui, s', required, reason. split; [exact Hui|].
    split; [exact Hs|]. split; [exact Hq'|]. split; [exact Hr'|]. split.
    + intros e He. rewrite Et in He. discriminate He.
    + intros _. exists data. repeat split; assumption.
  - destruct Hcases as (_ & _ & Hq & Hr).
    exists ui, s', (VBool true), (VStr "extraction_error"). split; [exact Hui|].
    split; [exact Hs|]. split; [exact Hq|]. split; [exact Hr|]. split.
    + intros e _. repeat split; reflexivity.
    + intros H. rewrite Et in H. discriminate H.
Qed.

Lemma extraction_hitl_decision_example :
  exists s',
    example_extraction (Ok response_bitcoin) example_state = (Ok tt, s') /\
    s' !! "hitl_required" = Some (VBool false) /\
    s' !! "hitl_reason" = Some (VStr "").
Proof.
  destruct (extraction_hitl_decision plain_str plain_exn
              (fun _ => Ok response_bitcoin) "2024-01-01T00:00:01"
              example_state
              [dict [("role", VStr "user"); ("content", VStr "Analyze XYZ");
                     ("timestamp", VStr "2024-01-01T00:00:00Z")]])
    as (ui & s' & required & reason & _ & Hs & Hq & Hr & _ & Hok).
  - vm_compute; reflexivity.
  - vm_compute; reflexivity.
  - destruct Hok as (data & Hd & Hq' & Hr').
    { assert (E : extraction_try plain_str (fun _ => Ok response_bitcoin) ui
                    "2024-01-01T00:00:01" example_state =
                  extraction_try plain_str (fun _ => Ok response_bitcoin) VNone
                    "2024-01-01T00:00:01" example_state) by reflexivity.
      rewrite E. vm_compute; reflexivity. }
    injection Hd as <-.
    exists s'. split; [exact Hs|].
    change (Py.get response_bitcoin (VStr "hitl_required") (VBool false))
      with (Ok (VBool false)) in Hq'.
    change (Py.get response_bitcoin (VStr "hitl_reason") (VStr ""))
      with (Ok (VStr "")) in Hr'.
    injection Hq' as <-. injection Hr' as <-. split; assumption.
Defined.

(** ** Stages on well-formed states *)

Lemma keys_hashable_store (k v : value) (d : list (value * value)) :
  Py.hashable k = true -> keys_hashable d = true ->
  keys_hashable (Py.store k v d) = true.
Proof.
  intros Hk. unfold keys_hashable.
  induction d as [|[k' v'] d IH]; cbn [Py.store forallb fst].
  - rewrite Hk. reflexivity.
  - intros H. apply andb_prop in H as [H1 H2].
    destruct (Py.key_eqb k' k); cbn [forallb fst]; rewrite H1; [exact H2 | auto].
Qed.

Lemma per_asset_total (fetch : value -> value) (l : list value) :
  forallb asset_ok l = true ->
  forall acc, keys_hashable acc = true ->
  exists acc', per_asset fetch acc l = Ok acc' /\ keys_hashable acc' = true.
Proof.
  induction l as [|a l IH]; cbn [forallb per_asset]; intros Hl acc Hacc.
  - exists acc. split; [reflexivity | exact Hacc].
  - apply andb_prop in Hl as [Ha Hl].
    destruct (asset_ok_fields a Ha) as (d & t & c & -> & Ht & _).
    rewrite get_str_key, Ht. cbn [rbind]. unfold Py.setitem. cbn [Py.hashable rbind].
    apply (IH Hl). apply keys_hashable_store; [reflexivity | exact Hacc].
Qed.

Lemma per_item_total (compute : value -> value) (src : list (value * value)) :
  keys_hashable src = true ->
  forall acc, keys_hashable acc = true ->
  exists acc', per_item compute acc src = Ok acc' /\ keys_hashable acc' = true.
Proof.
  unfold keys_hashable at 1.
  induction src as [|[k v] src IH]; cbn [forallb per_item fst]; intros Hs acc Hacc.
  - exists acc. split; [reflexivity | exact Hacc].
  - apply andb_prop in Hs as [Hk Hs].
    unfold Py.setitem. rewrite Hk. cbn [rbind].
    apply (IH Hs). apply keys_hashable_store; assumption.
Qed.

(** The value a stage reads for the asset list: a list of well-formed
    assets. *)
Lemma assets_read (o : option value) :
  assets_ok o = true ->
  exists l, match o with Some v => v | None => VList [] end = VList l
            /\ forallb asset_ok l = true.
Proof.
  destruct o as [[ | | | | |l| ]|]; try discriminate; intros H.
  - exists l. split; [reflexivity | exact H].
  - exists []. split; reflexivity.
Qed.

Lemma key_read (o : option value) (dflt : string) :
  key_ok o = true ->
  Py.hashable (match o with Some v => v | None => VStr dflt end) = true.
Proof. destruct o as [v|]; [intros H; exact H | reflexivity]. Qed.

Lemma dict_read (o : option value) :
  dict_ok o = true ->
  exists d, match o with Some v => v | None => dict [] end = VDict d
            /\ keys_hashable d = true.
Proof.
  destruct o as [[ | | | | | |d]|]; try discriminate; intros H.
  - exists d. split; [reflexivity | exact H].
  - exists []. split; reflexivity.
Qed.

Lemma get_hashable (d : list (value * value)) (k dflt : value) :
  Py.hashable k = true ->
  Py.get (VDict d) k dflt =
  Ok (match Py.lookup k d with Some v => v | None => dflt end).
Proof. intros H. cbn [Py.get]. rewrite H. reflexivity. Qed.

Section Steps.

Variable py_str : value -> string.
Variable exn_str : exn -> string.
Variable fixed2 : value -> string.
Variable text_len : string -> Z.
Variable now : string.

Lemma validate_asset_ok (acc : list value) (a : value) :
asset_ok a = true -> exists w, validate_asset py_str acc a = Ok w.
Proof.
intros Ha. destruct (asset_ok_fields a Ha) as (d & t & c & -> & Ht & Hc).
assert (E : validate_asset py_str acc (VDict d) =
            validate_asset py_str acc
              (asset_value {| ticker_of := t; name_of := ""; confidence_of := c |})).
{ unfold validate_asset. rewrite !get_str_key, Ht, Hc. reflexivity. }
rewrite E, validate_asset_resolved. eexists. reflexivity.
Qed.

Lemma validate_assets_ok (l : list value) :
forallb asset_ok l = true ->
forall acc, exists w, validate_assets py_str acc l = Ok w.
Proof.
induction l as [|a l IH]; cbn [forallb validate_assets]; intros Hl acc.
- eexists. reflexivity.
- apply andb_prop in Hl as [Ha Hl].
  destruct (validate_asset_ok acc a Ha) as [w ->]. cbn [rbind]. apply (IH Hl).
Qed.

Lemma validation_step (s : state) (log : list value) :
messages s = Some log ->
assets_ok (s !! "extracted_assets") = true ->
exists s' e,
  _asset_validation_agent py_str now s = (Ok tt, s') /\
  messages s' = Some (log ++ [e])%list /\
  s' !! "extracted_assets" = s !! "extracted_assets" /\
  s' !! "ticker" = s !! "ticker" /\
  list_ok (s' !! "asset_warnings") = true.
Proof.
intros Hlog Hok. destruct (assets_read _ Hok) as (l & Hl & Hall).
unfold _asset_validation_agent, bind, state_get, lift, state_set. rewrite Hl.
cbn [Py.iter rbind]. destruct (validate_assets_ok l Hall []) as [w ->].
erewrite append_message_returns
  by (rewrite !messages_insert_other by discriminate; exact Hlog).
eexists _, _. split; [reflexivity|]. unfold messages. repeat split; read_key.
Qed.

Lemma hitl_notice_total (reason : value) (l : list value) :
forallb asset_ok l = true -> exists text, hitl_notice py_str reason (VList l) = Ok text.
Proof.
intros Hl. unfold hitl_notice. destruct (tickers_of_total l Hl) as [ts ->].
cbn [rbind].
destruct (Py.eq_str reason "confidence_low"); [eexists; reflexivity|].
destruct (Py.eq_str reason "ambiguous_asset"); [eexists; reflexivity|].
destruct (Py.eq_str reason "sector_request"); eexists; reflexivity.
Qed.

Lemma hitl_step (s : state) (log : list value) :
messages s = Some log ->
assets_ok (s !! "extracted_assets") = true ->
exists s' e,
  _human_in_the_loop_agent py_str now s = (Ok tt, s') /\
  messages s' = Some (log ++ [e])%list /\
  s' !! "extracted_assets" = s !! "extracted_assets" /\
  s' !! "ticker" = s !! "ticker" /\
  s' !! "asset_warnings" = s !! "asset_warnings".
Proof.
intros Hlog Hok. destruct (assets_read _ Hok) as (l & Hl & Hall).
unfold _human_in_the_loop_agent, bind, state_get, lift.
destruct (negb _).
- rewrite (append_message_returns _ s log Hlog).
  eexists _, _. split; [reflexivity|]. unfold messages. repeat split; read_key.
- rewrite Hl. destruct (hitl_notice_total
                          (match s !! "hitl_reason" with
                           | Some v => v | None => VStr "unknown" end) l Hall)
    as [text ->].
  rewrite (append_message_returns _ s log Hlog).
  eexists _, _. split; [reflexivity|]. unfold messages. repeat split; read_key.
Qed.

Lemma price_step (s : state) (log : list value) :
messages s = Some log ->
assets_ok (s !! "extracted_assets") = true ->
key_ok (s !! "ticker") = true ->
exists s' e,
  _price_retrieval_agent py_str now s = (Ok tt, s') /\
  messages s' = Some (log ++ [e])%list /\
  s' !! "extracted_assets" = s !! "extracted_assets" /\
  s' !! "ticker" = s !! "ticker" /\
  s' !! "asset_warnings" = s !! "asset_warnings" /\
  dict_ok (s' !! "all_price_data") = true.
Proof.
intros Hlog Hok Hkey. destruct (assets_read _ Hok) as (l & Hl & Hall).
unfold _price_retrieval_agent, bind, state_get, lift, state_set. rewrite Hl.
cbn [Py.iter rbind Py.len].
destruct (per_asset_total _fetch_price_data l Hall [] eq_refl) as (apd & -> & Hapd).
rewrite (get_hashable _ _ _ (key_read _ "BTC" Hkey)).
erewrite append_message_returns
  by (rewrite !messages_insert_other by discriminate; exact Hlog).
eexists _, _. split; [reflexivity|]. unfold messages. repeat split; read_key.
exact Hapd.
Qed.

Lemma technical_step (s : state) (log : list value) :
messages s = Some log ->
dict_ok (s !! "all_price_data") = true ->
key_ok (s !! "ticker") = true ->
exists s' e,
  _technical_analysis_agent py_str now s = (Ok tt, s') /\
  messages s' = Some (log ++ [e])%list /\
  s' !! "extracted_assets" = s !! "extracted_assets" /\
  s' !! "ticker" = s !! "ticker" /\
  s' !! "asset_warnings" = s !! "asset_warnings".
Proof.
intros Hlog Hok Hkey. destruct (dict_read _ Hok) as (d & Hd & Hall).
unfold _technical_analysis_agent, bind, state_get, lift, state_set. rewrite Hd.
cbn [Py.items rbind].
destruct (per_item_total _calculate_technical_indicators d Hall [] eq_refl)
  as (ind & -> & Hind).
rewrite (get_hashable _ _ _ (key_read _ "BTC" Hkey)).
erewrite append_message_returns
  by (rewrite !messages_insert_other by discriminate; exact Hlog).
eexists _, _. split; [reflexivity|]. unfold messages. repeat split; read_key.
Qed.

Lemma news_step (s : state) (log : list value) :
messages s = Some log ->
assets_ok (s !! "extracted_assets") = true ->
key_ok (s !! "ticker") = true ->
exists s' e,
  _news_retrieval_agent py_str now s = (Ok tt, s') /\
  messages s' = Some (log ++ [e])%list /\
  s' !! "extracted_assets" = s !! "extracted_assets" /\
  s' !! "ticker" = s !! "ticker" /\
  s' !! "asset_warnings" = s !! "asset_warnings" /\
  dict_ok (s' !! "all_news") = true.
Proof.
intros Hlog Hok Hkey. destruct (assets_read _ Hok) as (l & Hl & Hall).
unfold _news_retrieval_agent, bind, state_get, lift, state_set. rewrite Hl.
cbn [Py.iter rbind Py.len].
destruct (per_asset_total (_fetch_news_articles py_str) l Hall [] eq_refl)
  as (news & -> & Hnews).
rewrite (get_hashable _ _ _ (key_read _ "BTC" Hkey)).
erewrite append_message_returns
  by (rewrite !messages_insert_other by discriminate; exact Hlog).
eexists _, _. split; [reflexivity|]. unfold messages. repeat split; read_key.
exact Hnews.
Qed.

Lemma sentiment_step (s : state) (log : list value) :
messages s = Some log ->
dict_ok (s !! "all_news") = true ->
key_ok (s !! "ticker") = true ->
exists s' e,
  _sentiment_analysis_agent py_str now s = (Ok tt, s') /\
  messages s' = Some (log ++ [e])%list /\
  s' !! "extracted_assets" = s !! "extracted_assets" /\
  s' !! "asset_warnings" = s !! "asset_warnings".
Proof.
intros Hlog Hok Hkey. destruct (dict_read _ Hok) as (d & Hd & Hall).
unfold _sentiment_analysis_agent, bind, state_get, lift, state_set. rewrite Hd.
cbn [Py.items rbind].
destruct (per_item_total _analyze_sentiment d Hall [] eq_refl) as (sc & -> & Hsc).
rewrite (get_hashable _ _ _ (key_read _ "BTC" Hkey)).
erewrite append_message_returns
  by (rewrite !messages_insert_other by discriminate; exact Hlog).
eexists _, _. split; [reflexivity|]. unfold messages. repeat split; read_key.
Qed.

Lemma summary_lines_total (l : list value) :
forallb asset_ok l = true ->
forall report, exists r, summary_lines py_str fixed2 report l = Ok r.
Proof.
induction l as [|a l IH]; cbn [forallb summary_lines]; intros Hl report.
- eexists. reflexivity.
- apply andb_prop in Hl as [Ha Hl].
  destruct (asset_ok_fields a Ha) as (d & t & c & -> & Ht & Hc).
  rewrite !get_str_key, Hc. cbn [rbind format_2f]. apply (IH Hl).
Qed.

Lemma report_total (l : list value) (mode : value) (o : option value) :
forallb asset_ok l = true -> list_ok o = true ->
exists report,
  _generate_comprehensive_report py_str fixed2 (VList l) mode
    (match o with Some v => v | None => VList [] end) = Ok report.
Proof.
intros Hl Ho. unfold _generate_comprehensive_report. cbn [Py.len rbind].
assert (Hw : exists w, match o with Some v => v | None => VList [] end = VList w).
{ destruct o as [[ | | | | |w| ]|]; try discriminate Ho; eexists; reflexivity. }
destruct Hw as [w ->]. cbn [Py.iter].
destruct (Py.truthy (VList w)); cbn [rbind].
- match goal with
  | |- context [summary_lines py_str fixed2 ?r l] =>
      destruct (summary_lines_total l Hl r) as [r' ->]
  end.
  eexists. reflexivity.
- match goal with
  | |- context [summary_lines py_str fixed2 ?r l] =>
      destruct (summary_lines_total l Hl r) as [r' ->]
  end.
  eexists. reflexivity.
Qed.

Lemma reporter_step (s : state) (log : list value) :
messages s = Some log ->
assets_ok (s !! "extracted_assets") = true ->
list_ok (s !! "asset_warnings") = true ->
exists s' e,
  _comprehensive_reporter_agent py_str fixed2 text_len now s = (Ok tt, s') /\
  messages s' = Some (log ++ [e])%list.
Proof.
intros Hlog Hok Hw. destruct (assets_read _ Hok) as (l & Hl & Hall).
unfold _comprehensive_reporter_agent, bind, state_get, lift, state_set. rewrite Hl.
destruct (report_total l
            (match s !! "analysis_mode" with
             | Some v => v | None => VStr "asset_specific" end)
            (s !! "asset_warnings") Hall Hw) as [report ->].
cbn [Py.len rbind].
erewrite append_message_returns
  by (rewrite !messages_insert_other by discriminate; exact Hlog).
eexists _, _. split; [reflexivity|]. unfold messages. read_key.
Qed.

End Steps.

(** ** The workflow *)

Section Pipeline.

Variable py_str : value -> string.
Variable exn_str : exn -> string.
Variable fixed2 : value -> string.
Variable text_len : string -> Z.
Variable extractor : value -> result value.
Variable now : string.

(** The ticker the [try] block has stored when it returns. *)
Lemma extraction_try_ticker (ui : value) (s s' : state) :
extraction_try py_str extractor ui now s = (Ok tt, s') ->
exists data t,
  extractor ui = Ok data /\ primary_ticker_of data = Ok t /\
  s' !! "ticker" = Some t.
Proof.
unfold extraction_try, bind, lift, state_set, ret.
destruct (extractor ui) as [data|e]; [|discriminate].
destruct (primary_ticker_of data) as [t|e] eqn:Ep; [|discriminate].
destruct data as [ | | | | | |d]; try discriminate Ep.
rewrite !get_str_key. cbv beta iota.
unfold append_message;
  match goal with
  | |- match ?x with _ => _ end = _ -> _ =>
      destruct x as [[ | | | | |log| ]|]; try discriminate
  end;
  match goal with
  | |- match ?r with _ => _ end = _ -> _ => destruct r as [entry|x]; [|discriminate]
  end;
  intros [= <-].
eexists _, _. split; [reflexivity|]. split; [exact Ep|]. read_key.
Qed.

Lemma primary_ticker_hashable (d : list (value * value)) (t : value) :
assets_ok (Py.lookup (VStr "extracted_assets") d) = true ->
primary_ticker_of (VDict d) = Ok t -> Py.hashable t = true.
Proof.
intros Hok. unfold primary_ticker_of. rewrite get_str_key. cbn [rbind].
destruct (Py.lookup (VStr "extracted_assets") d) as [[ | | | | |l| ]|] eqn:El;
  try discriminate Hok; cbn [assets_ok] in Hok; cbn [Py.truthy].
- destruct l as [|a l]; [intros [= <-]; reflexivity|].
  cbn [forallb] in Hok. apply andb_prop in Hok as [Ha _].
  destruct (asset_ok_fields a Ha) as (da & t' & c & -> & Ht & _).
  cbn [Py.getitem Py.hashable]. rewrite El. cbn [rbind].
  change (Py.getitem (VList (VDict da :: l)) (VInt 0)) with (Ok (VDict da)).
  cbn [rbind Py.getitem Py.hashable]. rewrite Ht. intros [= <-]. reflexivity.
- intros [= <-]. reflexivity.
Qed.

Lemma extraction_step (s : state) (log : list value) :
messages s = Some log ->
input_ok log = true ->
exists s' e,
  _enhanced_asset_extraction_agent py_str exn_str extractor now s = (Ok tt, s') /\
  messages s' = Some (log ++ [e])%list /\
  ((forall ui, response_ok (extractor ui) = true) ->
     assets_ok (s' !! "extracted_assets") = true /\ key_ok (s' !! "ticker") = true).
Proof.
intros Hlog Hin.
destruct (read_user_input_returns s log Hlog Hin) as [ui Hui].
destruct (extraction_stage_cases py_str exn_str extractor now s log ui Hlog Hui)
  as (s' & Hs & Hcases).
pose proof (appends_extraction py_str exn_str extractor now s) as Ha.
rewrite Hs in Ha. destruct Ha as (log' & e & Hl & Hl').
rewrite Hlog in Hl. injection Hl as <-.
exists s', e. split; [exact Hs|]. split; [exact Hl'|].
intros Hresp. specialize (Hresp ui).
destruct (extraction_try py_str extractor ui now s) as [[[]|x] s1] eqn:Et.
- subst s1.
  destruct (extraction_try_returned py_str extractor now ui s s' Et)
    as (data & assets & _ & _ & Hd & Hassets & _ & _ & Hea & _).
  destruct (extraction_try_ticker ui s s' Et) as (data' & t & Hd' & Ht & Hticker).
  rewrite Hd in Hd'. injection Hd' as <-. rewrite Hd in Hresp.
  destruct data as [ | | | | | |d]; try discriminate Hresp. cbn [response_ok] in Hresp.
  split.
  + rewrite Hea. rewrite get_str_key in Hassets. injection Hassets as <-.
    destruct (Py.lookup (VStr "extracted_assets") d); [exact Hresp | reflexivity].
  + rewrite Hticker. cbn [key_ok]. apply (primary_ticker_hashable d t Hresp Ht).
- destruct Hcases as (Ht & Hea & _). rewrite Ht, Hea. split; reflexivity.
Qed.

(** A stage whose inputs are well formed returns, with one more entry in
  the log. *)
Lemma ready_stage_returns (st : stage) (s : state) (log : list value) :
messages s = Some log ->
stage_ready st s = true ->
exists s' e,
  run_stage py_str exn_str fixed2 text_len extractor now st s = (Ok tt, s') /\
  messages s' = Some (log ++ [e])%list.
Proof.
intros Hlog Hready. destruct st; cbn [run_stage stage_ready] in *.
- rewrite Hlog in Hready.
  destruct (extraction_step s log Hlog Hready) as (s' & e & Hs & Hl & _). eauto.
- destruct (validation_step py_str now s log Hlog Hready) as (s' & e & Hs & Hl & _).
  eauto.
- destruct (hitl_step py_str now s log Hlog Hready) as (s' & e & Hs & Hl & _). eauto.
- apply andb_prop in Hready as [H1 H2].
  destruct (price_step py_str now s log Hlog H1 H2) as (s' & e & Hs & Hl & _). eauto.
- apply andb_prop in Hready as [H1 H2].
  destruct (technical_step py_str now s log Hlog H1 H2) as (s' & e & Hs & Hl & _).
  eauto.
- apply andb_prop in Hready as [H1 H2].
  destruct (news_step py_str now s log Hlog H1 H2) as (s' & e & Hs & Hl & _). eauto.
- apply andb_prop in Hready as [H1 H2].
  destruct (sentiment_step py_str now s log Hlog H1 H2) as (s' & e & Hs & Hl & _).
  eauto.
- apply andb_prop in Hready as [H1 H2].
  destruct (reporter_step py_str fixed2 text_len now s log Hlog H1 H2)
    as (s' & e & Hs & Hl). eauto.
Qed.

(** X17: the whole enhanced workflow on a request whose log is empty or ends
  with a dictionary, with an extractor that raises or answers with
  well-formed assets: all eight stages return, and the log has grown by
  eight entries. *)
Lemma workflow_appends_eight_entries (s : state) (log : list value) :
messages s = Some log ->
input_ok log = true ->
(forall ui, response_ok (extractor ui) = true) ->
exists s' entries,
  run py_str exn_str fixed2 text_len extractor now s = (Ok tt, s') /\
  messages s' = Some (log ++ entries)%list /\
  length entries = 8%nat.
Proof.
intros Hlog Hin Hresp. unfold run, workflow. cbn [run_stages run_stage]. unfold bind.
destruct (extraction_step s log Hlog Hin) as (s1 & e1 & -> & L1 & H1).
destruct (H1 Hresp) as [A1 K1]. clear H1.
destruct (validation_step py_str now s1 _ L1 A1) as (s2 & e2 & -> & L2 & A2 & K2 & W2).
rewrite <- A2 in A1. rewrite <- K2 in K1.
destruct (hitl_step py_str now s2 _ L2 A1) as (s3 & e3 & -> & L3 & A3 & K3 & W3).
rewrite <- A3 in A1. rewrite <- K3 in K1. rewrite <- W3 in W2.
destruct (price_step py_str now s3 _ L3 A1 K1)
  as (s4 & e4 & -> & L4 & A4 & K4 & W4 & P4).
rewrite <- A4 in A1. rewrite <- K4 in K1. rewrite <- W4 in W2.
destruct (technical_step py_str now s4 _ L4 P4 K1)
  as (s5 & e5 & -> & L5 & A5 & K5 & W5).
rewrite <- A5 in A1. rewrite <- K5 in K1. rewrite <- W5 in W2.
destruct (news_step py_str now s5 _ L5 A1 K1)
  as (s6 & e6 & -> & L6 & A6 & K6 & W6 & N6).
rewrite <- A6 in A1. rewrite <- K6 in K1. rewrite <- W6 in W2.
destruct (sentiment_step py_str now s6 _ L6 N6 K1) as (s7 & e7 & -> & L7 & A7 & W7).
rewrite <- A7 in A1. rewrite <- W7 in W2.
destruct (reporter_step py_str fixed2 text_len now s7 _ L7 A1 W2)
  as (s8 & e8 & -> & L8).
exists s8, [e1; e2; e3; e4; e5; e6; e7; e8]. split; [reflexivity|]. split.
- rewrite L8. rewrite <- !app_assoc. reflexivity.
- reflexivity.
Qed.

End Pipeline.

(** A state the extraction stage produces, on which the validation stage
    raises (the confidence the model returned is a string) and appends
    nothing; and a state without a message log, on which a stage raises. *)
Lemma validation_raises_on_unchecked_confidence :
  (example_extraction (Ok response_confidence_text) example_state).1 = Ok tt /\
  (_asset_validation_agent plain_str "2024-01-01T00:00:02"
     (example_extraction (Ok response_confidence_text) example_state).2).1
    = Raise TypeError /\
  messages
    (_asset_validation_agent plain_str "2024-01-01T00:00:02"
       (example_extraction (Ok response_confidence_text) example_state).2).2
    = messages (example_extraction (Ok response_confidence_text) example_state).2 /\
  (_price_retrieval_agent plain_str "2024-01-01T00:00:02" ∅).1 = Raise KeyError.
Proof. repeat split; vm_compute; reflexivity. Qed.

(** C2 (amended): every stage of the workflow that returns has appended
    exactly one entry to the message log, the entries it found being kept
    unchanged and in order in front of it; a stage that raises leaves the
    log as it found it.  A stage returns whenever the state has a message
    log and the fields the stage reads are well formed ([stage_ready]). *)
Theorem stages_append_one_entry
    (py_str : value -> string) (exn_str : exn -> string)
    (fixed2 : value -> string) (text_len : string -> Z)
    (extractor : value -> result value) (now : string) (st : stage) :
  appends_one_entry (run_stage py_str exn_str fixed2 text_len extractor now st) /\
  (forall (s : state) (log : list value),
      messages s = Some log ->
      stage_ready st s = true ->
      exists s' e,
        run_stage py_str exn_str fixed2 text_len extractor now st s = (Ok tt, s') /\
        messages s' = Some (log ++ [e])%list).
Proof.
  split.
  - apply appends_run_stage.
  - intros s log. apply ready_stage_returns.
Qed.

Lemma stages_append_one_entry_example :
  exists s' e,
    run_stage plain_str plain_exn plain_str plain_len
      (fun _ => Ok response_bitcoin) "2024-01-01T00:00:01"
      enhanced_asset_extraction example_state = (Ok tt, s') /\
    messages s' =
      Some ([dict [("role", VStr "user"); ("content", VStr "Analyze XYZ");
                   ("timestamp", VStr "2024-01-01T00:00:00Z")]] ++ [e])%list.
Proof.
  apply (proj2 (stages_append_one_entry plain_str plain_exn plain_str plain_len
                  (fun _ => Ok response_bitcoin) "2024-01-01T00:00:01"
                  enhanced_asset_extraction));
    vm_compute; reflexivity.
Defined.

(** The workflow run on the example request with the well-formed response:
    eight entries after the user's. *)
Example workflow_example :
  (run plain_str plain_exn plain_str plain_len (fun _ => Ok response_bitcoin)
     "2024-01-01T00:00:01" example_state).1 = Ok tt /\
  option_map (@length value)
    (messages (run plain_str plain_exn plain_str plain_len
                 (fun _ => Ok response_bitcoin)
                 "2024-01-01T00:00:01" example_state).2) = Some 9%nat.
Proof. split; vm_compute; reflexivity. Qed.

(** * Further properties of the code *)

(** ** Case conversion *)









(** ** The catalog tables *)

Lemma key_eqb_str_r (k : value) (u : string) :
  Py.key_eqb k (VStr u) = true -> k = VStr u.
Proof.
  destruct k as [ | | | |s| | ]; cbn; try discriminate.
  intros H. apply String.eqb_eq in H. subst. reflexivity.
Qed.

Lemma lookup_pair (u : string) (d : list (value * value)) (e : value) :
  Py.lookup (VStr u) d = Some e -> In (VStr u, e) d.
Proof.
  induction d as [|[k v] d IH]; cbn [Py.lookup]; [discriminate|].
  destruct (Py.key_eqb k (VStr u)) eqn:E.
  - intros [= ->]. apply key_eqb_str_r in E. subst. left. reflexivity.
  - intros H. right. auto.
Qed.

Lemma lookup_present (d : value) (k : string) :
  has_key d k = true -> exists e, Py.lookup (VStr k) (entries d) = Some e.
Proof.
  unfold has_key. induction (entries d) as [|[k' v] l IH]; cbn [existsb Py.lookup fst].
  - discriminate.
  - destruct (Py.key_eqb k' (VStr k)); [eexists; reflexivity | exact IH].
Qed.

(** A property of every (key, entry) pair of the catalog holds of whatever
    a lookup finds. *)
Lemma catalog_entry_ind (P : string -> value -> Prop) :
  Forall (fun kv => match fst kv with VStr k => P k (snd kv) | _ => True end)
         (entries CRYPTO_ASSETS) ->
  forall u e, catalog_entry u = Some e -> P u e.
Proof.
  intros H u e Hu. apply lookup_pair in Hu.
  rewrite List.Forall_forall in H. apply (H _ Hu).
Qed.

Ltac check_catalog :=
  unfold CRYPTO_ASSETS, dict, entries; cbn [List.map fst snd];
  repeat (apply List.Forall_cons; [vm_compute; reflexivity|]);
  apply List.Forall_nil.

Lemma catalog_entries_ok :
  Forall (fun kv => match fst kv with
                    | VStr k => entry_ok k (snd kv) = true /\ Str.upper k = k
                    | _ => True
                    end)
         (entries CRYPTO_ASSETS).
Proof.
  unfold CRYPTO_ASSETS, dict, entries; cbn [List.map fst snd].
  repeat (apply List.Forall_cons; [split; vm_compute; reflexivity|]).
  apply List.Forall_nil.
Qed.


Lemma string_in_In (s : string) (l : list string) :
  string_in s l = true <-> In s l.
Proof.
  unfold string_in. rewrite existsb_exists. split.
  - intros [x [Hx E]]. apply String.eqb_eq in E. subst. exact Hx.
  - intros H. exists s. split; [exact H | apply String.eqb_refl].
Qed.

Lemma lookup_has_key (d : value) (k : string) :
  Py.lookup (VStr k) (entries d) = None -> has_key d k = false.
Proof.
  unfold has_key. induction (entries d) as [|[k' v] l IH]; cbn [existsb Py.lookup fst].
  - reflexivity.
  - destruct (Py.key_eqb k' (VStr k)); [discriminate | exact IH].
Qed.

Lemma index_members_in_catalog :
  Forall (fun tag => Forall (fun m => in_catalog m = true) (index_members tag))
         ["AI"; "Gaming"; "Meme"; "Stablecoin"].
Proof.
  repeat (apply List.Forall_cons;
          [repeat (apply List.Forall_cons; [vm_compute; reflexivity|]);
           apply List.Forall_nil|]).
  apply List.Forall_nil.
Qed.

Lemma catalog_tags_agree :
  Forall (fun tag =>
    Forall (fun kv => match fst kv with
                      | VStr k =>
                          existsb (fun v => Py.key_eqb v (VStr tag))
                                  (list_field "sectors" (Some (snd kv)))
                          = string_in k (index_members tag)
                      | _ => True
                      end)
           (entries CRYPTO_ASSETS))
    ["AI"; "Gaming"; "Meme"; "Stablecoin"].
Proof.
  repeat (apply List.Forall_cons; [check_catalog|]).
  apply List.Forall_nil.
Qed.

Lemma in_sector_agrees (tag t : string) :
  In tag ["AI"; "Gaming"; "Meme"; "Stablecoin"] ->
  in_sector tag t = string_in (Str.upper t) (index_members tag).
Proof.
  intros Htag.
  pose proof index_members_in_catalog as Hm.
  pose proof catalog_tags_agree as Ha.
  rewrite List.Forall_forall in Hm, Ha.
  specialize (Hm _ Htag). specialize (Ha _ Htag).
  unfold in_sector, catalog_sectors.
  destruct (catalog_entry (Str.upper t)) as [e|] eqn:E.
  - apply (catalog_entry_ind
             (fun k e => existsb (fun v => Py.key_eqb v (VStr tag))
                                 (list_field "sectors" (Some e))
                         = string_in k (index_members tag)) Ha _ _ E).
  - cbn. symmetry. destruct (string_in _ _) eqn:Es; [|reflexivity].
    apply string_in_In in Es. rewrite List.Forall_forall in Hm.
    specialize (Hm _ Es). apply lookup_has_key in E.
    unfold in_catalog in Hm. congruence.
Qed.

(** X2: for the tags AI, Gaming, Meme and Stablecoin the sector lists of
    the catalog entries and the SectorIndex agree: the sector test the code
    performs on a ticker (and so [is_stablecoin]) is true exactly for the
    tickers the index lists under the tag, in any letter case.  For DeFi,
    Layer1 and Layer2 the two tables disagree: UNI, BTC and MATIC are
    listed in the index under a tag their catalog entry does not carry, and
    NEAR and IMX carry a tag (Layer1, Layer2) under which the index does
    not list them. *)
Theorem sector_tables_agree_on_four_tags (t : string) :
  Forall (fun tag => sector_test tag t
                     = Ok (string_in (Str.upper t) (index_members tag)))
         ["AI"; "Gaming"; "Meme"; "Stablecoin"] /\
  is_stablecoin (VStr t) = Ok (string_in (Str.upper t) ["USDT"; "USDC"; "DAI"]) /\
  Forall (fun p => string_in (snd p) (index_members (fst p)) = true /\
                   sector_test (fst p) (snd p) = Ok false)
         [("DeFi", "UNI"); ("Layer1", "BTC"); ("Layer2", "MATIC")] /\
  Forall (fun p => string_in (snd p) (index_members (fst p)) = false /\
                   sector_test (fst p) (snd p) = Ok true)
         [("Layer1", "NEAR"); ("Layer2", "IMX")].
Proof.
  split; [|split; [|split]].
  - apply List.Forall_forall. intros tag Htag. unfold sector_test.
    rewrite sector_check, (in_sector_agrees _ _ Htag). reflexivity.
  - rewrite is_stablecoin_str, (in_sector_agrees "Stablecoin") by (cbn; tauto).
    reflexivity.
  - repeat (apply List.Forall_cons; [split; vm_compute; reflexivity|]).
    apply List.Forall_nil.
  - repeat (apply List.Forall_cons; [split; vm_compute; reflexivity|]).
    apply List.Forall_nil.
Qed.

Lemma in_catalog_entry (k : string) :
  in_catalog k = true -> exists e, catalog_entry k = Some e.
Proof. apply lookup_present. Qed.

Lemma catalog_review_at_base :
  Forall (fun kv => match fst kv with
                    | VStr k =>
                        exists c, field "confidence" (Some (snd kv)) = Some c /\
                                  should_trigger_hitl c (snd kv)
                                  = Ok (string_in k review_at_base)
                    | _ => True
                    end)
         (entries CRYPTO_ASSETS).
Proof.
  unfold CRYPTO_ASSETS, dict, entries; cbn [List.map fst snd].
  repeat (apply List.Forall_cons;
          [eexists; split; [vm_compute; reflexivity | vm_compute; reflexivity]|]).
  apply List.Forall_nil.
Qed.

(** X3: at the base confidence the catalog records for it, an asset of
    the catalog needs human review exactly when it is one of OCEAN, AGIX,
    PEPE, DOGE and SHIB (a base confidence under the 0.85 threshold, or the
    Meme sector): for every ticker the lookup finds, in any letter case,
    [should_trigger_hitl] on the entry and its own confidence returns that
    answer. *)
Theorem review_at_base_confidence (t : string) :
  in_catalog (Str.upper t) = true ->
  exists e c,
    get_asset_by_ticker (VStr t) = Ok e /\
    Py.get e (VStr "confidence") (VInt 0) = Ok c /\
    should_trigger_hitl c e = Ok (string_in (Str.upper t) review_at_base).
Proof.
  intros H. destruct (in_catalog_entry _ H) as [e E].
  destruct (catalog_entry_ind
              (fun k e => exists c, field "confidence" (Some e) = Some c /\
                                    should_trigger_hitl c e
                                    = Ok (string_in k review_at_base))
              catalog_review_at_base _ _ E) as [c [Hc Ht]].
  exists e, c. split; [|split].
  - rewrite get_asset_by_ticker_str, E. reflexivity.
  - pose proof (catalog_entry_ind (fun k e => entry_ok k e = true /\ Str.upper k = k)
                  catalog_entries_ok _ _ E) as [Hok _].
    unfold entry_ok, field in Hok, Hc. destruct e as [ | | | | | |d]; try discriminate.
    cbn [entries] in *. unfold Py.get. cbn [Py.hashable].
    rewrite Hc. reflexivity.
  - exact Ht.
Qed.

Lemma review_at_base_confidence_example :
  in_catalog (Str.upper "doge") = true /\
  exists e c,
    get_asset_by_ticker (VStr "doge") = Ok e /\
    Py.get e (VStr "confidence") (VInt 0) = Ok c /\
    should_trigger_hitl c e = Ok (string_in (Str.upper "doge") review_at_base).
Proof.
  split; [reflexivity|]. apply (review_at_base_confidence "doge"). reflexivity.
Defined.

Lemma is_valid_ticker_in (t : string) :
  is_valid_ticker (VStr t) = Ok (string_in t (List.map snd CRYPTO_TICKERS)).
Proof.
  unfold is_valid_ticker, get_available_tickers, strs, Py.contains, string_in.
  f_equal. induction (List.map snd CRYPTO_TICKERS) as [|x l IH]; cbn [List.map existsb].
  - reflexivity.
  - rewrite IH. f_equal. cbn [Py.key_eqb]. apply String.eqb_sym.
Qed.

Lemma legacy_tickers_in_catalog :
  Forall (fun nt => in_catalog (snd nt) = true /\
                    Str.upper (snd nt) = snd nt /\
                    field "name" (catalog_entry (snd nt)) = Some (VStr (fst nt)))
         CRYPTO_TICKERS.
Proof.
  repeat (apply List.Forall_cons; [repeat split; vm_compute; reflexivity|]).
  apply List.Forall_nil.
Qed.

(** X4: every ticker [is_valid_ticker] accepts is a value of the legacy
    table [CRYPTO_TICKERS] in upper case, and the catalog lookup finds for
    it an entry whose name is the name the legacy table maps to it; unlike
    the lookup, the test is case-sensitive (a ticker whose upper-case form
    differs from it is rejected). *)
Theorem valid_tickers_are_catalog_keys (t : string) :
  is_valid_ticker (VStr t) = Ok true ->
  exists name e,
    In (name, t) CRYPTO_TICKERS /\
    Str.upper t = t /\
    get_asset_by_ticker (VStr t) = Ok e /\
    Py.get e (VStr "name") (VStr "") = Ok (VStr name).
Proof.
  rewrite is_valid_ticker_in. intros H.
  assert (H' : string_in t (List.map snd CRYPTO_TICKERS) = true) by congruence.
  clear H. apply string_in_In in H'. rename H' into H.
  apply in_map_iff in H. destruct H as [[name t'] [Ht Hin]]. cbn [snd] in Ht. subst t'.
  pose proof legacy_tickers_in_catalog as L. rewrite List.Forall_forall in L.
  destruct (L _ Hin) as [Hc [Hu Hn]]. cbn [fst snd] in *.
  destruct (in_catalog_entry _ Hc) as [e E].
  exists name, e. split; [exact Hin|]. split; [exact Hu|]. split.
  - rewrite get_asset_by_ticker_str, Hu, E. reflexivity.
  - rewrite E in Hn. unfold field in Hn.
    pose proof (catalog_entry_ind (fun k e => entry_ok k e = true /\ Str.upper k = k)
                  catalog_entries_ok _ _ E) as [Hok _].
    destruct e as [ | | | | | |d]; try discriminate.
    cbn [entries] in Hn. unfold Py.get. cbn [Py.hashable]. rewrite Hn. reflexivity.
Qed.

Lemma valid_tickers_are_catalog_keys_example :
  is_valid_ticker (VStr "MATIC") = Ok true /\
  exists name e,
    In (name, "MATIC") CRYPTO_TICKERS /\
    Str.upper "MATIC" = "MATIC" /\
    get_asset_by_ticker (VStr "MATIC") = Ok e /\
    Py.get e (VStr "name") (VStr "") = Ok (VStr name).
Proof.
  split; [reflexivity|]. apply (valid_tickers_are_catalog_keys "MATIC"). reflexivity.
Defined.

(** ** The text resolver and the AI ticker stage *)

Lemma scan_tickers_str (l : list string) (text : string) :
  scan_tickers l (VStr text) = Ok None \/
  exists t, In t l /\ scan_tickers l (VStr text) = Ok (Some t).
Proof.
  induction l as [|x l IH]; cbn [scan_tickers py_lower rbind].
  - left. reflexivity.
  - destruct (Str.contains (Str.lower x) (Str.lower text)).
    + right. exists x. split; [left; reflexivity | reflexivity].
    + destruct IH as [IH | [t [Ht IH]]]; [left; exact IH|].
      right. exists t. split; [right; exact Ht | exact IH].
Qed.



Lemma resolver_str (text : string) :
  exists t, In t common_tickers /\ _extract_ticker_from_text (VStr text) = Ok (VStr t).
Proof.
  unfold _extract_ticker_from_text.
  destruct (scan_tickers_str common_tickers text) as [H | [t [Ht H]]]; rewrite H.
  - exists "BTC". split; [left; reflexivity | reflexivity].
  - exists t. split; [exact Ht | reflexivity].
Qed.


Lemma ai_extract_ticker_cases (llm : value -> result string) (ui : value) :
  exists t, string_in t (List.map snd CRYPTO_TICKERS) = true /\
            match ai_extract_ticker llm ui with
            | Ok v => v
            | Raise _ => VStr "BTC"
            end = VStr t.
Proof.
  unfold ai_extract_ticker. destruct (llm ui) as [a|e]; cbn [rbind].
  - rewrite is_valid_ticker_in. cbn [rbind].
    destruct (string_in _ _) eqn:E; cbn [negb].
    + eexists. split; [exact E | reflexivity].
    + exists "BTC". split; reflexivity.
  - exists "BTC". split; reflexivity.
Qed.

Lemma legacy_in_catalog (t : string) :
  string_in t (List.map snd CRYPTO_TICKERS) = true -> in_catalog t = true.
Proof.
  intros H. apply string_in_In in H. apply in_map_iff in H.
  destruct H as [[name t'] [Ht Hin]]. cbn [snd] in Ht. subst t'.
  pose proof legacy_tickers_in_catalog as L. rewrite List.Forall_forall in L.
  apply (L _ Hin).
Qed.

(** X6: whatever the model answers, and also when the chain raises, the
    AI ticker stage stores a ticker that [is_valid_ticker] accepts and
    that is a key of the catalog: when the stage returns, the [ticker]
    field is such a ticker and the log has one more entry; when it raises
    (the log is missing or malformed), the state is as it was or differs
    only by such a ticker.  An answer that is valid once stripped of
    blanks and quotes is the ticker stored. *)
Theorem ai_stage_stores_a_valid_ticker (py_str : value -> string)
    (llm : value -> result string) (s : state) :
  match _ai_ticker_extraction_agent py_str llm s with
  | (Ok _, s') =>
      exists t log e,
        s' !! "ticker" = Some (VStr t) /\
        is_valid_ticker (VStr t) = Ok true /\ in_catalog t = true /\
        messages s = Some log /\ messages s' = Some (log ++ [e])%list
  | (Raise _, s') =>
      s' = s \/
      exists t, is_valid_ticker (VStr t) = Ok true /\ in_catalog t = true /\
                s' = <["ticker" := VStr t]> s
  end /\
  (forall ui answer,
      llm ui = Ok answer ->
      let t := Str.strip (Str.remove_char single_quote
                            (Str.remove_char double_quote (Str.strip answer))) in
      is_valid_ticker (VStr t) = Ok true ->
      ai_extract_ticker llm ui = Ok (VStr t)).
Proof.
  split.
  - unfold _ai_ticker_extraction_agent, bind.
    pose proof (read_user_input_state s) as Hs.
    destruct (read_user_input s) as [[ui|x] s0]; cbn [snd] in Hs; subst s0;
      [|left; reflexivity].
    destruct (ai_extract_ticker_cases llm ui) as [t [Ht E]]. rewrite E.
    assert (Hv : is_valid_ticker (VStr t) = Ok true)
      by (rewrite is_valid_ticker_in, Ht; reflexivity).
    pose proof (legacy_in_catalog _ Ht) as Hc.
    unfold state_set, append_message. cbn beta iota zeta.
    rewrite lookup_insert_ne by discriminate.
    destruct (s !! "messages") as [[ | | | | |log| ]|] eqn:Em;
      try (right; exists t; repeat split; assumption).
    exists t, log. eexists. split; [|split; [exact Hv|split; [exact Hc|split]]].
    + rewrite lookup_insert_ne by discriminate. apply lookup_insert_eq.
    + unfold messages. rewrite Em. reflexivity.
    + unfold messages. rewrite lookup_insert_eq. reflexivity.
  - intros ui answer Ha t Hv. unfold ai_extract_ticker. rewrite Ha. cbn [rbind].
    fold t. rewrite Hv. reflexivity.
Qed.

(** ** The basic and the AI-enhanced workflow *)

Lemma read_user_text (s : state) (log : list value) :
  s !! "messages" = Some (VList log) -> text_input_ok log = true ->
  exists text, read_user_input s = (Ok (VStr text), s).
Proof.
  intros Hlog Hin.
  unfold read_user_input, bind, state_get, lift, ret. rewrite Hlog.
  unfold text_input_ok in Hin.
  destruct (rev log) as [|x r] eqn:Er.
  - apply (f_equal (@rev value)) in Er. rewrite rev_involutive in Er. subst log.
    eexists. reflexivity.
  - apply (f_equal (@rev value)) in Er. rewrite rev_involutive in Er.
    cbn [rev] in Er. subst log.
    destruct x as [ | | | | | |d]; try discriminate Hin.
    replace (Py.truthy (VList (rev r ++ [VDict d]))) with true
      by (destruct (rev r); reflexivity).
    cbv beta iota. rewrite Hlog, getitem_last. cbn [rbind]. rewrite get_str_key.
    destruct (Py.lookup (VStr "content") d) as [[ | | | |text| | ]|];
      try discriminate Hin; eexists; reflexivity.
Qed.

Lemma set_then_append (key : string) (v e : value) (s : state) (log : list value) :
  key <> "messages" -> s !! "messages" = Some (VList log) ->
  (let! _ := state_set key v in append_message (Ok e)) s
  = (Ok tt, <["messages" := VList (log ++ [e])]> (<[key := v]> s)).
Proof.
  intros Hk Hlog. unfold bind, state_set, append_message.
  rewrite lookup_insert_ne by exact Hk. rewrite Hlog. reflexivity.
Qed.

Section BasicSteps.

Variable py_str : value -> string.

Lemma ticker_extraction_step (s : state) (log : list value) :
  s !! "messages" = Some (VList log) -> text_input_ok log = true ->
  exists t,
    In t common_tickers /\
    _ticker_extraction_agent py_str s
    = (Ok tt,
       <["messages" :=
           VList (log ++ [message "ticker_extraction" ("Extracted ticker: " ++ t)
                            fixed_timestamp None])]>
         (<["ticker" := VStr t]> s)).
Proof.
  intros Hlog Hin. destruct (read_user_text s log Hlog Hin) as [text Hr].
  destruct (resolver_str text) as [t [Ht He]]. exists t. split; [exact Ht|].
  unfold _ticker_extraction_agent. unfold bind at 1. rewrite Hr.
  unfold bind at 1. unfold lift. rewrite He.
  apply (set_then_append "ticker"); [discriminate | exact Hlog].
Qed.

Lemma price_retrieval_step (s : state) (log : list value) (ticker : value) :
  s !! "ticker" = Some ticker -> s !! "messages" = Some (VList log) ->
  price_retrieval_stage py_str s
  = (Ok tt,
     <["messages" :=
         VList (log ++ [message "price_retrieval"
                          ("Retrieved " ++ fmt py_str (VInt 3)
                           ++ " price data points for " ++ fmt py_str ticker)
                          fixed_timestamp None])]>
       (<["price_history" := _fetch_price_data ticker]> s)).
Proof.
  intros Ht Hlog. unfold price_retrieval_stage. unfold bind at 1.
  unfold state_getitem. rewrite Ht.
  apply (set_then_append "price_history"); [discriminate | exact Hlog].
Qed.

Lemma technical_analysis_step (s : state) (log : list value) (history : value) :
  s !! "price_history" = Some history -> s !! "messages" = Some (VList log) ->
  technical_analysis_stage py_str s
  = (Ok tt,
     <["messages" :=
         VList (log ++ [message "technical_analysis"
                          ("Calculated technical indicators: "
                           ++ fmt py_str (strs ["rsi"; "macd"; "bollinger_upper";
                                                "bollinger_lower"; "sma_20"; "ema_12"]))
                          fixed_timestamp None])]>
       (<["technical_indicators" := _calculate_technical_indicators history]> s)).
Proof.
  intros Ht Hlog. unfold technical_analysis_stage. unfold bind at 1.
  unfold state_getitem. rewrite Ht.
  apply (set_then_append "technical_indicators"); [discriminate | exact Hlog].
Qed.

Lemma news_retrieval_step (fetch : value -> value) (s : state) (log : list value)
    (ticker : value) (articles : list value) :
  fetch ticker = VList articles ->
  s !! "ticker" = Some ticker -> s !! "messages" = Some (VList log) ->
  news_retrieval_stage py_str fetch s
  = (Ok tt,
     <["messages" :=
         VList (log ++ [message "news_retrieval"
                          ("Retrieved " ++ fmt py_str (VInt (Z.of_nat (length articles)))
                           ++ " news articles for " ++ fmt py_str ticker)
                          fixed_timestamp None])]>
       (<["news_articles" := VList articles]> s)).
Proof.
  intros Hf Ht Hlog. unfold news_retrieval_stage. unfold bind at 1.
  unfold state_getitem. rewrite Ht, Hf.
  apply (set_then_append "news_articles"); [discriminate | exact Hlog].
Qed.

Lemma basic_sentiment_step (s : state) (log : list value) (news : value) :
  s !! "news_articles" = Some news -> s !! "messages" = Some (VList log) ->
  Basic._sentiment_analysis_agent py_str s
  = (Ok tt,
     <["messages" :=
         VList (log ++ [message "sentiment_analysis"
                          ("Analyzed sentiment: " ++ fmt py_str (_analyze_sentiment news))
                          fixed_timestamp None])]>
       (<["sentiment_scores" := _analyze_sentiment news]> s)).
Proof.
  intros Ht Hlog. unfold Basic._sentiment_analysis_agent. unfold bind at 1.
  unfold state_getitem. rewrite Ht.
  apply (set_then_append "sentiment_scores"); [discriminate | exact Hlog].
Qed.

End BasicSteps.

Lemma report_template_total (py_str : value -> string) (ticker history : value)
    (indicators scores risk : list (value * value)) (news : list value) :
  exists report,
    report_template py_str ticker history (VDict indicators) (VList news)
      (VDict scores) (VDict risk) = Ok report.
Proof.
  unfold report_template. rewrite !get_str_key. cbn [rbind Py.len].
  eexists. reflexivity.
Qed.

(** Lookups in a state built by successive writes. *)
Ltac read_state :=
  repeat (rewrite lookup_insert_ne by discriminate);
  first [ apply lookup_insert_eq | reflexivity | eassumption ].

Section BasicRun.

Variable py_str : value -> string.

Lemma basic_reporter_step (s : state) (log : list value)
    (ticker history : value) (indicators scores : list (value * value))
    (news : list value) :
  s !! "ticker" = Some ticker ->
  s !! "price_history" = Some history ->
  s !! "technical_indicators" = Some (VDict indicators) ->
  s !! "news_articles" = Some (VList news) ->
  s !! "sentiment_scores" = Some (VDict scores) ->
  s !! "messages" = Some (VList log) ->
  exists report,
    Basic._financial_reporter_agent py_str s
    = (Ok tt,
       <["messages" :=
           VList (log ++ [message "financial_reporter" report fixed_timestamp None])]>
         (<["risk_profile" :=
              _generate_risk_profile history (VDict indicators) (VDict scores)]> s)).
Proof.
  intros H1 H2 H3 H4 H5 Hlog.
  destruct (report_template_total py_str ticker history indicators scores
              (entries (_generate_risk_profile history (VDict indicators) (VDict scores)))
              news) as [report Hr].
  exists report.
  unfold Basic._financial_reporter_agent, bind, state_getitem, state_set, lift.
  rewrite H1, H2, H3, H4, H5.
  change (VDict (entries (_generate_risk_profile history (VDict indicators)
                            (VDict scores))))
    with (_generate_risk_profile history (VDict indicators) (VDict scores)) in Hr.
  rewrite Hr. unfold append_message.
  rewrite lookup_insert_ne by discriminate. rewrite Hlog. reflexivity.
Qed.

(** X7: on a state whose log is empty or ends with a dictionary with a
    string (or no) content, the basic workflow runs its six stages to the
    end: it returns, the ticker is one of the eight the resolver knows, the
    five analysis fields hold what the placeholders compute for it, the log
    has grown by six entries signed by the six stages in the order of the
    graph, and no other key of the state has changed. *)
Theorem basic_run_completes (s : state) (log : list value) :
  messages s = Some log -> text_input_ok log = true ->
  exists t s' new,
    Basic.run py_str s = (Ok tt, s') /\
    In t common_tickers /\
    s' !! "ticker" = Some (VStr t) /\
    s' !! "price_history" = Some (_fetch_price_data (VStr t)) /\
    s' !! "technical_indicators"
      = Some (_calculate_technical_indicators (_fetch_price_data (VStr t))) /\
    s' !! "news_articles" = Some (Basic._fetch_news_articles py_str (VStr t)) /\
    s' !! "sentiment_scores"
      = Some (_analyze_sentiment (Basic._fetch_news_articles py_str (VStr t))) /\
    s' !! "risk_profile"
      = Some (_generate_risk_profile (_fetch_price_data (VStr t))
                (_calculate_technical_indicators (_fetch_price_data (VStr t)))
                (_analyze_sentiment (Basic._fetch_news_articles py_str (VStr t)))) /\
    messages s' = Some (log ++ new)%list /\
    List.map agent_of new
      = List.map (fun a => Some (VStr a))
          ["ticker_extraction"; "price_retrieval"; "technical_analysis";
           "news_retrieval"; "sentiment_analysis"; "financial_reporter"] /\
    (forall k, ~ In k analysis_keys -> s' !! k = s !! k).
Proof.
  intros Hlog Hin. apply messages_lookup in Hlog.
  destruct (ticker_extraction_step py_str s log Hlog Hin) as [t [Ht H1]].
  exists t.
  unfold Basic.run, Basic.workflow. cbn [Basic.run_stages Basic.run_stage].
  unfold bind at 1. rewrite H1.
  unfold bind at 1. unfold Basic._price_retrieval_agent.
  rewrite (price_retrieval_step py_str _ _ (VStr t)) by read_state.
  unfold bind at 1. unfold Basic._technical_analysis_agent.
  rewrite (technical_analysis_step py_str _ _ (_fetch_price_data (VStr t)))
    by read_state.
  unfold bind at 1. unfold Basic._news_retrieval_agent.
  rewrite (news_retrieval_step py_str (Basic._fetch_news_articles py_str) _ _ (VStr t)
             (match Basic._fetch_news_articles py_str (VStr t) with
              | VList l => l | _ => [] end))
    by first [reflexivity | read_state].
  unfold bind at 1.
  rewrite (basic_sentiment_step py_str _ _ (Basic._fetch_news_articles py_str (VStr t)))
    by read_state.
  unfold bind at 1.
  match goal with
  | |- context [Basic._financial_reporter_agent py_str ?st] =>
      edestruct (basic_reporter_step st) as [report Hr]
  end.
  1-6: read_state.
  rewrite Hr. cbn [Basic.run_stages ret].
  eexists. eexists. split; [reflexivity|]. split; [exact Ht|].
  split; [read_state|]. split; [read_state|]. split; [read_state|].
  split; [read_state|]. split; [read_state|]. split; [read_state|].
  split; [unfold messages; rewrite lookup_insert_eq, <- !app_assoc; reflexivity|].
  split; [reflexivity|].
  intros k Hk. unfold analysis_keys in Hk. cbn [In] in Hk.
  rewrite !lookup_insert_ne by (intros E; subst k; tauto). reflexivity.
Qed.

End BasicRun.

(** X8: a stage of the basic workflow that does not find a key it reads
    by subscript raises [KeyError] and leaves the state untouched; a stage
    that finds its keys but no message log raises after its assignment:
    the state then differs from the one it was given by the field the
    stage writes, and by nothing else. *)
Theorem basic_stage_failures (py_str : value -> string) (st : Basic.stage)
    (s : state) :
  (forall k, In k (Basic.requires st) -> s !! k = None ->
             Basic.run_stage py_str st s = (Raise KeyError, s)) /\
  (s !! "messages" = None ->
   (forall k, In k (Basic.requires st) -> is_Some (s !! k)) ->
   exists e v, Basic.run_stage py_str st s = (Raise e, <[Basic.writes st := v]> s)).
Proof.
  split.
  - intros k Hin Hk.
    destruct st; cbn [Basic.requires In] in Hin;
      repeat (destruct Hin as [<- | Hin]); try contradiction;
      cbn [Basic.run_stage];
      unfold Basic._price_retrieval_agent, price_retrieval_stage,
        Basic._technical_analysis_agent, technical_analysis_stage,
        Basic._news_retrieval_agent, news_retrieval_stage,
        Basic._sentiment_analysis_agent, Basic._financial_reporter_agent;
      unfold bind, state_getitem;
      repeat (progress (cbv beta iota; rewrite ?Hk;
                        try match goal with
                            | |- context [match s !! ?key with _ => _ end] =>
                                destruct (s !! key)
                            end));
      reflexivity.
  - intros Hlog Hreq.
    assert (Hget : forall k, In k (Basic.requires st) -> exists v, s !! k = Some v).
    { intros k Hk. destruct (Hreq k Hk) as [v Hv]. exists v. exact Hv. }
    clear Hreq.
    destruct st; cbn [Basic.requires Basic.run_stage Basic.writes] in *.
    + unfold _ticker_extraction_agent, read_user_input, bind, state_get, lift, ret.
      rewrite Hlog. cbn [Py.truthy]. cbn [_extract_ticker_from_text].
      destruct (resolver_str "") as [t [_ Ht]]. rewrite Ht.
      unfold state_set, append_message. rewrite lookup_insert_ne by discriminate.
      rewrite Hlog. eexists. eexists. reflexivity.
    + destruct (Hget "ticker") as [v Hv]; [cbn; tauto|].
      unfold Basic._price_retrieval_agent, price_retrieval_stage, bind,
        state_getitem, state_set, append_message.
      rewrite Hv, lookup_insert_ne by discriminate. rewrite Hlog.
      eexists. eexists. reflexivity.
    + destruct (Hget "price_history") as [v Hv]; [cbn; tauto|].
      unfold Basic._technical_analysis_agent, technical_analysis_stage, bind,
        state_getitem, state_set, append_message.
      rewrite Hv, lookup_insert_ne by discriminate. rewrite Hlog.
      eexists. eexists. reflexivity.
    + destruct (Hget "ticker") as [v Hv]; [cbn; tauto|].
      unfold Basic._news_retrieval_agent, news_retrieval_stage, bind,
        state_getitem, state_set, append_message.
      rewrite Hv, lookup_insert_ne by discriminate. rewrite Hlog.
      eexists. eexists. reflexivity.
    + destruct (Hget "news_articles") as [v Hv]; [cbn; tauto|].
      unfold Basic._sentiment_analysis_agent, bind,
        state_getitem, state_set, append_message.
      rewrite Hv, lookup_insert_ne by discriminate. rewrite Hlog.
      eexists. eexists. reflexivity.
    + destruct (Hget "ticker") as [v1 H1]; [cbn; tauto|].
      destruct (Hget "price_history") as [v2 H2]; [cbn; tauto|].
      destruct (Hget "technical_indicators") as [v3 H3]; [cbn; tauto|].
      destruct (Hget "news_articles") as [v4 H4]; [cbn; tauto|].
      destruct (Hget "sentiment_scores") as [v5 H5]; [cbn; tauto|].
      unfold Basic._financial_reporter_agent, bind, state_getitem, state_set, lift.
      rewrite H1, H2, H3, H4, H5.
      destruct (report_template _ _ _ _ _ _ _) as [report|x].
      * unfold append_message. rewrite lookup_insert_ne by discriminate.
        rewrite Hlog. eexists. eexists. reflexivity.
      * eexists. eexists. reflexivity.
Qed.

Lemma basic_stage_failures_example :
  Basic.run_stage plain_str Basic.price_retrieval example_state
    = (Raise KeyError, example_state) /\
  exists e v,
    Basic.run_stage plain_str Basic.ticker_extraction (∅ : state)
    = (Raise e, <["ticker" := v]> (∅ : state)).
Proof.
  split.
  - apply (proj1 (basic_stage_failures plain_str Basic.price_retrieval example_state)
             "ticker"); [left; reflexivity | reflexivity].
  - apply (proj2 (basic_stage_failures plain_str Basic.ticker_extraction ∅));
      [reflexivity | intros k []].
Defined.

Section AISteps.

Variable py_str : value -> string.
Variable llm : value -> result string.
Variable analyst : value -> string -> result value.
Variable writer : value -> value -> value -> value -> Z -> result string.

Lemma ai_ticker_step (s : state) (log : list value) :
  messages s = Some log -> input_ok log = true ->
  exists t e,
    is_valid_ticker (VStr t) = Ok true /\ in_catalog t = true /\
    agent_of e = Some (VStr "ai_ticker_extraction") /\
    _ai_ticker_extraction_agent py_str llm s
    = (Ok tt, <["messages" := VList (log ++ [e])]> (<["ticker" := VStr t]> s)).
Proof.
  intros Hlog Hin. destruct (read_user_input_returns s log Hlog Hin) as [ui Hr].
  apply messages_lookup in Hlog.
  destruct (ai_extract_ticker_cases llm ui) as [t [Ht E]].
  exists t. eexists.
  split; [rewrite is_valid_ticker_in, Ht; reflexivity|].
  split; [apply legacy_in_catalog; exact Ht|].
  split; [|unfold _ai_ticker_extraction_agent; unfold bind at 1; rewrite Hr, E;
           apply (set_then_append "ticker"); [discriminate | exact Hlog]].
  reflexivity.
Qed.

Lemma ai_news_content (ticker : value) :
  exists text,
    AI.news_content py_str (AI._fetch_news_articles py_str ticker) = Ok text.
Proof. eexists. reflexivity. Qed.

Lemma ai_sentiment_step (s : state) (log : list value) (news ticker : value)
    (text : string) :
  s !! "news_articles" = Some news ->
  s !! "ticker" = Some ticker ->
  s !! "messages" = Some (VList log) ->
  AI.news_content py_str news = Ok text ->
  (forall v, analyst ticker text = Ok v -> exists d, v = VDict d) ->
  exists e scores,
    match analyst ticker text with
    | Ok v => v
    | Raise _ => AI.fallback_scores
    end = VDict scores /\
    agent_of e = Some (VStr "ai_sentiment_analysis") /\
    AI._ai_sentiment_analysis_agent py_str analyst s
    = (Ok tt,
       <["messages" := VList (log ++ [e])]>
         (<["sentiment_scores" := VDict scores]> s)).
Proof.
  intros Hn Ht Hlog Hc Ha.
  assert (Hs : exists scores,
             match analyst ticker text with
             | Ok v => v
             | Raise _ => AI.fallback_scores
             end = VDict scores).
  { destruct (analyst ticker text) as [v|x]; [apply Ha; reflexivity|].
    eexists. reflexivity. }
  destruct Hs as [scores Hs].
  eexists. exists scores. split; [exact Hs|].
  split; [|unfold AI._ai_sentiment_analysis_agent, bind, state_getitem, lift;
           rewrite Hn, Ht, Hc, Hs; rewrite !get_str_key; cbn [rbind];
           unfold state_set, append_message;
           rewrite lookup_insert_ne by discriminate; rewrite Hlog; reflexivity].
  reflexivity.
Qed.

Lemma ai_reporter_step (s : state) (log : list value)
    (ticker history : value) (indicators scores : list (value * value))
    (news : list value) :
  s !! "ticker" = Some ticker ->
  s !! "price_history" = Some history ->
  s !! "technical_indicators" = Some (VDict indicators) ->
  s !! "news_articles" = Some (VList news) ->
  s !! "sentiment_scores" = Some (VDict scores) ->
  s !! "messages" = Some (VList log) ->
  exists report,
    (forall r, writer ticker (VDict indicators) (VDict scores)
                 (_generate_risk_profile history (VDict indicators) (VDict scores))
                 (Z.of_nat (length news)) = Ok r -> report = r) /\
    (forall x, writer ticker (VDict indicators) (VDict scores)
                 (_generate_risk_profile history (VDict indicators) (VDict scores))
                 (Z.of_nat (length news)) = Raise x ->
               report_template py_str ticker history (VDict indicators) (VList news)
                 (VDict scores)
                 (_generate_risk_profile history (VDict indicators) (VDict scores))
               = Ok report) /\
    AI._ai_financial_reporter_agent py_str writer s
    = (Ok tt,
       <["messages" :=
           VList (log ++ [message "ai_financial_reporter" report
                            fixed_timestamp None])]>
         (<["risk_profile" :=
              _generate_risk_profile history (VDict indicators) (VDict scores)]> s)).
Proof.
  intros H1 H2 H3 H4 H5 Hlog.
  destruct (report_template_total py_str ticker history indicators scores
              (entries (_generate_risk_profile history (VDict indicators) (VDict scores)))
              news) as [template Hr].
  change (VDict (entries (_generate_risk_profile history (VDict indicators)
                            (VDict scores))))
    with (_generate_risk_profile history (VDict indicators) (VDict scores)) in Hr.
  unfold AI._ai_financial_reporter_agent, bind, state_getitem, state_set, lift.
  rewrite H1, H2, H3, H4, H5. cbn [Py.len rbind].
  destruct (writer _ _ _ _ _) as [r|x].
  - exists r. split; [intros r' [= <-]; reflexivity|]. split; [discriminate|].
    unfold ret, append_message. rewrite lookup_insert_ne by discriminate.
    rewrite Hlog. reflexivity.
  - exists template. split; [discriminate|]. split; [intros _ _; exact Hr|].
    rewrite Hr. unfold append_message. rewrite lookup_insert_ne by discriminate.
    rewrite Hlog. reflexivity.
Qed.

(** X9: the AI-enhanced workflow survives its model: on a state whose log
    is empty or ends with a dictionary, whatever the ticker chain and the
    report chain return or raise, and when the sentiment chain raises or
    answers with a JSON object, the six stages run to the end.  The ticker
    stored is one [is_valid_ticker] accepts; the sentiment scores are the
    model's object, or the fixed fallback scores when the chain raised; the
    report is the model's text, or the template report when the chain
    raised; the log has grown by six entries signed by the six stages in
    the order of the graph, and no other key of the state has changed. *)
Theorem ai_run_completes (s : state) (log : list value) :
  messages s = Some log -> input_ok log = true ->
  (forall ticker text v, analyst ticker text = Ok v -> exists d, v = VDict d) ->
  exists t s' new text scores report,
    AI.run py_str llm analyst writer s = (Ok tt, s') /\
    is_valid_ticker (VStr t) = Ok true /\
    s' !! "ticker" = Some (VStr t) /\
    s' !! "price_history" = Some (_fetch_price_data (VStr t)) /\
    s' !! "technical_indicators"
      = Some (_calculate_technical_indicators (_fetch_price_data (VStr t))) /\
    s' !! "news_articles" = Some (AI._fetch_news_articles py_str (VStr t)) /\
    AI.news_content py_str (AI._fetch_news_articles py_str (VStr t)) = Ok text /\
    s' !! "sentiment_scores" = Some scores /\
    scores = match analyst (VStr t) text with
             | Ok v => v
             | Raise _ => AI.fallback_scores
             end /\
    s' !! "risk_profile"
      = Some (_generate_risk_profile (_fetch_price_data (VStr t))
                (_calculate_technical_indicators (_fetch_price_data (VStr t)))
                scores) /\
    (forall r,
        writer (VStr t) (_calculate_technical_indicators (_fetch_price_data (VStr t)))
          scores
          (_generate_risk_profile (_fetch_price_data (VStr t))
             (_calculate_technical_indicators (_fetch_price_data (VStr t))) scores)
          2 = Ok r -> report = r) /\
    (forall x,
        writer (VStr t) (_calculate_technical_indicators (_fetch_price_data (VStr t)))
          scores
          (_generate_risk_profile (_fetch_price_data (VStr t))
             (_calculate_technical_indicators (_fetch_price_data (VStr t))) scores)
          2 = Raise x ->
        report_template py_str (VStr t) (_fetch_price_data (VStr t))
          (_calculate_technical_indicators (_fetch_price_data (VStr t)))
          (AI._fetch_news_articles py_str (VStr t)) scores
          (_generate_risk_profile (_fetch_price_data (VStr t))
             (_calculate_technical_indicators (_fetch_price_data (VStr t))) scores)
        = Ok report) /\
    messages s' = Some (log ++ new)%list /\
    List.map agent_of new
      = List.map (fun a => Some (VStr a))
          ["ai_ticker_extraction"; "price_retrieval"; "technical_analysis";
           "news_retrieval"; "ai_sentiment_analysis"; "ai_financial_reporter"] /\
    last new = Some (message "ai_financial_reporter" report fixed_timestamp None) /\
    (forall k, ~ In k analysis_keys -> s' !! k = s !! k).
Proof.
  intros Hlog Hin Ha.
  destruct (ai_ticker_step s log Hlog Hin) as (t & e1 & Hv & _ & A1 & H1).
  apply messages_lookup in Hlog.
  destruct (ai_news_content (VStr t)) as [text Htext].
  exists t.
  unfold AI.run, AI.workflow. cbn [AI.run_stages AI.run_stage].
  unfold bind at 1. rewrite H1.
  unfold bind at 1. unfold AI._price_retrieval_agent.
  rewrite (price_retrieval_step py_str _ _ (VStr t)) by read_state.
  unfold bind at 1. unfold AI._technical_analysis_agent.
  rewrite (technical_analysis_step py_str _ _ (_fetch_price_data (VStr t)))
    by read_state.
  unfold bind at 1. unfold AI._news_retrieval_agent.
  rewrite (news_retrieval_step py_str (AI._fetch_news_articles py_str) _ _ (VStr t)
             (match AI._fetch_news_articles py_str (VStr t) with
              | VList l => l | _ => [] end))
    by first [reflexivity | read_state].
  unfold bind at 1.
  match goal with
  | |- context [AI._ai_sentiment_analysis_agent py_str analyst ?st] =>
      edestruct (ai_sentiment_step st) as (e5 & scores & Hs & A5 & H5)
  end.
  1-3: read_state.
  { exact Htext. }
  { apply Ha. }
  rewrite H5. unfold bind at 1.
  match goal with
  | |- context [AI._ai_financial_reporter_agent py_str writer ?st] =>
      edestruct (ai_reporter_step st) as (report & Hw & Hf & H6)
  end.
  1-6: read_state.
  rewrite H6. cbn [AI.run_stages ret].
  eexists. eexists. exists text, (VDict scores), report.
  split; [reflexivity|]. split; [exact Hv|].
  split; [read_state|]. split; [read_state|]. split; [read_state|].
  split; [read_state|]. split; [exact Htext|]. split; [read_state|].
  split; [symmetry; exact Hs|]. split; [read_state|].
  split; [exact Hw|]. split; [exact Hf|].
  split; [unfold messages; rewrite lookup_insert_eq, <- !app_assoc; reflexivity|].
  split; [cbn [List.map app]; rewrite A1, A5; reflexivity|].
  split; [reflexivity|].
  intros k Hk. unfold analysis_keys in Hk. cbn [In] in Hk.
  rewrite !lookup_insert_ne by (intros E; subst k; tauto). reflexivity.
Qed.

(** X10: the sentiment stage does not check what the model's JSON is: when
    the parsed response is not an object (a list, a number, a string,
    null), the stage stores it as the sentiment scores and then raises
    [AttributeError] while it builds its log entry, outside the [try]
    block; the log is unchanged. *)
Theorem ai_sentiment_rejects_non_object (s : state) (log : list value)
    (news ticker v : value) (text : string) :
  s !! "news_articles" = Some news ->
  s !! "ticker" = Some ticker ->
  messages s = Some log ->
  AI.news_content py_str news = Ok text ->
  analyst ticker text = Ok v ->
  (forall d, v <> VDict d) ->
  AI._ai_sentiment_analysis_agent py_str analyst s
  = (Raise AttributeError, <["sentiment_scores" := v]> s) /\
  messages (<["sentiment_scores" := v]> s) = Some log.
Proof.
  intros Hn Ht Hlog Hc Ha Hv. split.
  - apply messages_lookup in Hlog.
    unfold AI._ai_sentiment_analysis_agent, bind, state_getitem, lift.
    rewrite Hn, Ht, Hc, Ha. unfold state_set, append_message.
    rewrite lookup_insert_ne by discriminate. rewrite Hlog.
    destruct v as [ | | | | | |d]; try reflexivity.
    exfalso. apply (Hv d). reflexivity.
  - rewrite messages_insert_other by discriminate. exact Hlog.
Qed.

End AISteps.

Lemma basic_run_completes_example :
  exists t s',
    Basic.run plain_str example_state = (Ok tt, s') /\
    In t common_tickers /\
    s' !! "ticker" = Some (VStr t).
Proof.
  destruct (basic_run_completes plain_str example_state
              [dict [("role", VStr "user"); ("content", VStr "Analyze XYZ");
                     ("timestamp", VStr "2024-01-01T00:00:00Z")]])
    as (t & s' & new & H & Ht & Hk & _).
  - vm_compute; reflexivity.
  - vm_compute; reflexivity.
  - exists t, s'. split; [exact H|]. split; [exact Ht | exact Hk].
Defined.

Lemma ai_run_completes_example :
  exists t s',
    AI.run plain_str (fun _ => Raise (ExternalError "timeout"))
      (fun _ _ => Raise (ExternalError "timeout"))
      (fun _ _ _ _ _ => Raise (ExternalError "timeout")) example_state = (Ok tt, s') /\
    s' !! "ticker" = Some (VStr t) /\
    s' !! "sentiment_scores" = Some AI.fallback_scores.
Proof.
  destruct (ai_run_completes plain_str (fun _ => Raise (ExternalError "timeout"))
              (fun _ _ => Raise (ExternalError "timeout"))
              (fun _ _ _ _ _ => Raise (ExternalError "timeout")) example_state
              [dict [("role", VStr "user"); ("content", VStr "Analyze XYZ");
                     ("timestamp", VStr "2024-01-01T00:00:00Z")]])
    as (t & s' & new & text & scores & report & H & _ & Hk & _ & _ & _ & _ & Hs & E & _).
  - vm_compute; reflexivity.
  - vm_compute; reflexivity.
  - intros ticker text v [=].
  - exists t, s'. split; [exact H|]. split; [exact Hk|]. rewrite Hs, E. reflexivity.
Defined.

Lemma ai_sentiment_rejects_non_object_example :
  AI._ai_sentiment_analysis_agent plain_str (fun _ _ => Ok (VList []))
    (<["news_articles" := VList []]> (<["ticker" := VStr "BTC"]> example_state))
  = (Raise AttributeError,
     <["sentiment_scores" := VList []]>
       (<["news_articles" := VList []]> (<["ticker" := VStr "BTC"]> example_state))).
Proof.
  apply (ai_sentiment_rejects_non_object plain_str (fun _ _ => Ok (VList []))
           (<["news_articles" := VList []]> (<["ticker" := VStr "BTC"]> example_state))
           [dict [("role", VStr "user"); ("content", VStr "Analyze XYZ");
                  ("timestamp", VStr "2024-01-01T00:00:00Z")]]
           (VList []) (VStr "BTC") (VList []) "").
  - reflexivity.
  - reflexivity.
  - vm_compute; reflexivity.
  - reflexivity.
  - reflexivity.
  - intros d; discriminate.
Defined.

(** ** The log across the stages of a run *)

Lemma keeps_state_getitem (key k : string) : keeps key (state_getitem k).
Proof. intros s. unfold state_getitem. destruct (s !! k); reflexivity. Qed.

Ltac appends_one_item :=
  repeat (apply appends_bind;
          [unfold keeps_log; first [apply keeps_state_getitem | keeps_step]
          | intros ?]);
  try apply appends_append_message.

Lemma appends_basic_stage (py_str : value -> string) (st : Basic.stage) :
  appends_one_entry (Basic.run_stage py_str st).
Proof.
  destruct st; cbn [Basic.run_stage];
    unfold _ticker_extraction_agent,
      Basic._price_retrieval_agent, price_retrieval_stage,
      Basic._technical_analysis_agent, technical_analysis_stage,
      Basic._news_retrieval_agent, news_retrieval_stage,
      Basic._sentiment_analysis_agent, Basic._financial_reporter_agent;
    appends_one_item.
Qed.

Lemma appends_ai_stage (py_str : value -> string) (llm : value -> result string)
    (analyst : value -> string -> result value)
    (writer : value -> value -> value -> value -> Z -> result string)
    (st : AI.stage) :
  appends_one_entry (AI.run_stage py_str llm analyst writer st).
Proof.
  destruct st; cbn [AI.run_stage];
    unfold _ai_ticker_extraction_agent,
      AI._price_retrieval_agent, price_retrieval_stage,
      AI._technical_analysis_agent, technical_analysis_stage,
      AI._news_retrieval_agent, news_retrieval_stage,
      AI._ai_sentiment_analysis_agent, AI._ai_financial_reporter_agent;
    appends_one_item.
  apply appends_bind; [|intros ?; apply appends_append_message].
  unfold keeps_log.
  match goal with |- keeps _ (match ?r with _ => _ end) => destruct r end;
    keeps_step.
Qed.

Section Accounting.

Variable St : Type.
Variable run_stage : St -> M unit.
Variable run_stages : list St -> M unit.
Hypothesis run_nil : run_stages [] = ret tt.
Hypothesis run_cons :
  forall st rest,
    run_stages (st :: rest) = bind (run_stage st) (fun _ => run_stages rest).
Hypothesis stage_appends : forall st, appends_one_entry (run_stage st).

Lemma run_stages_log (sts : list St) (s : state) :
  match run_stages sts s with
  | (Ok _, s') =>
      (sts = [] /\ s' = s) \/
      exists log new,
        messages s = Some log /\ messages s' = Some (log ++ new)%list /\
        length new = length sts
  | (Raise _, s') =>
      s' !! "messages" = s !! "messages" \/
      exists log new,
        messages s = Some log /\ messages s' = Some (log ++ new)%list /\
        (0 < length new < length sts)%nat
  end.
Proof.
  revert s. induction sts as [|st rest IH]; intros s.
  - rewrite run_nil. left. split; reflexivity.
  - rewrite run_cons. unfold bind.
    pose proof (stage_appends st s) as H.
    destruct (run_stage st s) as [[[]|x] s1].
    + destruct H as (log & e & Hs & Hs1).
      specialize (IH s1).
      destruct (run_stages rest s1) as [[[]|x] s2] eqn:E.
      * right. exists log.
        destruct IH as [[-> ->] | (log1 & new1 & L1 & L2 & Hlen)].
        -- exists [e]. repeat split; assumption.
        -- exists (e :: new1). rewrite Hs1 in L1. injection L1 as <-.
           split; [exact Hs|]. split; [|cbn [length]; lia].
           rewrite L2, <- app_assoc. reflexivity.
      * right. exists log.
        assert (Hrest : (0 < length rest)%nat).
        { destruct rest; [|cbn [length]; lia].
          rewrite run_nil in E. discriminate E. }
        destruct IH as [Hk | (log1 & new1 & L1 & L2 & Hlen)].
        -- exists [e]. split; [exact Hs|]. split; [|cbn [length]; lia].
           rewrite <- Hs1. apply messages_eq. exact Hk.
        -- exists (e :: new1). rewrite Hs1 in L1. injection L1 as <-.
           split; [exact Hs|]. split; [|cbn [length]; lia].
           rewrite L2, <- app_assoc. reflexivity.
    + left. exact H.
Qed.

End Accounting.

(** X11: the log across a run.  For each of the three workflows, on any
    state and whatever the external collaborators do: when the run returns,
    the log it was given is a prefix of the final log, followed by exactly
    one entry per stage (six, six and eight); when a stage raises, the log
    is either as the run found it or the given log followed by fewer
    entries than there are stages. *)
Theorem run_log_accounting (py_str : value -> string) (s : state) :
  log_outcome s 6 (Basic.run py_str s) /\
  (forall llm analyst writer,
      log_outcome s 6 (AI.run py_str llm analyst writer s)) /\
  (forall exn_str fixed2 text_len extractor now,
      log_outcome s 8 (run py_str exn_str fixed2 text_len extractor now s)).
Proof.
  unfold log_outcome. split; [|split].
  - pose proof (run_stages_log Basic.stage (Basic.run_stage py_str)
                  (Basic.run_stages py_str) eq_refl (fun _ _ => eq_refl)
                  (appends_basic_stage py_str) Basic.workflow s) as H.
    unfold Basic.run.
    destruct (Basic.run_stages py_str Basic.workflow s) as [[[]|x] s'].
    + destruct H as [[H _] | H]; [discriminate H | exact H].
    + exact H.
  - intros llm analyst writer.
    pose proof (run_stages_log AI.stage (AI.run_stage py_str llm analyst writer)
                  (AI.run_stages py_str llm analyst writer) eq_refl
                  (fun _ _ => eq_refl)
                  (appends_ai_stage py_str llm analyst writer) AI.workflow s) as H.
    unfold AI.run.
    destruct (AI.run_stages py_str llm analyst writer AI.workflow s) as [[[]|x] s'].
    + destruct H as [[H _] | H]; [discriminate H | exact H].
    + exact H.
  - intros exn_str fixed2 text_len extractor now.
    pose proof (run_stages_log stage
                  (run_stage py_str exn_str fixed2 text_len extractor now)
                  (run_stages py_str exn_str fixed2 text_len extractor now) eq_refl
                  (fun _ _ => eq_refl)
                  (appends_run_stage py_str exn_str fixed2 text_len extractor now)
                  workflow s) as H.
    unfold run.
    destruct (run_stages py_str exn_str fixed2 text_len extractor now workflow s)
      as [[[]|x] s'].
    + destruct H as [[H _] | H]; [discriminate H | exact H].
    + exact H.
Qed.

(** X12: each stage of the basic workflow and of the AI-enhanced workflow,
    whatever its model chains do, has appended exactly one entry to the log
    when it returns, the earlier entries being kept in order before it; a
    stage that raises leaves the log as it found it. *)
Theorem basic_and_ai_stages_append_one_entry (py_str : value -> string) :
  (forall st, appends_one_entry (Basic.run_stage py_str st)) /\
  (forall llm analyst writer st,
      appends_one_entry (AI.run_stage py_str llm analyst writer st)).
Proof.
  split.
  - apply appends_basic_stage.
  - intros llm analyst writer. apply appends_ai_stage.
Qed.

(** ** What a stage of the enhanced workflow leaves alone *)

Ltac frame_step Hk :=
  first [ apply keeps_state_get
        | apply keeps_lift
        | apply keeps_ret
        | apply keeps_read_user_input
        | apply keeps_state_set; intros E; apply Hk; rewrite <- E; cbn; tauto
        | apply keeps_append_message; intros E; apply Hk; rewrite <- E; cbn; tauto ].

Ltac frame_all Hk :=
  repeat (apply keeps_bind; [frame_step Hk | intros ?]); try frame_step Hk.

(** X13: a stage of the enhanced workflow assigns only its own fields:
    whether it returns or raises, and whatever the extractor does, every
    state key outside the stage's list has the value it had before.  In
    particular the human-in-the-loop stage changes nothing but the log (it
    never alters the review decision or the extracted assets), and no stage
    after the first changes the extracted assets or the ticker. *)
Theorem stage_assigns_only_its_fields (py_str : value -> string)
    (exn_str : exn -> string) (fixed2 : value -> string) (text_len : string -> Z)
    (extractor : value -> result value) (now : string) (st : stage) (k : string) :
  ~ In k (stage_writes st) ->
  keeps k (run_stage py_str exn_str fixed2 text_len extractor now st).
Proof.
  intros Hk. destruct st; cbn [stage_writes] in Hk; cbn [run_stage].
  - unfold _enhanced_asset_extraction_agent.
    apply keeps_bind; [frame_step Hk | intros ui].
    apply keeps_try_except.
    + unfold extraction_try. frame_all Hk.
    + intros e. unfold extraction_except. frame_all Hk.
  - unfold _asset_validation_agent. frame_all Hk.
  - unfold _human_in_the_loop_agent.
    apply keeps_bind; [frame_step Hk | intros required].
    destruct (negb (Py.truthy required)); frame_all Hk.
  - unfold _price_retrieval_agent. frame_all Hk.
  - unfold _technical_analysis_agent. frame_all Hk.
  - unfold _news_retrieval_agent. frame_all Hk.
  - unfold _sentiment_analysis_agent. frame_all Hk.
  - unfold _comprehensive_reporter_agent. frame_all Hk.
Qed.

Lemma stage_assigns_only_its_fields_example :
  (run_stage plain_str plain_exn plain_str plain_len (fun _ => Ok response_bitcoin)
     "2024-01-01T00:00:01" human_in_the_loop
     (<["hitl_required" := VBool true]> example_state)).2 !! "hitl_required"
  = (<["hitl_required" := VBool true]> example_state) !! "hitl_required".
Proof.
  apply (stage_assigns_only_its_fields plain_str plain_exn plain_str plain_len
           (fun _ => Ok response_bitcoin) "2024-01-01T00:00:01" human_in_the_loop
           "hitl_required").
  cbn. intros [H | []]. discriminate H.
Defined.

(** ** The per-ticker maps of the enrichment stages *)

Lemma lookup_store_str (t t' : string) (v : value) (d : list (value * value)) :
  Py.lookup (VStr t') (Py.store (VStr t) v d)
  = if String.eqb t' t then Some v else Py.lookup (VStr t') d.
Proof.
  induction d as [|[k w] d IH]; cbn [Py.store Py.lookup].
  - change (Py.key_eqb (VStr t) (VStr t')) with (String.eqb t t').
    rewrite (String.eqb_sym t' t). reflexivity.
  - destruct (Py.key_eqb k (VStr t)) eqn:E.
    + apply key_eqb_str_r in E. subst k. cbn [Py.lookup].
      change (Py.key_eqb (VStr t) (VStr t')) with (String.eqb t t').
      rewrite (String.eqb_sym t' t). destruct (String.eqb t t'); reflexivity.
    + cbn [Py.lookup]. destruct (Py.key_eqb k (VStr t')) eqn:E'.
      * apply key_eqb_str_r in E'. subst k.
        change (Py.key_eqb (VStr t') (VStr t)) with (String.eqb t' t) in E.
        rewrite E. reflexivity.
      * exact IH.
Qed.

Lemma asset_ticker (a : value) :
  asset_ok a = true ->
  exists t, Py.get a (VStr "ticker") (VStr "") = Ok (VStr t) /\
            field "ticker" (Some a) = Some (VStr t).
Proof.
  intros H. destruct (asset_ok_fields a H) as (d & t & c & -> & Ht & _).
  exists t. split; [rewrite get_str_key, Ht; reflexivity | exact Ht].
Qed.

Lemma per_asset_lookup (fetch : value -> value) (l : list value) :
  forallb asset_ok l = true ->
  forall acc d, per_asset fetch acc l = Ok d ->
  forall t, Py.lookup (VStr t) d
            = if string_in t (ticker_strings l) then Some (fetch (VStr t))
              else Py.lookup (VStr t) acc.
Proof.
  induction l as [|a l IH]; intros Hl acc d Hd t.
  - cbn in Hd. injection Hd as <-. reflexivity.
  - cbn [forallb] in Hl. apply andb_prop in Hl as [Ha Hl].
    destruct (asset_ticker a Ha) as (t0 & Hg & Hf).
    cbn [per_asset] in Hd. rewrite Hg in Hd. cbn [rbind Py.setitem Py.hashable] in Hd.
    rewrite (IH Hl _ _ Hd t), lookup_store_str.
    unfold ticker_strings. cbn [flat_map]. rewrite Hf. cbn [app].
    fold (ticker_strings l). unfold string_in. cbn [existsb].
    fold (string_in t (ticker_strings l)).
    destruct (String.eqb t t0) eqn:E.
    + apply String.eqb_eq in E. subst t0. cbn [orb].
      destruct (string_in t (ticker_strings l)); reflexivity.
    + reflexivity.
Qed.

Lemma store_determined (g : value -> value) (t : string) (d : list (value * value)) :
  Forall (fun kv => exists u, kv = (VStr u, g (VStr u))) d ->
  Forall (fun kv => exists u, kv = (VStr u, g (VStr u)))
         (Py.store (VStr t) (g (VStr t)) d).
Proof.
  induction d as [|[k w] d IH]; intros H; cbn [Py.store].
  - apply List.Forall_cons; [exists t; reflexivity | apply List.Forall_nil].
  - inversion H as [|? ? Hkw Hd]; subst.
    destruct (Py.key_eqb k (VStr t)) eqn:E.
    + apply key_eqb_str_r in E. subst k.
      apply List.Forall_cons; [exists t; reflexivity | exact Hd].
    + apply List.Forall_cons; [exact Hkw | apply IH; exact Hd].
Qed.

Lemma per_asset_determined (fetch : value -> value) (l : list value) :
  forallb asset_ok l = true ->
  forall acc d,
    Forall (fun kv => exists u, kv = (VStr u, fetch (VStr u))) acc ->
    per_asset fetch acc l = Ok d ->
    Forall (fun kv => exists u, kv = (VStr u, fetch (VStr u))) d.
Proof.
  induction l as [|a l IH]; intros Hl acc d Hacc Hd.
  - cbn in Hd. injection Hd as <-. exact Hacc.
  - cbn [forallb] in Hl. apply andb_prop in Hl as [Ha Hl].
    destruct (asset_ticker a Ha) as (t0 & Hg & _).
    cbn [per_asset] in Hd. rewrite Hg in Hd. cbn [rbind Py.setitem Py.hashable] in Hd.
    apply (IH Hl _ _ (store_determined fetch t0 acc Hacc) Hd).
Qed.

Lemma per_item_lookup (compute g : value -> value) (src : list (value * value)) :
  Forall (fun kv => exists u, kv = (VStr u, g (VStr u))) src ->
  forall acc d, per_item compute acc src = Ok d ->
  forall t, Py.lookup (VStr t) d
            = match Py.lookup (VStr t) src with
              | Some _ => Some (compute (g (VStr t)))
              | None => Py.lookup (VStr t) acc
              end.
Proof.
  induction src as [|[k data] src IH]; intros Hsrc acc d Hd t.
  - cbn in Hd. injection Hd as <-. reflexivity.
  - inversion Hsrc as [|? ? [t0 Hkv] Hrest]; subst. injection Hkv as -> ->.
    cbn [per_item Py.setitem Py.hashable rbind] in Hd.
    rewrite (IH Hrest _ _ Hd t), lookup_store_str. cbn [Py.lookup].
    change (Py.key_eqb (VStr t0) (VStr t)) with (String.eqb t0 t).
    rewrite (String.eqb_sym t0 t).
    destruct (String.eqb t t0) eqn:E.
    + apply String.eqb_eq in E. subst t0.
      destruct (Py.lookup (VStr t) src); reflexivity.
    + reflexivity.
Qed.

Section Enrichment.

Variable py_str : value -> string.
Variable now : string.

Lemma price_step_maps (s : state) (log l : list value) (t0 : string)
    (dp : list (value * value)) :
  s !! "extracted_assets" = Some (VList l) ->
  per_asset _fetch_price_data [] l = Ok dp ->
  s !! "ticker" = Some (VStr t0) ->
  s !! "messages" = Some (VList log) ->
  exists e,
    _price_retrieval_agent py_str now s
    = (Ok tt,
       <["messages" := VList (log ++ [e])]>
         (<["all_price_data" := VDict dp]>
            (<["price_history" :=
                 match Py.lookup (VStr t0) dp with Some v => v | None => VList [] end]>
               s))).
Proof.
  intros Ha Hp Ht Hlog.
  unfold _price_retrieval_agent, bind, state_get, lift, state_set.
  rewrite Ha, Ht. cbn [Py.iter rbind]. rewrite Hp, get_str_key.
  unfold append_message. rewrite !lookup_insert_ne by discriminate. rewrite Hlog.
  cbn [Py.len rbind]. eexists. reflexivity.
Qed.

Lemma news_step_maps (s : state) (log l : list value) (t0 : string)
    (dn : list (value * value)) :
  s !! "extracted_assets" = Some (VList l) ->
  per_asset (_fetch_news_articles py_str) [] l = Ok dn ->
  s !! "ticker" = Some (VStr t0) ->
  s !! "messages" = Some (VList log) ->
  exists e,
    _news_retrieval_agent py_str now s
    = (Ok tt,
       <["messages" := VList (log ++ [e])]>
         (<["all_news" := VDict dn]>
            (<["news_articles" :=
                 match Py.lookup (VStr t0) dn with Some v => v | None => VList [] end]>
               s))).
Proof.
  intros Ha Hp Ht Hlog.
  unfold _news_retrieval_agent, bind, state_get, lift, state_set.
  rewrite Ha, Ht. cbn [Py.iter rbind]. rewrite Hp, get_str_key.
  unfold append_message. rewrite !lookup_insert_ne by discriminate. rewrite Hlog.
  cbn [Py.len rbind]. eexists. reflexivity.
Qed.

Lemma technical_step_maps (s : state) (log : list value) (t0 : string)
    (dp di : list (value * value)) :
  s !! "all_price_data" = Some (VDict dp) ->
  per_item _calculate_technical_indicators [] dp = Ok di ->
  s !! "ticker" = Some (VStr t0) ->
  s !! "messages" = Some (VList log) ->
  exists e,
    _technical_analysis_agent py_str now s
    = (Ok tt,
       <["messages" := VList (log ++ [e])]>
         (<["all_technical_indicators" := VDict di]>
            (<["technical_indicators" :=
                 match Py.lookup (VStr t0) di with Some v => v | None => dict [] end]>
               s))).
Proof.
  intros Ha Hp Ht Hlog.
  unfold _technical_analysis_agent, bind, state_get, lift, state_set.
  rewrite Ha, Ht. cbn [Py.items rbind]. rewrite Hp, get_str_key.
  unfold append_message. rewrite !lookup_insert_ne by discriminate. rewrite Hlog.
  eexists. reflexivity.
Qed.

Lemma sentiment_step_maps (s : state) (log : list value) (t0 : string)
    (dn ds : list (value * value)) :
  s !! "all_news" = Some (VDict dn) ->
  per_item _analyze_sentiment [] dn = Ok ds ->
  s !! "ticker" = Some (VStr t0) ->
  s !! "messages" = Some (VList log) ->
  exists e,
    _sentiment_analysis_agent py_str now s
    = (Ok tt,
       <["messages" := VList (log ++ [e])]>
         (<["all_sentiment" := VDict ds]>
            (<["sentiment_scores" :=
                 match Py.lookup (VStr t0) ds with Some v => v | None => dict [] end]>
               s))).
Proof.
  intros Ha Hp Ht Hlog.
  unfold _sentiment_analysis_agent, bind, state_get, lift, state_set.
  rewrite Ha, Ht. cbn [Py.items rbind]. rewrite Hp, get_str_key.
  unfold append_message. rewrite !lookup_insert_ne by discriminate. rewrite Hlog.
  eexists. reflexivity.
Qed.

End Enrichment.

(** X14: the four enrichment stages cover every extracted asset.  On a
    state with a log, a string ticker and a list of extracted assets that
    are dictionaries with a string ticker and a float confidence, the
    price, technical, news and sentiment stages run in sequence return;
    each of the four per-ticker maps then has an entry exactly for the
    tickers of the extracted assets (a ticker listed twice gets one entry),
    holding what the stage's collaborator computes for that ticker; the
    four single-asset fields hold the entry of the primary ticker, or an
    empty list or dictionary when the primary ticker is not among the
    extracted assets; the log has grown by four entries. *)
Theorem enrichment_covers_extracted_assets (py_str : value -> string)
    (exn_str : exn -> string) (fixed2 : value -> string) (text_len : string -> Z)
    (extractor : value -> result value) (now : string)
    (s : state) (log l : list value) (t0 : string) :
  messages s = Some log ->
  s !! "extracted_assets" = Some (VList l) ->
  forallb asset_ok l = true ->
  s !! "ticker" = Some (VStr t0) ->
  exists s' dp di dn ds new,
    run_stages py_str exn_str fixed2 text_len extractor now
      [price_retrieval; technical_analysis; news_retrieval; sentiment_analysis] s
    = (Ok tt, s') /\
    s' !! "all_price_data" = Some (VDict dp) /\
    s' !! "all_technical_indicators" = Some (VDict di) /\
    s' !! "all_news" = Some (VDict dn) /\
    s' !! "all_sentiment" = Some (VDict ds) /\
    (forall t,
        Py.lookup (VStr t) dp
        = (if string_in t (ticker_strings l)
           then Some (_fetch_price_data (VStr t)) else None) /\
        Py.lookup (VStr t) di
        = (if string_in t (ticker_strings l)
           then Some (_calculate_technical_indicators (_fetch_price_data (VStr t)))
           else None) /\
        Py.lookup (VStr t) dn
        = (if string_in t (ticker_strings l)
           then Some (_fetch_news_articles py_str (VStr t)) else None) /\
        Py.lookup (VStr t) ds
        = (if string_in t (ticker_strings l)
           then Some (_analyze_sentiment (_fetch_news_articles py_str (VStr t)))
           else None)) /\
    s' !! "price_history"
      = Some (if string_in t0 (ticker_strings l)
              then _fetch_price_data (VStr t0) else VList []) /\
    s' !! "technical_indicators"
      = Some (if string_in t0 (ticker_strings l)
              then _calculate_technical_indicators (_fetch_price_data (VStr t0))
              else dict []) /\
    s' !! "news_articles"
      = Some (if string_in t0 (ticker_strings l)
              then _fetch_news_articles py_str (VStr t0) else VList []) /\
    s' !! "sentiment_scores"
      = Some (if string_in t0 (ticker_strings l)
              then _analyze_sentiment (_fetch_news_articles py_str (VStr t0))
              else dict []) /\
    messages s' = Some (log ++ new)%list /\
    length new = 4%nat.
Proof.
  intros Hlog Ha Hl Ht. apply messages_lookup in Hlog.
  destruct (per_asset_total _fetch_price_data l Hl [] eq_refl) as (dp & Hp & Kp).
  destruct (per_item_total _calculate_technical_indicators dp Kp [] eq_refl)
    as (di & Hi & _).
  destruct (per_asset_total (_fetch_news_articles py_str) l Hl [] eq_refl)
    as (dn & Hn & Kn).
  destruct (per_item_total _analyze_sentiment dn Kn [] eq_refl) as (ds & Hs & _).
  pose proof (per_asset_lookup _ l Hl _ _ Hp) as Lp.
  pose proof (per_asset_lookup _ l Hl _ _ Hn) as Ln.
  pose proof (per_item_lookup _calculate_technical_indicators _fetch_price_data dp
                (per_asset_determined _ l Hl [] dp (List.Forall_nil _) Hp) _ _ Hi)
    as Li.
  pose proof (per_item_lookup _analyze_sentiment (_fetch_news_articles py_str) dn
                (per_asset_determined _ l Hl [] dn (List.Forall_nil _) Hn) _ _ Hs)
    as Ls.
  assert (Mi : forall t, Py.lookup (VStr t) di
                         = if string_in t (ticker_strings l)
                           then Some (_calculate_technical_indicators
                                        (_fetch_price_data (VStr t)))
                           else None).
  { intros t. rewrite Li, Lp. destruct (string_in t (ticker_strings l)); reflexivity. }
  assert (Ms : forall t, Py.lookup (VStr t) ds
                         = if string_in t (ticker_strings l)
                           then Some (_analyze_sentiment
                                        (_fetch_news_articles py_str (VStr t)))
                           else None).
  { intros t. rewrite Ls, Ln. destruct (string_in t (ticker_strings l)); reflexivity. }
  cbn [Py.lookup] in Lp, Ln.
  destruct (price_step_maps py_str now s log l t0 dp Ha Hp Ht Hlog) as [e1 H1].
  cbn [run_stages run_stage]. unfold bind at 1. rewrite H1. unfold bind at 1.
  match goal with
  | |- context [_technical_analysis_agent py_str now ?st] =>
      edestruct (technical_step_maps py_str now st) as [e2 H2];
        [| exact Hi | | |]
  end.
  1-3: read_state.
  rewrite H2. unfold bind at 1.
  match goal with
  | |- context [_news_retrieval_agent py_str now ?st] =>
      edestruct (news_step_maps py_str now st) as [e3 H3];
        [| exact Hn | | |]
  end.
  1-3: read_state.
  rewrite H3. unfold bind at 1.
  match goal with
  | |- context [_sentiment_analysis_agent py_str now ?st] =>
      edestruct (sentiment_step_maps py_str now st) as [e4 H4];
        [| exact Hs | | |]
  end.
  1-3: read_state.
  rewrite H4. cbn [ret].
  eexists. exists dp, di, dn, ds, [e1; e2; e3; e4].
  split; [reflexivity|].
  split; [read_state|]. split; [read_state|]. split; [read_state|].
  split; [read_state|].
  split; [intros t; repeat split; [apply Lp | apply Mi | apply Ln | apply Ms]|].
  split; [rewrite !lookup_insert_ne by discriminate; rewrite lookup_insert_eq, Lp;
          destruct (string_in t0 (ticker_strings l)); reflexivity|].
  split; [rewrite !lookup_insert_ne by discriminate; rewrite lookup_insert_eq, Mi;
          destruct (string_in t0 (ticker_strings l)); reflexivity|].
  split; [rewrite !lookup_insert_ne by discriminate; rewrite lookup_insert_eq, Ln;
          destruct (string_in t0 (ticker_strings l)); reflexivity|].
  split; [rewrite !lookup_insert_ne by discriminate; rewrite lookup_insert_eq, Ms;
          destruct (string_in t0 (ticker_strings l)); reflexivity|].
  split; [|reflexivity].
  unfold messages. rewrite lookup_insert_eq, <- !app_assoc. reflexivity.
Qed.

Lemma enrichment_covers_extracted_assets_example :
  exists s' dp,
    run_stages plain_str plain_exn plain_str plain_len (fun _ => Ok response_bitcoin)
      "2024-01-01T00:00:01"
      [price_retrieval; technical_analysis; news_retrieval; sentiment_analysis]
      (<["ticker" := VStr "BTC"]>
         (<["extracted_assets" := VList [fallback_asset; fallback_asset]]>
            example_state))
    = (Ok tt, s') /\
    s' !! "all_price_data" = Some (VDict dp) /\
    Py.lookup (VStr "BTC") dp = Some (_fetch_price_data (VStr "BTC")) /\
    Py.lookup (VStr "ETH") dp = None.
Proof.
  destruct (enrichment_covers_extracted_assets plain_str plain_exn plain_str plain_len
              (fun _ => Ok response_bitcoin) "2024-01-01T00:00:01"
              (<["ticker" := VStr "BTC"]>
                 (<["extracted_assets" := VList [fallback_asset; fallback_asset]]>
                    example_state))
              [dict [("role", VStr "user"); ("content", VStr "Analyze XYZ");
                     ("timestamp", VStr "2024-01-01T00:00:00Z")]]
              [fallback_asset; fallback_asset] "BTC")
    as (s' & dp & di & dn & ds & new & H & Hp & _ & _ & _ & Hm & _).
  - vm_compute; reflexivity.
  - vm_compute; reflexivity.
  - vm_compute; reflexivity.
  - vm_compute; reflexivity.
  - exists s', dp. split; [exact H|]. split; [exact Hp|].
    split; [apply (Hm "BTC") | apply (Hm "ETH")].
Defined.

(** ** Prompt variants *)

Lemma starts_with_app (p q s : string) :
  Str.starts_with (p ++ q) s = true -> Str.starts_with p s = true.
Proof.
  revert s. induction p as [|a p IH]; intros s; [reflexivity|].
  cbn [String.append Str.starts_with]. destruct s as [|b s]; [discriminate|].
  intros H. apply andb_prop in H as [H1 H2]. rewrite H1. cbn [andb]. apply IH. exact H2.
Qed.

Lemma variant_lines_absent (header : string) (lines : list string) :
  Forall (fun line => Str.starts_with header (Str.strip line) = false) lines ->
  Prompts.variant_lines header false lines = [].
Proof.
  induction 1 as [|line lines H _ IH]; cbn [Prompts.variant_lines]; [reflexivity|].
  rewrite H. cbn [andb]. exact IH.
Qed.

Lemma variant_lines_before (header : string) (before rest : list string) :
  Forall (fun line => Str.starts_with header (Str.strip line) = false) before ->
  Prompts.variant_lines header false (before ++ rest)
  = Prompts.variant_lines header false rest.
Proof.
  induction 1 as [|line lines H _ IH]; cbn [Prompts.variant_lines app]; [reflexivity|].
  rewrite H. cbn [andb]. exact IH.
Qed.

Lemma variant_lines_body (header : string) (body rest : list string) :
  Forall (fun line => Str.starts_with "# " (Str.strip line) = false) body ->
  (exists name, header = "# " ++ name) ->
  Prompts.variant_lines header true (body ++ rest)
  = (body ++ Prompts.variant_lines header true rest)%list.
Proof.
  intros Hb [name ->].
  induction Hb as [|line lines H _ IH]; cbn [Prompts.variant_lines app]; [reflexivity|].
  destruct (Str.starts_with ("# " ++ name) (Str.strip line)) eqn:E.
  - apply starts_with_app in E. congruence.
  - rewrite H. cbn [andb]. rewrite IH. reflexivity.
Qed.

(** X15: asking for a prompt variant the text does not have is not an
    error: when no line, once stripped, starts with the header of the
    variant, the extracted prompt is the empty string. *)
Theorem missing_variant_is_empty (full_text variant_name : string) :
  (forall line, In line (Prompts.split (ascii_of_nat 10) full_text) ->
                Str.starts_with ("# " ++ variant_name) (Str.strip line) = false) ->
  Prompts._extract_prompt_variant full_text variant_name = "".
Proof.
  intros H. unfold Prompts._extract_prompt_variant.
  rewrite variant_lines_absent; [reflexivity|].
  apply List.Forall_forall. exact H.
Qed.

Lemma missing_variant_is_empty_example :
  Prompts._extract_prompt_variant
    ("# TICKER_PROMPT" ++ nl ++ "Find the ticker." ++ nl) "ASSET_PROMPT" = "".
Proof.
  apply missing_variant_is_empty.
  intros line Hin. vm_compute in Hin.
  repeat (destruct Hin as [<- | Hin]; [vm_compute; reflexivity|]).
  destruct Hin.
Defined.

(** X16: a header is recognised by prefix, and a matching header never
    ends a variant.  When the text has a header line of the variant, then
    lines that are no headers, then a second line that starts with the same
    header (the header of a variant whose name extends this one), more lines
    that are no headers, and then some other header, the extracted prompt
    is the text of both blocks, joined and stripped: the lines of the
    longer-named variant are part of the shorter-named one. *)
Theorem variant_header_matches_by_prefix (full_text variant_name : string)
    (before body1 body2 rest : list string) (h1 h2 h3 : string) :
  Prompts.split (ascii_of_nat 10) full_text
  = (before ++ [h1] ++ body1 ++ [h2] ++ body2 ++ [h3] ++ rest)%list ->
  Forall (fun line => Str.starts_with ("# " ++ variant_name) (Str.strip line) = false)
         before ->
  Str.starts_with ("# " ++ variant_name) (Str.strip h1) = true ->
  Forall (fun line => Str.starts_with "# " (Str.strip line) = false) body1 ->
  Str.starts_with ("# " ++ variant_name) (Str.strip h2) = true ->
  Forall (fun line => Str.starts_with "# " (Str.strip line) = false) body2 ->
  Str.starts_with ("# " ++ variant_name) (Str.strip h3) = false ->
  Str.starts_with "# " (Str.strip h3) = true ->
  Prompts._extract_prompt_variant full_text variant_name
  = Str.strip (join nl (body1 ++ body2)).
Proof.
  intros Hsplit Hbefore H1 Hb1 H2 Hb2 H3 H3'.
  unfold Prompts._extract_prompt_variant. rewrite Hsplit. f_equal. f_equal.
  rewrite variant_lines_before by exact Hbefore.
  cbn [app Prompts.variant_lines]. rewrite H1.
  rewrite variant_lines_body by (try exact Hb1; eexists; reflexivity).
  cbn [app Prompts.variant_lines]. rewrite H2.
  rewrite variant_lines_body by (try exact Hb2; eexists; reflexivity).
  cbn [app Prompts.variant_lines]. rewrite H3, H3'. cbn [andb].
  rewrite app_nil_r. reflexivity.
Qed.

Lemma variant_header_matches_by_prefix_example :
  Prompts._extract_prompt_variant
    ("intro" ++ nl ++ "# PROMPT" ++ nl ++ "Name the asset." ++ nl
     ++ "# PROMPT_FAST" ++ nl ++ "Be brief." ++ nl ++ "# OTHER" ++ nl ++ "x")
    "PROMPT"
  = "Name the asset." ++ nl ++ "Be brief.".
Proof.
  apply (variant_header_matches_by_prefix _ "PROMPT" ["intro"] ["Name the asset."]
           ["Be brief."] ["x"] "# PROMPT" "# PROMPT_FAST" "# OTHER").
  - vm_compute; reflexivity.
  - apply List.Forall_cons; [vm_compute; reflexivity | apply List.Forall_nil].
  - vm_compute; reflexivity.
  - apply List.Forall_cons; [vm_compute; reflexivity | apply List.Forall_nil].
  - vm_compute; reflexivity.
  - apply List.Forall_cons; [vm_compute; reflexivity | apply List.Forall_nil].
  - vm_compute; reflexivity.
  - vm_compute; reflexivity.
Defined.

(** ** The enhanced workflow on an example *)

Lemma workflow_appends_eight_entries_example :
  exists s' entries,
    run plain_str plain_exn plain_str plain_len (fun _ => Ok response_bitcoin)
      "2024-01-01T00:00:01" example_state = (Ok tt, s') /\
    messages s' =
      Some ([dict [("role", VStr "user"); ("content", VStr "Analyze XYZ");
                   ("timestamp", VStr "2024-01-01T00:00:00Z")]] ++ entries)%list /\
    length entries = 8%nat.
Proof.
  apply (workflow_appends_eight_entries plain_str plain_exn plain_str plain_len
           (fun _ => Ok response_bitcoin) "2024-01-01T00:00:01" example_state).
  - vm_compute; reflexivity.
  - vm_compute; reflexivity.
  - intros ui. vm_compute; reflexivity.
Defined.
